(** * pos-retail: the distribution ledger, cashier transfers and returns

    A shallow embedding of the two request handlers that move stock:

    - the return handler, [POST] of
      [src/app/api/transactions/[id]/return/route.ts], called
      [processReturn] by the specification;
    - the cashier-to-cashier handler, [POST] of the transfer route, called
      [transferStock] by the specification;

    together with the Mongoose schema of a transaction, whose validators run
    when the return handler saves the transaction, and with the figures
    that the administrator's dashboard ([src/app/admin/page.tsx]) computes.

    Conventions of the embedding.

    - A JavaScript [number] is a rational ([Q]). The two handlers compute
      with quantities, which are counts, and with amounts of a few
      operations each; their arithmetic is exact and its results are
      compared with [==] ([Qeq]). What is stated of their amounts is the
      formula of the source or an order between amounts. The dashboard adds
      up and divides sales; there every operation is rounded to binary64
      ([binary64]), as the page does it.
    - [senderStock], which the transfer handler fills and reads by product
      id, is a plain object: reading a key that names a member of
      [Object.prototype] yields that member and not a number.
    - Identifiers (ObjectId, product id, cashier id) are strings, already in
      the canonical form that [toString()] yields.
    - The distribution collection is a [list Distribution]; a document handle
      is its position in the collection. Both handlers call [save()] right
      after they mutate a document, so the loaded document and the stored
      one agree all along, and one heap serves for both: mutate-and-save of
      the document [h] is [<[h := d]> db]. A query yields the list of the
      handles that matched when it ran.
    - Time stamps ([createdAt], [returnedAt]) are integers (milliseconds),
      and so is the [itemIndex] of a return line.
    - [Distribution.save()] succeeds; [Transaction.save()] succeeds when the
      schema validators accept the transaction and throws otherwise. *)

From Stdlib Require Import QArith Qminmax Qround Qpower Lqa ZArith String
  Permutation Sorted.
From stdpp Require Import base list strings gmap pretty.

Open Scope Q_scope.

(** ** JavaScript comparisons on numbers *)

Definition num_lt (a b : Q) : bool := negb (Qle_bool b a).
Definition num_le (a b : Q) : bool := Qle_bool a b.
Definition num_gt (a b : Q) : bool := num_lt b a.
Definition num_ge (a b : Q) : bool := num_le b a.
Definition num_eq (a b : Q) : bool := Qeq_bool a b.

(** [!s] for a string: only the empty string is falsy. *)
Definition str_falsy (s : string) : bool := String.eqb s "".

(** [!n] for a number: only zero is falsy. *)
Definition num_falsy (n : Q) : bool := num_eq n 0.

(** ** Binary64

    A JavaScript number is a binary64 floating-point number, and every
    arithmetic operation yields the exact result rounded to the nearest such
    number, a tie going to the one with an even significand. The rounding
    is defined here on the rationals; overflow to infinity is left out. *)

(** [2^e] *)
Definition pow2 (e : Z) : Q := Qpower 2 e.

(** For a positive [x], the exponent [e] with [2^e <= x < 2^(e+1)]. *)
Definition exponentOf (x : Q) : Z :=
  let e := (Z.log2 (Qnum x) - Z.log2 (Zpos (Qden x)))%Z in
  if Qle_bool (pow2 e) x then e else (e - 1)%Z.

(** The nearest integer, a tie going to the even one. *)
Definition nearestEven (x : Q) : Z :=
  let f := Qfloor x in
  let r := x - inject_Z f in
  if Qle_bool r (1 # 2)
  then if Qeq_bool r (1 # 2) then (if Z.even f then f else f + 1)%Z else f
  else (f + 1)%Z.

(** A positive number rounded to 53 significant bits, and to a multiple of
    [2^-1074] below [2^-1022]. *)
Definition magnitude64 (a : Q) : Q :=
  let ulp := pow2 (Z.max (exponentOf a) (-1022) - 52) in
  inject_Z (nearestEven (a / ulp)) * ulp.

Definition binary64 (x : Q) : Q :=
  if Qeq_bool x 0 then 0
  else if Qle_bool 0 x then magnitude64 x
  else - magnitude64 (- x).

(** ** Data model *)

(** *** Distributions (lots) *)

Inductive DistStatus := pending | delivered | cancelled.

Definition DistStatus_eqb (a b : DistStatus) : bool :=
  match a, b with
  | pending, pending | delivered, delivered | cancelled, cancelled => true
  | _, _ => false
  end.

Record DistItem := mkDistItem {
  di_productId : string;
  di_productName : string;
  di_productSku : string;
  di_category : string;
  di_quantity : Q;
  di_price : Q;
  di_totalValue : Q
}.

Record Distribution := mkDistribution {
  dist_adminId : string;
  dist_cashierId : string;
  dist_items : list DistItem;
  dist_totalValue : Q;
  dist_notes : string;
  dist_status : DistStatus;
  dist_createdAt : Z
}.

(** *** Transactions: the interfaces of the Mongoose model *)

Inductive TxStatus := completed | refunded | tx_cancelled.

Record ITransactionItem := mkTransactionItem {
  ti_productId : string;
  ti_productName : string;
  ti_productSku : string;
  ti_category : string;
  ti_quantity : Q;
  ti_price : Q;
  ti_discount : Q;
  ti_total : Q
}.

Record IReturnedItem := mkReturnedItem {
  ri_productId : string;
  ri_productName : string;
  ri_productSku : string;
  ri_category : string;
  ri_quantity : Q;
  ri_price : Q;
  ri_discount : Q;
  ri_total : Q;
  ri_returnAmount : Q;
  ri_description : string;
  ri_returnedAt : Z
}.

Record ITransaction := mkTransaction {
  tx_cashierId : string;
  tx_items : list ITransactionItem;
  tx_returnedItems : list IReturnedItem;
  tx_subtotal : Q;
  tx_overallDiscount : Q;
  tx_totalAmount : Q;
  tx_cashReceived : Q;
  tx_change : Q;
  tx_status : TxStatus
}.

(** *** The schema validators

    [TransactionItemSchema], [ReturnedItemSchema] and [TransactionSchema]:
    [required] on a string rejects the empty string, [min] and [max] bound a
    number. [save()] runs them and throws when one fails. *)

Definition required (s : string) : bool := negb (str_falsy s).
Definition min_ok (m v : Q) : bool := num_le m v.
Definition max_ok (m v : Q) : bool := num_le v m.

Definition TransactionItemSchema (it : ITransactionItem) : bool :=
  required (ti_productId it) && required (ti_productName it) &&
  required (ti_productSku it) && required (ti_category it) &&
  min_ok 1 (ti_quantity it) && min_ok 0 (ti_price it) &&
  min_ok 0 (ti_discount it) && max_ok 100 (ti_discount it) &&
  min_ok 0 (ti_total it).

Definition ReturnedItemSchema (r : IReturnedItem) : bool :=
  required (ri_productId r) && required (ri_productName r) &&
  required (ri_productSku r) && required (ri_category r) &&
  min_ok 1 (ri_quantity r) && min_ok 0 (ri_price r) &&
  min_ok 0 (ri_discount r) && max_ok 100 (ri_discount r) &&
  min_ok 0 (ri_total r) && min_ok 0 (ri_returnAmount r) &&
  required (ri_description r).

Definition TransactionSchema (t : ITransaction) : bool :=
  required (tx_cashierId t) &&
  forallb TransactionItemSchema (tx_items t) &&
  forallb ReturnedItemSchema (tx_returnedItems t) &&
  min_ok 0 (tx_subtotal t) && min_ok 0 (tx_totalAmount t) &&
  min_ok 0 (tx_overallDiscount t) && min_ok 0 (tx_cashReceived t) &&
  min_ok 0 (tx_change t).

(** ** The distribution collection *)

(** [Distribution.find(filter)]: the handles of the matching documents, in
    the order of the collection. *)
Fixpoint findFrom (P : Distribution -> bool) (n : nat) (db : list Distribution)
  : list nat :=
  match db with
  | [] => []
  | d :: rest =>
      if P d then n :: findFrom P (S n) rest else findFrom P (S n) rest
  end.

Definition find (P : Distribution -> bool) (db : list Distribution) : list nat :=
  findFrom P 0 db.

Definition status_in (allowed : list DistStatus) (d : Distribution) : bool :=
  existsb (DistStatus_eqb (dist_status d)) allowed.

Definition createdAtOf (db : list Distribution) (h : nat) : Z :=
  match db !! h with
  | Some d => dist_createdAt d
  | None => 0%Z
  end.

(** [Array.prototype.sort] is stable; so is this insertion sort. [before x y]
    says that the comparator does not put [y] first. *)
Fixpoint insertBy (before : nat -> nat -> bool) (x : nat) (l : list nat)
  : list nat :=
  match l with
  | [] => [x]
  | y :: rest =>
      if before x y then x :: y :: rest else y :: insertBy before x rest
  end.

Definition sortBy (before : nat -> nat -> bool) (l : list nat) : list nat :=
  foldr (insertBy before) [] l.

(** Comparator [a.createdAt - b.createdAt]: oldest first. *)
Definition sortOldestFirst (db : list Distribution) (hs : list nat) : list nat :=
  sortBy (fun a b => (createdAtOf db a <=? createdAtOf db b)%Z) hs.

(** Comparator [b.createdAt - a.createdAt], and [sort({createdAt: -1})]:
    newest first. *)
Definition sortNewestFirst (db : list Distribution) (hs : list nat) : list nat :=
  sortBy (fun a b => (createdAtOf db b <=? createdAtOf db a)%Z) hs.

(** [status === 'pending' || status === 'delivered'], also as the query
    [status: { $in: ['pending', 'delivered'] }]. *)
Definition isActive (d : Distribution) : bool :=
  status_in [pending; delivered] d.

(** [distItem.productId.toString() === productId] *)
Definition sameProduct (pid : string) (di : DistItem) : bool :=
  String.eqb (di_productId di) pid.

(** [items.reduce((sum, item) => sum + item.quantity * item.price, 0)] *)
Definition itemsValue (its : list DistItem) : Q :=
  fold_left (fun sum item => sum + di_quantity item * di_price item) its 0.

(** ** The return handler ([processReturn]) *)

Module ReturnRoute.

(** One element of the request body's [returnedItems]. *)
Record ReturnRequest := mkReturnRequest {
  itemIndex : Z;
  quantity : Q;
  description : string
}.

Inductive ReturnError :=
| NoItemsSelected                         (* 400 *)
| TransactionNotFound                     (* 404 *)
| InvalidItemIndex (i : Z)                (* 400 *)
| CannotReturn (requested available : Q)  (* 400 *)
| FailedToProcessReturn.                  (* 500, from the catch block *)

Definition httpStatus (e : ReturnError) : Z :=
  match e with
  | NoItemsSelected | InvalidItemIndex _ | CannotReturn _ _ => 400
  | TransactionNotFound => 404
  | FailedToProcessReturn => 500
  end.

Inductive Response :=
| Success (transaction : ITransaction) (returnAmount : Q)
| Failure (e : ReturnError).

(** What a request leaves behind: the response, the distribution collection
    and the stored transaction. *)
Record Outcome := mkOutcome {
  response : Response;
  dists : list Distribution;
  stored : option ITransaction
}.

(** Lines 57-63: the quantity already returned for the product and sku of
    the original item, over the returned items of the loaded transaction. *)
Definition alreadyReturned (transaction : ITransaction)
  (originalItem : ITransactionItem) : Q :=
  fold_left
    (fun sum ret =>
       if String.eqb (ri_productId ret) (ti_productId originalItem) &&
          String.eqb (ri_productSku ret) (ti_productSku originalItem)
       then sum + ri_quantity ret else sum)
    (tx_returnedItems transaction) 0.

Definition addBack (addBackQty : Q) (distItem : DistItem) : DistItem :=
  let q := di_quantity distItem + addBackQty in
  {| di_productId := di_productId distItem;
     di_productName := di_productName distItem;
     di_productSku := di_productSku distItem;
     di_category := di_category distItem;
     di_quantity := q;
     di_price := di_price distItem;
     di_totalValue := q * di_price distItem |}.

(** Lines 106-134: the loop over the items of one distribution. Yields the
    items, the quantity that remains and whether an item matched (then the
    distribution was modified and saved). *)
Fixpoint addBackItems (pid : string) (quantity : Q) (its : list DistItem)
  (remainingQuantity : Q) : list DistItem * Q * bool :=
  match its with
  | [] => ([], remainingQuantity, false)
  | distItem :: rest =>
      if sameProduct pid distItem then
        let addBackQty := Qmin remainingQuantity quantity in
        let distItem' := addBack addBackQty distItem in
        let remaining' := remainingQuantity - addBackQty in
        if num_le remaining' 0 then (distItem' :: rest, remaining', true)
        else
          let '(rest', r, _) := addBackItems pid quantity rest remaining' in
          (distItem' :: rest', r, true)
      else
        let '(rest', r, touched) :=
          addBackItems pid quantity rest remainingQuantity in
        (distItem :: rest', r, touched)
  end.

(** [items && items.length > 0] *)
Definition nonEmpty {A : Type} (l : list A) : bool :=
  match l with [] => false | _ => true end.

(** [if (status === 'cancelled') status = 'pending'] *)
Definition promote (s : DistStatus) : DistStatus :=
  match s with cancelled => pending | _ => s end.

Definition withItems (d : Distribution) (its : list DistItem) : Distribution :=
  {| dist_adminId := dist_adminId d;
     dist_cashierId := dist_cashierId d;
     dist_items := its;
     dist_totalValue := itemsValue its;
     dist_notes := dist_notes d;
     dist_status := promote (dist_status d);
     dist_createdAt := dist_createdAt d |}.

(** Lines 102-136: the loop over the distributions of the cashier. *)
Fixpoint addBackLoop (pid : string) (quantity : Q) (distributions : list nat)
  (remainingQuantity : Q) (db : list Distribution) : Q * list Distribution :=
  match distributions with
  | [] => (remainingQuantity, db)
  | h :: rest =>
      if num_le remainingQuantity 0 then (remainingQuantity, db)
      else
        match db !! h with
        | Some distribution =>
            if nonEmpty (dist_items distribution) then
              let '(its', r, touched) :=
                addBackItems pid quantity (dist_items distribution)
                  remainingQuantity in
              if touched
              then addBackLoop pid quantity rest r
                     (<[h := withItems distribution its']> db)
              else addBackLoop pid quantity rest remainingQuantity db
            else addBackLoop pid quantity rest remainingQuantity db
        | None => addBackLoop pid quantity rest remainingQuantity db
        end
  end.

Definition activeHandle (db : list Distribution) (h : nat) : bool :=
  match db !! h with
  | Some d => isActive d
  | None => false
  end.

(** Lines 141-148: the most recent pending or delivered distribution, else
    the first of [distributions]. *)
Definition targetDistribution (db : list Distribution)
  (distributions : list nat) : option nat :=
  match sortNewestFirst db (List.filter (activeHandle db) distributions) with
  | h :: _ => Some h
  | [] => head distributions
  end.

(** [existingItem.quantity += remainingQuantity] on the first matching item. *)
Fixpoint addToExisting (pid : string) (remainingQuantity : Q)
  (its : list DistItem) : option (list DistItem) :=
  match its with
  | [] => None
  | it :: rest =>
      if sameProduct pid it then Some (addBack remainingQuantity it :: rest)
      else option_map (cons it) (addToExisting pid remainingQuantity rest)
  end.

Definition newDistItem (originalItem : ITransactionItem)
  (remainingQuantity : Q) : DistItem :=
  {| di_productId := ti_productId originalItem;
     di_productName := ti_productName originalItem;
     di_productSku := ti_productSku originalItem;
     di_category := ti_category originalItem;
     di_quantity := remainingQuantity;
     di_price := ti_price originalItem;
     di_totalValue := remainingQuantity * ti_price originalItem |}.

(** Lines 139-186. *)
Definition addRemaining (originalItem : ITransactionItem)
  (distributions : list nat) (remainingQuantity : Q)
  (db : list Distribution) : list Distribution :=
  if num_gt remainingQuantity 0 then
    match targetDistribution db distributions with
    | Some h =>
        match db !! h with
        | Some target =>
            let its :=
              match addToExisting (ti_productId originalItem)
                      remainingQuantity (dist_items target) with
              | Some its' => its'
              | None =>
                  dist_items target ++
                  [newDistItem originalItem remainingQuantity]
              end in
            <[h := withItems target its]> db
        | None => db
        end
    | None => db
    end
  else db.

(** Lines 94-97: the distributions of the cashier, of any status, newest
    first. *)
Definition distributionsOf (cashierId : string) (db : list Distribution)
  : list nat :=
  sortNewestFirst db
    (find (fun d => String.eqb (dist_cashierId d) cashierId &&
                    status_in [pending; delivered; cancelled] d) db).

(** Lines 93-186: stock of one returned line goes back to the cashier. *)
Definition reinstate (cashierId : string) (originalItem : ITransactionItem)
  (quantity : Q) (db : list Distribution) : list Distribution :=
  let distributions := distributionsOf cashierId db in
  let '(remainingQuantity, db1) :=
    addBackLoop (ti_productId originalItem) quantity distributions quantity db in
  addRemaining originalItem distributions remainingQuantity db1.

(** Line 75. *)
Definition returnAmountOf (originalItem : ITransactionItem) (quantity : Q) : Q :=
  (ti_total originalItem / ti_quantity originalItem) * quantity.

Definition newReturnedItem (originalItem : ITransactionItem)
  (req : ReturnRequest) (now : Z) : IReturnedItem :=
  {| ri_productId := ti_productId originalItem;
     ri_productName := ti_productName originalItem;
     ri_productSku := ti_productSku originalItem;
     ri_category := ti_category originalItem;
     ri_quantity := quantity req;
     ri_price := ti_price originalItem;
     ri_discount := ti_discount originalItem;
     ri_total := ti_total originalItem;
     ri_returnAmount := returnAmountOf originalItem (quantity req);
     ri_description :=
       if str_falsy (description req) then "No reason provided"
       else description req;
     ri_returnedAt := now |}.

(** The variables of the loop of lines 44-187. *)
Record LoopState := mkLoopState {
  totalReturnAmount : Q;
  newReturnedItems : list IReturnedItem;
  db : list Distribution
}.

(** One pass of the loop: an early [return] of an error, or the next state. *)
Definition processLine (transaction : ITransaction) (now : Z)
  (st : LoopState) (req : ReturnRequest) : ReturnError + LoopState :=
  if (itemIndex req <? 0)%Z ||
     (itemIndex req >=? Z.of_nat (length (tx_items transaction)))%Z
  then inl (InvalidItemIndex (itemIndex req))
  else
    match tx_items transaction !! Z.to_nat (itemIndex req) with
    | None => inl FailedToProcessReturn
    | Some originalItem =>
        let availableToReturn :=
          ti_quantity originalItem - alreadyReturned transaction originalItem in
        if num_gt (quantity req) availableToReturn
        then inl (CannotReturn (quantity req) availableToReturn)
        else
          inr {| totalReturnAmount :=
                   totalReturnAmount st +
                   returnAmountOf originalItem (quantity req);
                 newReturnedItems :=
                   newReturnedItems st ++ [newReturnedItem originalItem req now];
                 db := reinstate (tx_cashierId transaction) originalItem
                         (quantity req) (db st) |}
    end.

Fixpoint processLines (transaction : ITransaction) (now : Z)
  (st : LoopState) (reqs : list ReturnRequest)
  : ReturnError * list Distribution + LoopState :=
  match reqs with
  | [] => inr st
  | req :: rest =>
      match processLine transaction now st req with
      | inl e => inl (e, db st)
      | inr st' => processLines transaction now st' rest
      end
  end.

(** The quantities compared on lines 200-203. *)
Definition totalReturnedQuantity (t : ITransaction) : Q :=
  fold_left (fun sum ret => sum + ri_quantity ret) (tx_returnedItems t) 0.

Definition totalOriginalQuantity (t : ITransaction) : Q :=
  fold_left (fun sum item => sum + ti_quantity item) (tx_items t) 0.

(** Lines 189-205: the transaction after the loop, before it is saved. *)
Definition updateTransaction (transaction : ITransaction) (st : LoopState)
  : ITransaction :=
  let t1 :=
    {| tx_cashierId := tx_cashierId transaction;
       tx_items := tx_items transaction;
       tx_returnedItems := tx_returnedItems transaction ++ newReturnedItems st;
       tx_subtotal := Qmax 0 (tx_subtotal transaction - totalReturnAmount st);
       tx_overallDiscount := tx_overallDiscount transaction;
       tx_totalAmount :=
         Qmax 0 (tx_totalAmount transaction - totalReturnAmount st);
       tx_cashReceived := tx_cashReceived transaction;
       tx_change := tx_change transaction;
       tx_status := tx_status transaction |} in
  if num_ge (totalReturnedQuantity t1) (totalOriginalQuantity t1)
  then {| tx_cashierId := tx_cashierId t1;
          tx_items := tx_items t1;
          tx_returnedItems := tx_returnedItems t1;
          tx_subtotal := tx_subtotal t1;
          tx_overallDiscount := tx_overallDiscount t1;
          tx_totalAmount := tx_totalAmount t1;
          tx_cashReceived := tx_cashReceived t1;
          tx_change := tx_change t1;
          tx_status := refunded |}
  else t1.

(** The handler. [found] is what [Transaction.findById] yields, [now] the
    clock. The database is taken to be connected. *)
Definition POST (db0 : list Distribution) (found : option ITransaction)
  (returnedItems : list ReturnRequest) (now : Z) : Outcome :=
  match returnedItems with
  | [] => mkOutcome (Failure NoItemsSelected) db0 found
  | _ =>
      match found with
      | None => mkOutcome (Failure TransactionNotFound) db0 found
      | Some transaction =>
          match processLines transaction now (mkLoopState 0 [] db0)
                  returnedItems with
          | inl (e, db1) => mkOutcome (Failure e) db1 found
          | inr st =>
              let transaction' := updateTransaction transaction st in
              if TransactionSchema transaction'
              then mkOutcome (Success transaction' (totalReturnAmount st))
                     (db st) (Some transaction')
              else mkOutcome (Failure FailedToProcessReturn) (db st) found
          end
      end
  end.

End ReturnRoute.

(** The name the specification gives the handler. *)
Definition processReturn := ReturnRoute.POST.

(** ** The cashier-to-cashier handler ([transferStock]) *)

Module TransferRoute.

(** One element of the request body's [items]. *)
Record TransferItem := mkTransferItem {
  productId : string;
  productName : string;
  productSku : string;
  category : string;
  quantity : Q;
  price : Q
}.

(** [senderStock] is a plain object ([{}]) used as a table. A key that it
    does not own is read from [Object.prototype]: for the names below the
    read yields a member of the prototype (a function, and the prototype
    itself for ["__proto__"]), for every other key [undefined]. *)
Definition objectPrototype : list string :=
  ["constructor"; "__defineGetter__"; "__defineSetter__"; "hasOwnProperty";
   "__lookupGetter__"; "__lookupSetter__"; "isPrototypeOf";
   "propertyIsEnumerable"; "toString"; "valueOf"; "__proto__";
   "toLocaleString"].

Definition inherited (key : string) : bool :=
  existsb (String.eqb key) objectPrototype.

(** What a read of [senderStock] can yield. *)
Inductive Value :=
| Num (n : Q)   (* a number *)
| Member        (* a member of [Object.prototype] *)
| Text.         (* the string that [+=] makes of a member and a number; it
                   does not read as a number *)

(** [o[key]]: the own property, else the inherited one, else [undefined].
    ["__proto__"] is never an own property. *)
Definition getValue (o : gmap string Value) (key : string) : option Value :=
  if String.eqb key "__proto__" then Some Member
  else
    match o !! key with
    | Some v => Some v
    | None => if inherited key then Some Member else None
    end.

(** [o[key] = v], for a number or a string [v]: assigning one of these to
    ["__proto__"] does nothing. *)
Definition setValue (o : gmap string Value) (key : string) (v : Value)
  : gmap string Value :=
  if String.eqb key "__proto__" then o else <[key := v]> o.

(** [!v]: [undefined] and zero are falsy; functions, objects and non-empty
    strings are not. *)
Definition falsy (v : option Value) : bool :=
  match v with
  | Some (Num n) => num_falsy n
  | Some _ => false
  | None => true
  end.

(** [v + n] for a number [n]: the sum of two numbers; with a function, an
    object or a string on the left, the concatenation of two strings. *)
Definition plus (v : Value) (n : Q) : Value :=
  match v with
  | Num m => Num (m + n)
  | _ => Text
  end.

(** [v < n] for a number [n]: a function, an object and such a string read
    as NaN, and no comparison with NaN holds. *)
Definition value_lt (v : Value) (n : Q) : bool :=
  match v with
  | Num m => num_lt m n
  | _ => false
  end.

Inductive TransferError :=
| MissingRequiredFields          (* 400 *)
| CannotDistributeToYourself     (* 400 *)
| InvalidItemData                (* 400 *)
| InsufficientStock (productName : string) (availableStock : Value)
    (requested : Q).             (* 400 *)

Inductive Response :=
| Success
| Failure (e : TransferError).

(** Lines 48-56. *)
Definition invalidItem (item : TransferItem) : bool :=
  str_falsy (productId item) || str_falsy (productName item) ||
  str_falsy (productSku item) || str_falsy (category item) ||
  num_falsy (quantity item) || num_falsy (price item).

(** Lines 69-72, for one item of a distribution of the sender. After line
    70 the key reads as a value, so the last case is not reached. *)
Definition addStock (senderStock : gmap string Value) (item : DistItem)
  : gmap string Value :=
  let key := di_productId item in
  let senderStock1 :=
    if falsy (getValue senderStock key)
    then setValue senderStock key (Num 0)
    else senderStock in
  match getValue senderStock1 key with
  | Some v => setValue senderStock1 key (plus v (di_quantity item))
  | None => senderStock1
  end.

(** Lines 65-74: the record [senderStock], keyed by product id. *)
Definition senderStockOf (db : list Distribution)
  (senderDistributions : list nat) : gmap string Value :=
  fold_left
    (fun stock h =>
       match db !! h with
       | Some dist => fold_left addStock (dist_items dist) stock
       | None => stock
       end)
    senderDistributions ∅.

(** Line 78: [senderStock[item.productId] || 0]. *)
Definition availableStock (senderStock : gmap string Value) (pid : string)
  : Value :=
  match getValue senderStock pid with
  | Some v => if falsy (Some v) then Num 0 else v
  | None => Num 0
  end.

(** Lines 77-85: the first item that the sender cannot cover. *)
Fixpoint checkStock (senderStock : gmap string Value)
  (items : list TransferItem) : option TransferError :=
  match items with
  | [] => None
  | item :: rest =>
      let available := availableStock senderStock (productId item) in
      if value_lt available (quantity item)
      then Some (InsufficientStock (productName item) available (quantity item))
      else checkStock senderStock rest
  end.

(** [distItem.quantity -= deduction] on the item that [find] yields. *)
Definition withQuantity (di : DistItem) (q : Q) : DistItem :=
  {| di_productId := di_productId di;
     di_productName := di_productName di;
     di_productSku := di_productSku di;
     di_category := di_category di;
     di_quantity := q;
     di_price := di_price di;
     di_totalValue := di_totalValue di |}.

Fixpoint setFirst (pid : string) (q : Q) (its : list DistItem)
  : list DistItem :=
  match its with
  | [] => []
  | di :: rest =>
      if sameProduct pid di then withQuantity di q :: rest
      else di :: setFirst pid q rest
  end.

(** [dist.items.reduce((sum, di) => sum + di.price * di.quantity, 0)] *)
Definition priceValue (its : list DistItem) : Q :=
  fold_left (fun sum di => sum + di_price di * di_quantity di) its 0.

(** Lines 102-124: one distribution of the sender. [None] when the
    distribution is left alone (no item of the product, or none in stock). *)
Definition depleteDist (pid : string) (remainingToDeduct : Q)
  (dist : Distribution) : option (Distribution * Q) :=
  match List.find (sameProduct pid) (dist_items dist) with
  | Some distItem =>
      if num_gt (di_quantity distItem) 0 then
        let deduction := Qmin remainingToDeduct (di_quantity distItem) in
        let q := di_quantity distItem - deduction in
        let its1 := setFirst pid q (dist_items dist) in
        let its2 :=
          if num_eq q 0
          then List.filter (fun di => negb (sameProduct pid di)) its1
          else its1 in
        Some ({| dist_adminId := dist_adminId dist;
                 dist_cashierId := dist_cashierId dist;
                 dist_items := its2;
                 dist_totalValue := priceValue its2;
                 dist_notes := dist_notes dist;
                 dist_status :=
                   match its2 with
                   | [] => cancelled
                   | _ => dist_status dist
                   end;
                 dist_createdAt := dist_createdAt dist |},
              remainingToDeduct - deduction)
      else None
  | None => None
  end.

(** Lines 99-125: the distributions of the sender, oldest first. *)
Fixpoint depleteLoop (pid : string) (sortedDistributions : list nat)
  (remainingToDeduct : Q) (db : list Distribution) : list Distribution :=
  match sortedDistributions with
  | [] => db
  | h :: rest =>
      if num_le remainingToDeduct 0 then db
      else
        match db !! h with
        | Some dist =>
            match depleteDist pid remainingToDeduct dist with
            | Some (dist', r) => depleteLoop pid rest r (<[h := dist']> db)
            | None => depleteLoop pid rest remainingToDeduct db
            end
        | None => depleteLoop pid rest remainingToDeduct db
        end
  end.

(** Lines 91-126, one requested item. *)
Definition deplete (senderDistributions : list nat) (db : list Distribution)
  (item : TransferItem) : list Distribution :=
  depleteLoop (productId item) (sortOldestFirst db senderDistributions)
    (quantity item) db.

(** Lines 135-143. *)
Definition itemToAdd (item : TransferItem) : DistItem :=
  {| di_productId := productId item;
     di_productName := productName item;
     di_productSku := productSku item;
     di_category :=
       if str_falsy (category item) then "Accessories" else category item;
     di_quantity := quantity item;
     di_price := price item;
     di_totalValue := price item * quantity item |}.

(** Lines 148-163, one item into the receiver's distribution. *)
Fixpoint mergeItem (toAdd : DistItem) (its : list DistItem) : list DistItem :=
  match its with
  | [] => [toAdd]
  | di :: rest =>
      if sameProduct (di_productId toAdd) di then
        let q := di_quantity di + di_quantity toAdd in
        {| di_productId := di_productId di;
           di_productName := di_productName di;
           di_productSku := di_productSku di;
           di_category := di_category di;
           di_quantity := q;
           di_price := di_price di;
           di_totalValue := di_price di * q |} :: rest
      else di :: mergeItem toAdd rest
  end.

(** [dist.items.reduce((sum, di) => sum + di.totalValue, 0)] *)
Definition totalValues (its : list DistItem) : Q :=
  fold_left (fun sum di => sum + di_totalValue di) its 0.

(** Lines 128-187: the receiver's side. [itemsToAdd] is not empty here, so
    the first distribution of the receiver takes every item; without one a
    delivered distribution is created. *)
Definition receive (senderCashierId receiverCashierId : string)
  (items : list TransferItem) (notes : string) (now : Z)
  (db : list Distribution) : list Distribution :=
  let receiverDistributions :=
    find (fun d => String.eqb (dist_cashierId d) receiverCashierId &&
                   isActive d) db in
  let itemsToAdd := map itemToAdd items in
  match receiverDistributions with
  | h :: _ =>
      match db !! h with
      | Some dist =>
          let its := fold_left (fun its a => mergeItem a its) itemsToAdd
                       (dist_items dist) in
          <[h := {| dist_adminId := dist_adminId dist;
                    dist_cashierId := dist_cashierId dist;
                    dist_items := its;
                    dist_totalValue := totalValues its;
                    dist_notes := dist_notes dist;
                    dist_status := dist_status dist;
                    dist_createdAt := dist_createdAt dist |}]> db
      | None => db
      end
  | [] =>
      db ++ [{| dist_adminId := senderCashierId;
                dist_cashierId := receiverCashierId;
                dist_items := itemsToAdd;
                dist_totalValue :=
                  fold_left (fun sum item => sum + price item * quantity item)
                    items 0;
                dist_notes :=
                  if str_falsy notes then "Distribution from cashier"
                  else notes;
                dist_status := delivered;
                dist_createdAt := now |}]
  end.

(** The handler: the response and the distribution collection it leaves.
    The database is taken to be connected. *)
Definition POST (db : list Distribution)
  (senderCashierId receiverCashierId : string) (items : list TransferItem)
  (notes : string) (now : Z) : Response * list Distribution :=
  if str_falsy senderCashierId || str_falsy receiverCashierId ||
     match items with [] => true | _ => false end
  then (Failure MissingRequiredFields, db)
  else if String.eqb senderCashierId receiverCashierId
  then (Failure CannotDistributeToYourself, db)
  else if existsb invalidItem items
  then (Failure InvalidItemData, db)
  else
    let senderDistributions :=
      find (fun d => String.eqb (dist_cashierId d) senderCashierId &&
                     isActive d) db in
    let senderStock := senderStockOf db senderDistributions in
    match checkStock senderStock items with
    | Some e => (Failure e, db)
    | None =>
        let db1 := fold_left (deplete senderDistributions) items db in
        (Success,
         receive senderCashierId receiverCashierId items notes now db1)
    end.

End TransferRoute.

(** The name the specification gives the handler. *)
Definition transferStock := TransferRoute.POST.

(** ** The dashboard ([app/admin/page.tsx])

    The figures that [loadDashboardData] computes from the products and the
    transactions it has loaded, and [getStockStatus]. The clock and the
    starts of the day and of the months, which the page takes from [Date],
    are inputs; a date is its time in milliseconds. Sums, differences,
    quotients and products of sales are rounded to binary64 one operation
    at a time. *)

Module Dashboard.

Record Product := mkProduct {
  p_id : string;
  p_name : string;
  p_sku : string;
  p_stock : Q;
  p_minStock : Q
}.

Inductive Icon := AlertTriangle | Clock | CheckCircle.

Record StockStatus := mkStockStatus {
  status : string;
  color : string;
  bgColor : string;
  icon : Icon
}.

(** Lines 219-223. *)
Definition getStockStatus (stock minStock : Q) : StockStatus :=
  if num_eq stock 0
  then mkStockStatus "Out of Stock" "text-red-600" "bg-red-50" AlertTriangle
  else if num_le stock minStock
  then mkStockStatus "Low Stock" "text-yellow-600" "bg-yellow-50" Clock
  else mkStockStatus "Good Stock" "text-green-600" "bg-green-50" CheckCircle.

(** Lines 65-67. *)
Definition lowStockItems (products : list Product) : list Product :=
  List.filter
    (fun product =>
       num_le (p_stock product) (p_minStock product) &&
       num_gt (p_stock product) 0)
    products.

(** Line 70. *)
Definition outOfStockItems (products : list Product) : list Product :=
  List.filter (fun product => num_eq (p_stock product) 0) products.

(** Line 196: the figure [stats.lowStockItems]. *)
Definition lowStockCount (products : list Product) : nat :=
  (length (lowStockItems products) + length (outOfStockItems products))%nat.

(** Line 200: the products of the low stock alert. *)
Definition lowStockProducts (products : list Product) : list Product :=
  firstn 5 (lowStockItems products ++ outOfStockItems products).

(** A transaction as the page receives it. *)
Record Transaction := mkTransaction {
  id : string;
  returnedItems : list IReturnedItem;
  totalAmount : Q;
  t_status : TxStatus;
  createdAt : Z
}.

(** [transactions.reduce((sum, t) => sum + t.totalAmount, 0)], each sum
    rounded. *)
Definition sumTotals (transactions : list Transaction) : Q :=
  fold_left (fun sum t => binary64 (sum + totalAmount t)) transactions 0.

(** Line 86. *)
Definition totalSales (transactions : list Transaction) : Q :=
  sumTotals transactions.

(** Lines 94-99, and lines 109-115 with the start of the month. *)
Definition salesSince (since : Z) (transactions : list Transaction) : Q :=
  sumTotals (List.filter (fun t => (createdAt t >=? since)%Z) transactions).

(** Lines 117-122. *)
Definition salesBetween (first last : Z) (transactions : list Transaction)
  : Q :=
  sumTotals
    (List.filter
       (fun t => (createdAt t >=? first)%Z && (createdAt t <=? last)%Z)
       transactions).

(** Lines 75 and 126-130: the difference, the quotient and the product are
    rounded one after the other. *)
Definition monthlyGrowth (thisMonthSales lastMonthSales : Q) : Q :=
  if num_gt lastMonthSales 0
  then binary64
         (binary64 (binary64 (thisMonthSales - lastMonthSales) /
                    lastMonthSales) * 100)
  else if num_gt thisMonthSales 0 then 100
  else 0.

(** [Math.round(x)]: the nearest integer, a half going up; it is exact. *)
Definition round (x : Q) : Q := inject_Z (Qfloor (x + (1 # 2))).

(** Line 198: [Math.round(monthlyGrowth * 10) / 10]. *)
Definition roundedGrowth (growth : Q) : Q :=
  binary64 (round (binary64 (growth * 10)) / 10).

(** Lines 164-177. *)
Definition timeAgo (now transactionDate : Z) : string :=
  let diffInMinutes := ((now - transactionDate) / (1000 * 60))%Z in
  if (diffInMinutes <? 1)%Z then "Just now"
  else if (diffInMinutes <? 60)%Z
  then pretty diffInMinutes +:+ " min ago"
  else if (diffInMinutes <? 1440)%Z
  then
    let hours := (diffInMinutes / 60)%Z in
    pretty hours +:+ " hour" +:+ (if (hours >? 1)%Z then "s" else "") +:+
    " ago"
  else
    let days := (diffInMinutes / 1440)%Z in
    pretty days +:+ " day" +:+ (if (days >? 1)%Z then "s" else "") +:+ " ago".

(** An element of [recentTransactions] (lines 179-185). *)
Record Recent := mkRecent {
  r_id : string;
  r_type : string;
  r_amount : Q;
  r_time : string;
  r_status : TxStatus
}.

Definition recent (now : Z) (transaction : Transaction) : Recent :=
  {| r_id := id transaction;
     r_type :=
       match returnedItems transaction with
       | [] => "sale"
       | _ => "refund"
       end;
     r_amount := totalAmount transaction;
     r_time := timeAgo now (createdAt transaction);
     r_status := t_status transaction |}.

(** Lines 159-161: the places, in [transactions], of the four newest. *)
Definition timeOf (transactions : list Transaction) (i : nat) : Z :=
  match transactions !! i with
  | Some t => createdAt t
  | None => 0%Z
  end.

(** [[...transactions].sort((a, b) => b.createdAt - a.createdAt)] *)
Definition newestFirst (transactions : list Transaction) : list nat :=
  sortBy (fun a b => (timeOf transactions b <=? timeOf transactions a)%Z)
    (seq 0 (length transactions)).

Definition sortedTransactions (transactions : list Transaction) : list nat :=
  firstn 4 (newestFirst transactions).

(** Lines 163-186. *)
Definition recentTransactions (now : Z) (transactions : list Transaction)
  : list Recent :=
  omap (fun i => recent now <$> transactions !! i)
    (sortedTransactions transactions).

End Dashboard.

(** ** Stock as the specification counts it *)

(** The quantity of a product that a lot holds: the sum over its lines. *)
Definition itemsStock (pid : string) (its : list DistItem) : Q :=
  fold_right
    (fun di acc =>
       if String.eqb (di_productId di) pid then di_quantity di + acc else acc)
    0 its.

Definition lotStock (pid : string) (d : Distribution) : Q :=
  itemsStock pid (dist_items d).

(** The stock of a cashier: the sum over the pending and delivered lots. *)
Definition cashierStock (db : list Distribution) (cashierId pid : string) : Q :=
  fold_right
    (fun d acc =>
       if String.eqb (dist_cashierId d) cashierId && isActive d
       then lotStock pid d + acc else acc)
    0 db.

(** ** Vocabulary of the statements about returns *)

(** The sum of the refunds of a list of returned items. *)
Definition sumReturnAmounts (rs : list IReturnedItem) : Q :=
  fold_right (fun r acc => ri_returnAmount r + acc) 0 rs.



(** The invariant of a transaction record. *)
Definition totalsConsistent (t : ITransaction) : Prop :=
  tx_totalAmount t == tx_subtotal t - tx_overallDiscount t.

(** [r] is the returned item that an accepted request line [req] of the
    transaction [t] appends. *)
Definition returnedFor (t : ITransaction) (now : Z)
  (req : ReturnRoute.ReturnRequest) (r : IReturnedItem) : Prop :=
  exists originalItem,
    (0 <= ReturnRoute.itemIndex req)%Z /\
    (tx_items t !! Z.to_nat (ReturnRoute.itemIndex req) = Some originalItem) /\
    (ReturnRoute.quantity req <=
       ti_quantity originalItem - ReturnRoute.alreadyReturned t originalItem) /\
    r = ReturnRoute.newReturnedItem originalItem req now.

(** ** Vocabulary of the statements about reinstated stock *)

(** The lot behind the handle [h] has a line for the product. *)
Definition holdsLine (db : list Distribution) (pid : string) (h : nat) : bool :=
  match db !! h with
  | Some d => existsb (sameProduct pid) (dist_items d)
  | None => false
  end.

(** [db'] is [db] with the quantity [q] of the product put into the lot
    behind [h], which is pending afterwards if it was cancelled; the stock of
    other products in the lot, and every other lot, are as they were. *)
Definition putInto (db db' : list Distribution) (h : nat) (pid : string)
  (q : Q) : Prop :=
  exists d d',
    db !! h = Some d /\
    db' = <[h := d']> db /\
    lotStock pid d' == lotStock pid d + q /\
    (forall pid', pid' <> pid -> lotStock pid' d' = lotStock pid' d) /\
    dist_status d' = ReturnRoute.promote (dist_status d) /\
    dist_cashierId d' = dist_cashierId d /\
    dist_createdAt d' = dist_createdAt d.

(** The data model keeps cancelled lots empty: a lot is cancelled when its
    last line is removed, and is pending again once it regains stock. *)
Definition cancelledEmpty (db : list Distribution) : Prop :=
  forall d, In d db -> dist_status d = cancelled -> dist_items d = [].

(** The lot [d], behind the handle [h], belongs to the cashier. *)
Definition lotOf (db : list Distribution) (cashierId : string) (h : nat)
  (d : Distribution) : Prop :=
  db !! h = Some d /\ dist_cashierId d = cashierId.

(** The lot has a line for the product. *)
Definition listsProduct (pid : string) (d : Distribution) : Prop :=
  exists line, In line (dist_items d) /\ di_productId line = pid.

(** The value of the lines of a lot. *)
Definition linesValue (its : list DistItem) : Q :=
  fold_right (fun di acc => di_quantity di * di_price di + acc) 0 its.

(** [its'] is [its] with the quantity [q] merged into the line for the
    product: the first such line has its quantity raised by [q] and its
    value computed again, and every other line is as it was. *)
Definition mergedInto (pid : string) (q : Q) (its its' : list DistItem)
  : Prop :=
  exists pre line line' post,
    its = pre ++ line :: post /\
    (forall di, In di pre -> di_productId di <> pid) /\
    di_productId line = pid /\
    its' = pre ++ line' :: post /\
    di_productId line' = pid /\
    di_productName line' = di_productName line /\
    di_productSku line' = di_productSku line /\
    di_category line' = di_category line /\
    di_price line' = di_price line /\
    di_quantity line' == di_quantity line + q /\
    di_totalValue line' == (di_quantity line + q) * di_price line.

(** [its'] is [its] with a line for the returned item at its end. *)
Definition appendedTo (originalItem : ITransactionItem) (q : Q)
  (its its' : list DistItem) : Prop :=
  exists line,
    its' = its ++ [line] /\
    di_productId line = ti_productId originalItem /\
    di_productName line = ti_productName originalItem /\
    di_productSku line = ti_productSku originalItem /\
    di_category line = ti_category originalItem /\
    di_price line = ti_price originalItem /\
    di_quantity line = q /\
    di_totalValue line == q * ti_price originalItem.

(** [db'] is [db] with the lot [d'] in the place of the lot [d] behind [h];
    [d'] is [d] but for its lines, its status and its total value, which is
    the value of its lines. *)
Definition relined (db db' : list Distribution) (h : nat)
  (d d' : Distribution) : Prop :=
  db !! h = Some d /\
  db' = <[h := d']> db /\
  dist_adminId d' = dist_adminId d /\
  dist_cashierId d' = dist_cashierId d /\
  dist_notes d' = dist_notes d /\
  dist_createdAt d' = dist_createdAt d /\
  dist_totalValue d' == linesValue (dist_items d').

(** ** Vocabulary of the statements about depletion *)







(** ** Vocabulary of the statements about whole requests *)

(** The return line fails the checks of lines 47-72 against the transaction
    as it was loaded: its index is out of range, or it asks for more than
    what is left to return of the item. *)
Definition lineFails (t : ITransaction) (req : ReturnRoute.ReturnRequest)
  : Prop :=
  (ReturnRoute.itemIndex req < 0)%Z \/
  (Z.of_nat (length (tx_items t)) <= ReturnRoute.itemIndex req)%Z \/
  exists originalItem,
    (tx_items t !! Z.to_nat (ReturnRoute.itemIndex req) = Some originalItem) /\
    ti_quantity originalItem - ReturnRoute.alreadyReturned t originalItem <
      ReturnRoute.quantity req.


(** The quantity of a product that a transfer request asks for, over all its
    items. *)
Definition requestedOf (pid : string) (items : list TransferRoute.TransferItem)
  : Q :=
  fold_right
    (fun item acc =>
       if String.eqb (TransferRoute.productId item) pid
       then TransferRoute.quantity item + acc else acc)
    0 items.

(** A lot of [db'] is the lot of [db] at the same place, unless both belong
    to the cashier. *)
Definition sameOrOwnedBy (cashierId : string) (d d' : Distribution) : Prop :=
  d' = d \/ (dist_cashierId d = cashierId /\ dist_cashierId d' = cashierId).

(** The item of a transfer request is complete (lines 48-56), and the stock
    of the sender covers it or its product id is the name of a member of
    [Object.prototype]. *)
Definition itemAccepted (db : list Distribution) (sender : string)
  (item : TransferRoute.TransferItem) : Prop :=
  TransferRoute.productId item <> "" /\
  TransferRoute.productName item <> "" /\
  TransferRoute.productSku item <> "" /\
  TransferRoute.category item <> "" /\
  ~ TransferRoute.quantity item == 0 /\
  ~ TransferRoute.price item == 0 /\
  (In (TransferRoute.productId item) TransferRoute.objectPrototype \/
   TransferRoute.quantity item <=
     cashierStock db sender (TransferRoute.productId item)).

(** The stock of a product in all the lots of a cashier, of any status. *)
Definition ownedStock (db : list Distribution) (cashierId pid : string) : Q :=
  fold_right
    (fun d acc =>
       if String.eqb (dist_cashierId d) cashierId
       then lotStock pid d + acc else acc)
    0 db.

(** The quantity of a product in a list of returned items. *)
Definition returnedOf (pid : string) (rs : list IReturnedItem) : Q :=
  fold_right
    (fun r acc =>
       if String.eqb (ri_productId r) pid then ri_quantity r + acc else acc)
    0 rs.

(** ** Sample data

    One cashier ["c1"] who sold four widgets at 100 with a 10 percent
    discount, and lots that hold widgets. *)

Module Sample.

Definition widget : ITransactionItem :=
  mkTransactionItem "p1" "Widget" "W-1" "Tools" 4 100 10 360.

Definition sale : ITransaction :=
  mkTransaction "c1" [widget] [] 360 0 360 400 40 completed.

(** One widget sold at 100, with an overall discount of 10. *)
Definition single : ITransactionItem :=
  mkTransactionItem "p1" "Widget" "W-1" "Tools" 1 100 0 100.

Definition discounted : ITransaction :=
  mkTransaction "c1" [single] [] 100 10 90 100 10 completed.

Definition widgets (q : Q) : DistItem :=
  mkDistItem "p1" "Widget" "W-1" "Tools" q 100 (q * 100).

Definition lot (cashierId : string) (s : DistStatus) (createdAt : Z)
  (its : list DistItem) : Distribution :=
  mkDistribution "admin" cashierId its (itemsValue its) "" s createdAt.

(** The cashier holds 6 widgets in one delivered lot. *)
Definition oneLot : list Distribution :=
  [lot "c1" delivered 1 [widgets 6]].

(** A delivered lot with 6 widgets and a newer, cancelled lot that still
    lists 2 widgets. *)
Definition twoLots : list Distribution :=
  [lot "c1" delivered 1 [widgets 6]; lot "c1" cancelled 2 [widgets 2]].


(** The lot that cashier ["c1"] gets from cashier ["c0"] by a transfer that
    names the widgets twice, 2 and 3 of them: it lists them on two lines. *)
Definition received : Distribution :=
  mkDistribution "c0" "c1" [widgets 2; widgets 3] 500
    "Distribution from cashier" delivered 1.

(** That lot and two newer lots of 5 widgets each. *)
Definition twiceListed : list Distribution :=
  [received; lot "c1" delivered 2 [widgets 5];
   lot "c1" delivered 3 [widgets 5]].

(** Cashier ["c1"] holds 6 widgets, cashier ["c2"] holds 3, cashier ["c3"]
    holds 9 in a lot that was cancelled. *)
Definition otherLots : list Distribution :=
  [lot "c1" delivered 1 [widgets 6]; lot "c2" delivered 2 [widgets 3];
   lot "c3" cancelled 3 [widgets 9]].

(** Products for the dashboard: in stock, low, sold out, and one with a
    negative stock. *)
Definition products : list Dashboard.Product :=
  [Dashboard.mkProduct "p1" "Widget" "W-1" 40 10;
   Dashboard.mkProduct "p2" "Gadget" "G-1" 3 10;
   Dashboard.mkProduct "p3" "Gizmo" "Z-1" 0 10;
   Dashboard.mkProduct "p4" "Doohickey" "D-1" (-2) 10].

(** Transactions for the dashboard, made at the minutes 0 to 5. *)
Definition payments : list Dashboard.Transaction :=
  [Dashboard.mkTransaction "t0" [] 100 completed 0;
   Dashboard.mkTransaction "t1" [] 200 completed 60000;
   Dashboard.mkTransaction "t2" [] 300 completed 120000;
   Dashboard.mkTransaction "t3" [] 400 completed 180000;
   Dashboard.mkTransaction "t4" [] 500 completed 240000;
   Dashboard.mkTransaction "t5" [] 600 completed 300000].

Definition line (i : Z) (q : Q) : ReturnRoute.ReturnRequest :=
  ReturnRoute.mkReturnRequest i q "damaged".

Definition request (pid : string) (q : Q) : TransferRoute.TransferItem :=
  TransferRoute.mkTransferItem pid "Widget" "W-1" "Tools" q 100.

End Sample.

(** * Proofs *)

(** ** Comparisons *)

Lemma num_le_iff a b : num_le a b = true <-> a <= b.
Proof. apply Qle_bool_iff. Qed.

Lemma num_lt_iff a b : num_lt a b = true <-> a < b.
Proof.
  unfold num_lt. rewrite negb_true_iff.
  split.
  - intros H. apply Qnot_le_lt. intros Hle.
    apply Qle_bool_iff in Hle. congruence.
  - intros H. destruct (Qle_bool b a) eqn:E; [|reflexivity].
    apply Qle_bool_iff in E. lra.
Qed.

Lemma num_lt_false_iff a b : num_lt a b = false <-> b <= a.
Proof.
  unfold num_lt. rewrite negb_false_iff. apply Qle_bool_iff.
Qed.

Lemma num_le_false_iff a b : num_le a b = false <-> b < a.
Proof.
  rewrite <- num_lt_iff. unfold num_lt, num_le.
  destruct (Qle_bool a b); simpl; split; congruence.
Qed.

Lemma num_eq_iff a b : num_eq a b = true <-> a == b.
Proof. apply Qeq_bool_iff. Qed.

Lemma num_falsy_value v : (if num_falsy v then 0 else v) == v.
Proof.
  unfold num_falsy. destruct (num_eq v 0) eqn:E; [|reflexivity].
  apply num_eq_iff in E. lra.
Qed.

(** Case analysis on every [Qmin] and [Qmax] in sight, then linear
    arithmetic. *)
Ltac name_min a b :=
  let m := fresh "m" in
  let H := fresh "Hm" in
  pose proof (Q.min_spec a b) as H;
  set (m := Qmin a b) in *; clearbody m;
  destruct H as [[? ?]|[? ?]].

Ltac name_max a b :=
  let m := fresh "m" in
  let H := fresh "Hm" in
  pose proof (Q.max_spec a b) as H;
  set (m := Qmax a b) in *; clearbody m;
  destruct H as [[? ?]|[? ?]].

Ltac minmax :=
  repeat match goal with
         | |- context [Qmin ?a ?b] => name_min a b
         | |- context [Qmax ?a ?b] => name_max a b
         | _ : context [Qmin ?a ?b] |- _ => name_min a b
         | _ : context [Qmax ?a ?b] |- _ => name_max a b
         end;
  lra.

(** ** Queries and handles *)

Lemma findFrom_lookup P (pre l : list Distribution) :
  map (fun h => (pre ++ l) !! h) (findFrom P (length pre) l) =
  map Some (List.filter P l).
Proof.
  revert pre. induction l as [|d l IH]; intros pre; [reflexivity|].
  assert (Hd : (pre ++ d :: l) !! length pre = Some d)
    by (rewrite lookup_app_r, Nat.sub_diag; [reflexivity|lia]).
  assert (Hrest :
    map (fun h => (pre ++ d :: l) !! h) (findFrom P (S (length pre)) l) =
    map Some (List.filter P l)).
  { specialize (IH (pre ++ [d])).
    rewrite length_app, <- app_assoc in IH. simpl in IH.
    rewrite Nat.add_1_r in IH. exact IH. }
  simpl. destruct (P d); simpl; rewrite Hrest; [rewrite Hd|]; reflexivity.
Qed.

Lemma find_lookup P (db : list Distribution) :
  map (fun h => db !! h) (find P db) = map Some (List.filter P db).
Proof. apply (findFrom_lookup P [] db). Qed.

Lemma fold_left_handles {S : Type} (f : S -> Distribution -> S)
  (db : list Distribution) (hs : list nat) (ds : list Distribution) (s : S) :
  map (fun h => db !! h) hs = map Some ds ->
  fold_left (fun s h => match db !! h with Some d => f s d | None => s end)
    hs s = fold_left f ds s.
Proof.
  revert ds s. induction hs as [|h hs IH]; intros [|d ds] s Heq;
    simpl in *; try discriminate; [reflexivity|].
  injection Heq as Hh Hrest. rewrite Hh. apply IH, Hrest.
Qed.

(** ** The transfer handler: the stock table and the check

    For a product id that is not the name of a member of [Object.prototype]
    the record [senderStock] holds the stock that the specification calls
    available; for such a name it never holds a number. *)

Section SenderStock.

Import TransferRoute.

Lemma inherited_In key : inherited key = true <-> In key objectPrototype.
Proof.
  unfold inherited. rewrite existsb_exists. split.
  - intros (x & Hin & Heq). apply String.eqb_eq in Heq. congruence.
  - intros Hin. exists key. split; [exact Hin|apply String.eqb_refl].
Qed.

Lemma not_inherited_proto key :
  inherited key = false -> String.eqb key "__proto__" = false.
Proof.
  intros H. destruct (String.eqb_spec key "__proto__") as [->|]; [|reflexivity].
  vm_compute in H. discriminate H.
Qed.

Lemma getValue_set_ne o key v pid :
  key <> pid -> getValue (setValue o key v) pid = getValue o pid.
Proof.
  intros Hne. unfold getValue, setValue.
  destruct (String.eqb key "__proto__"); [reflexivity|].
  rewrite lookup_insert_ne by exact Hne. reflexivity.
Qed.

Lemma getValue_set_eq o key v :
  String.eqb key "__proto__" = false ->
  getValue (setValue o key v) key = Some v.
Proof.
  intros H. unfold getValue, setValue. rewrite H, lookup_insert_eq.
  reflexivity.
Qed.

Lemma addStock_other m di pid :
  di_productId di <> pid -> getValue (addStock m di) pid = getValue m pid.
Proof.
  intros Hne. unfold addStock.
  destruct (falsy (getValue m (di_productId di)));
    match goal with
    | |- context [match ?g with Some _ => _ | None => _ end] => destruct g
    end;
    rewrite ?getValue_set_ne by exact Hne; reflexivity.
Qed.

Lemma num_or_zero x :
  exists n, (if num_falsy x then Num 0 else Num x) = Num n /\ n == x.
Proof.
  pose proof (num_falsy_value x) as H.
  destruct (num_falsy x); eexists; (split; [reflexivity|exact H]).
Qed.

Lemma addStock_number m di pid n :
  inherited pid = false -> availableStock m pid = Num n ->
  exists n',
    availableStock (addStock m di) pid = Num n' /\
    n' == n + (if String.eqb (di_productId di) pid then di_quantity di else 0).
Proof.
  intros Hpid Hn. pose proof (not_inherited_proto _ Hpid) as Hproto.
  destruct (String.eqb_spec (di_productId di) pid) as [Heq|Hne].
  - unfold availableStock in *. unfold addStock. rewrite Heq.
    destruct (getValue m pid) as [[x| |]|] eqn:Hget; simpl in *;
      try discriminate.
    + destruct (num_falsy x) eqn:Hx.
      * rewrite !getValue_set_eq by exact Hproto. simpl.
        injection Hn as <-.
        destruct (num_or_zero (0 + di_quantity di)) as (n' & -> & Hn').
        exists n'. split; [reflexivity|]. rewrite Hn'. lra.
      * rewrite Hget. rewrite !getValue_set_eq by exact Hproto. simpl.
        injection Hn as <-.
        destruct (num_or_zero (x + di_quantity di)) as (n' & -> & Hn').
        exists n'. split; [reflexivity|]. rewrite Hn'. lra.
    + rewrite !getValue_set_eq by exact Hproto. simpl.
      injection Hn as <-.
      destruct (num_or_zero (0 + di_quantity di)) as (n' & -> & Hn').
      exists n'. split; [reflexivity|]. rewrite Hn'. lra.
  - unfold availableStock in *. rewrite (addStock_other _ _ _ Hne).
    exists n. split; [exact Hn|lra].
Qed.

Lemma addStock_inherited m di pid :
  inherited pid = true ->
  (forall n, m !! pid <> Some (Num n)) ->
  forall n, addStock m di !! pid <> Some (Num n).
Proof.
  intros Hpid Hm.
  assert (Hset : forall o key v,
            (forall n, o !! pid <> Some (Num n)) ->
            (key = pid -> forall n, v <> Num n) ->
            forall n, setValue o key v !! pid <> Some (Num n)).
  { intros o key v Ho Hv k. unfold setValue.
    destruct (String.eqb key "__proto__"); [apply Ho|].
    destruct (decide (key = pid)) as [->|Hne].
    - rewrite lookup_insert_eq. intros [= ->]. eapply Hv; reflexivity.
    - rewrite lookup_insert_ne by exact Hne. apply Ho. }
  assert (Hget : forall o, (forall n, o !! pid <> Some (Num n)) ->
            exists v, getValue o pid = Some v /\ forall n, v <> Num n).
  { intros o Ho. unfold getValue.
    destruct (String.eqb pid "__proto__");
      [exists Member; split; [reflexivity|discriminate]|].
    destruct (o !! pid) as [v|] eqn:Hv.
    - exists v. split; [reflexivity|]. intros k ->. exact (Ho k eq_refl).
    - rewrite Hpid. exists Member. split; [reflexivity|discriminate]. }
  unfold addStock.
  destruct (decide (di_productId di = pid)) as [Heq|Hne].
  - rewrite Heq. destruct (Hget m Hm) as (v & Hv & Hnum). rewrite Hv.
    assert (Hf : falsy (Some v) = false)
      by (destruct v as [k| |]; [destruct (Hnum k eq_refl)|reflexivity..]).
    rewrite Hf, Hv. apply Hset; [exact Hm|].
    intros _ k.
    destruct v as [k'| |]; [destruct (Hnum k' eq_refl)|discriminate..].
  - destruct (falsy _);
      match goal with
      | |- context [match ?g with Some _ => _ | None => _ end] => destruct g
      end; repeat apply Hset; try exact Hm; intros; contradiction.
Qed.

Lemma availableStock_items its : forall m pid n,
  inherited pid = false -> availableStock m pid = Num n ->
  exists n',
    availableStock (fold_left addStock its m) pid = Num n' /\
    n' == n + itemsStock pid its.
Proof.
  induction its as [|di its IH]; intros m pid n Hpid Hn; simpl.
  - exists n. split; [exact Hn|lra].
  - destruct (addStock_number m di pid n Hpid Hn) as (n1 & Hn1 & Heq1).
    destruct (IH _ pid n1 Hpid Hn1) as (n' & Hn' & Heq').
    exists n'. split; [exact Hn'|]. rewrite Heq', Heq1.
    destruct (String.eqb (di_productId di) pid); lra.
Qed.

Lemma availableStock_lots (ds : list Distribution) : forall m pid n,
  inherited pid = false -> availableStock m pid = Num n ->
  exists n',
    availableStock
      (fold_left (fun stock d => fold_left addStock (dist_items d) stock) ds m)
      pid = Num n' /\
    n' == n + fold_right (fun d acc => lotStock pid d + acc) 0 ds.
Proof.
  induction ds as [|d ds IH]; intros m pid n Hpid Hn; simpl.
  - exists n. split; [exact Hn|lra].
  - destruct (availableStock_items (dist_items d) m pid n Hpid Hn)
      as (n1 & Hn1 & Heq1).
    destruct (IH _ pid n1 Hpid Hn1) as (n' & Hn' & Heq').
    exists n'. split; [exact Hn'|]. rewrite Heq', Heq1. unfold lotStock. lra.
Qed.

Lemma cashierStock_filter db cashierId pid :
  cashierStock db cashierId pid =
  fold_right (fun d acc => lotStock pid d + acc) 0
    (List.filter
       (fun d => String.eqb (dist_cashierId d) cashierId && isActive d) db).
Proof.
  unfold cashierStock. induction db as [|d db IH]; simpl; [reflexivity|].
  destruct (String.eqb (dist_cashierId d) cashierId && isActive d);
    simpl; rewrite IH; reflexivity.
Qed.

(** For a product id that is not such a name, the table agrees with the sum
    over the pending and delivered lots. *)
Lemma senderStock_available db cashierId pid :
  inherited pid = false ->
  exists n,
    availableStock
      (senderStockOf db
         (find (fun d => String.eqb (dist_cashierId d) cashierId && isActive d)
            db)) pid = Num n /\
    n == cashierStock db cashierId pid.
Proof.
  intros Hpid. unfold senderStockOf.
  rewrite (fold_left_handles
             (fun stock d => fold_left addStock (dist_items d) stock) db _ _ _
             (find_lookup _ db)).
  destruct (availableStock_lots
              (List.filter
                 (fun d => String.eqb (dist_cashierId d) cashierId &&
                           isActive d) db) ∅ pid 0 Hpid)
    as (n & Hn & Heq).
  - unfold availableStock, getValue.
    rewrite (not_inherited_proto _ Hpid), lookup_empty, Hpid. reflexivity.
  - exists n. split; [exact Hn|]. rewrite Heq, cashierStock_filter. lra.
Qed.

(** For such a name the table never holds a number, whatever the lots list,
    and the comparison of line 79 fails. *)
Lemma senderStock_inherited db hs pid q :
  inherited pid = true ->
  value_lt (availableStock (senderStockOf db hs) pid) q = false.
Proof.
  intros Hpid.
  assert (Hinv : forall n, senderStockOf db hs !! pid <> Some (Num n)).
  { unfold senderStockOf.
    assert (Hgen : forall m, (forall n, m !! pid <> Some (Num n)) ->
              forall n,
                fold_left
                  (fun stock h =>
                     match db !! h with
                     | Some dist => fold_left addStock (dist_items dist) stock
                     | None => stock
                     end) hs m !! pid <> Some (Num n)).
    { induction hs as [|h hs IH]; intros m Hm; [exact Hm|].
      simpl. apply IH. destruct (db !! h) as [d|]; [|exact Hm].
      generalize (dist_items d). intros its. revert m Hm.
      induction its as [|di its IHits]; intros m Hm; [exact Hm|].
      simpl. apply IHits. apply addStock_inherited; assumption. }
    apply Hgen. intros n. rewrite lookup_empty. discriminate. }
  unfold availableStock, getValue.
  destruct (String.eqb pid "__proto__"); [reflexivity|].
  destruct (senderStockOf db hs !! pid) as [[n| |]|] eqn:Hv;
    [destruct (Hinv n eq_refl)|reflexivity..|rewrite Hpid; reflexivity].
Qed.

Lemma checkStock_None stock items :
  checkStock stock items = None <->
  List.Forall
    (fun item =>
       value_lt (availableStock stock (productId item)) (quantity item) = false)
    items.
Proof.
  induction items as [|item items IH]; simpl.
  - split; [constructor|reflexivity].
  - destruct (value_lt _ _) eqn:E.
    + split; [discriminate|]. intros H. apply List.Forall_cons_iff in H as [H _].
      congruence.
    + rewrite IH, List.Forall_cons_iff. tauto.
Qed.

(** The check of lines 77-85 on one item: it passes for the name of a member
    of [Object.prototype], and otherwise when the stock covers the item. *)
Lemma stock_check db cashierId pid q :
  value_lt
    (availableStock
       (senderStockOf db
          (find (fun d => String.eqb (dist_cashierId d) cashierId && isActive d)
             db)) pid) q = false <->
  In pid objectPrototype \/ q <= cashierStock db cashierId pid.
Proof.
  rewrite <- inherited_In.
  destruct (inherited pid) eqn:Hpid.
  - rewrite senderStock_inherited by exact Hpid. tauto.
  - destruct (senderStock_available db cashierId pid Hpid) as (n & -> & Hn).
    simpl. rewrite num_lt_false_iff, Hn. split; [auto|].
    intros [H|H]; [discriminate|exact H].
Qed.

End SenderStock.

(** ** C3 and C10: rejected transfers *)

(** An item that the stock of the sender does not cover, and whose product
    id is not the name of a member of [Object.prototype], has the transfer
    rejected with the collection as the request found it. *)
Lemma short_item_rejected db senderCashierId receiverCashierId items notes now
  item :
  In item items ->
  ~ In (TransferRoute.productId item) TransferRoute.objectPrototype ->
  cashierStock db senderCashierId (TransferRoute.productId item) <
    TransferRoute.quantity item ->
  exists e,
    transferStock db senderCashierId receiverCashierId items notes now =
    (TransferRoute.Failure e, db).
Proof.
  intros Hin Hkey Hlt. unfold transferStock, TransferRoute.POST.
  destruct (_ || _ || _); [eauto|].
  destruct (String.eqb _ _); [eauto|].
  destruct (existsb _ _); [eauto|].
  destruct (TransferRoute.checkStock _ items) as [e|] eqn:E; [eauto|].
  exfalso. apply checkStock_None in E. rewrite List.Forall_forall in E.
  apply E in Hin. apply stock_check in Hin as [Hin|Hle]; [auto|lra].
Qed.

(** C3, at a failing input. Cashier ["c1"] holds 6 widgets, product ["p1"],
    in one delivered lot, and nothing of a product with the id
    ["constructor"]. A request to transfer 2 units of that product to cashier
    ["c2"] is accepted all the same: [senderStock] is a plain object, the
    read of line 78 yields the member [constructor] that every object
    inherits, and the comparison of line 79 of that member with 2 does not
    hold. The lot of the sender is left as it was and the receiver gets a
    delivered lot with 2 units. The same request for a product id ["p9"],
    of which the sender holds nothing either, is rejected. *)
Theorem C3_inherited_key_passes_stock_check :
  cashierStock Sample.oneLot "c1" "constructor" == 0 /\
  TransferRoute.availableStock
    (TransferRoute.senderStockOf Sample.oneLot [0%nat]) "constructor" =
    TransferRoute.Member /\
  (transferStock Sample.oneLot "c1" "c2" [Sample.request "constructor" 2] "" 9).1
    = TransferRoute.Success /\
  (transferStock Sample.oneLot "c1" "c2" [Sample.request "constructor" 2] "" 9).2
    = Sample.oneLot ++
      [mkDistribution "c1" "c2"
         [mkDistItem "constructor" "Widget" "W-1" "Tools" 2 100 (100 * 2)]
         (0 + 100 * 2) "Distribution from cashier" delivered 9] /\
  transferStock Sample.oneLot "c1" "c2" [Sample.request "p9" 2] "" 9 =
    (TransferRoute.Failure
       (TransferRoute.InsufficientStock "Widget" (TransferRoute.Num 0) 2),
     Sample.oneLot).
Proof. repeat split; vm_compute; reflexivity. Qed.

(** C10. A transfer whose sender is also its receiver is rejected, with a
    response that does not depend on the distribution collection, and the
    collection is left as it was. *)
Theorem C10_transfer_to_self_rejected
  (cashierId : string) (items : list TransferRoute.TransferItem)
  (notes : string) (now : Z) :
  exists e,
    (e = TransferRoute.MissingRequiredFields \/
     e = TransferRoute.CannotDistributeToYourself) /\
    forall db : list Distribution,
      transferStock db cashierId cashierId items notes now =
      (TransferRoute.Failure e, db).
Proof.
  unfold transferStock, TransferRoute.POST.
  destruct (_ || _ || _).
  - eexists; split; [left; reflexivity|]. reflexivity.
  - rewrite String.eqb_refl.
    eexists; split; [right; reflexivity|]. reflexivity.
Qed.

(** ** The return handler: what an accepted request appends *)

Section ReturnLines.

Import ReturnRoute.

Lemma processLine_inr t now st req st' :
  processLine t now st req = inr st' ->
  exists r,
    returnedFor t now req r /\
    newReturnedItems st' = newReturnedItems st ++ [r] /\
    totalReturnAmount st' = totalReturnAmount st + ri_returnAmount r.
Proof.
  unfold processLine.
  destruct (_ || _) eqn:Hidx; [discriminate|].
  apply orb_false_iff in Hidx as [Hlo _].
  destruct (tx_items t !! _) as [originalItem|] eqn:Hit; [|discriminate].
  destruct (num_gt _ _) eqn:Hq; [discriminate|].
  intros [= <-]. simpl.
  exists (newReturnedItem originalItem req now). repeat split.
  exists originalItem. repeat split; [lia|exact Hit|].
  apply num_lt_false_iff in Hq. exact Hq.
Qed.

Lemma processLines_inr t now reqs : forall st st',
  processLines t now st reqs = inr st' ->
  exists news,
    Forall2 (returnedFor t now) reqs news /\
    newReturnedItems st' = newReturnedItems st ++ news /\
    totalReturnAmount st' == totalReturnAmount st + sumReturnAmounts news.
Proof.
  induction reqs as [|req reqs IH]; intros st st' H; simpl in H.
  - injection H as <-. exists []. rewrite app_nil_r. simpl.
    repeat split; [constructor|lra].
  - destruct (processLine t now st req) as [e|st1] eqn:E; [discriminate|].
    destruct (processLine_inr _ _ _ _ _ E) as (r & Hr & Hnew & Htot).
    destruct (IH _ _ H) as (news & Hall & Hnews & Hsum).
    exists (r :: news). repeat split.
    + constructor; assumption.
    + rewrite Hnews, Hnew, <- app_assoc. reflexivity.
    + rewrite Hsum, Htot. simpl. lra.
Qed.

(** A successful response comes from a loop that ran to its end, and carries
    the updated transaction. *)
Lemma POST_success db0 found reqs now t' amount :
  response (POST db0 found reqs now) = Success t' amount ->
  exists t st,
    found = Some t /\
    processLines t now (mkLoopState 0 [] db0) reqs = inr st /\
    t' = updateTransaction t st /\
    amount = totalReturnAmount st.
Proof.
  unfold POST. destruct reqs as [|req reqs]; [discriminate|].
  destruct found as [t|]; [|discriminate].
  destruct (processLines _ _ _ _) as [[e db1]|st] eqn:E; [discriminate|].
  destruct (TransactionSchema _); [|discriminate].
  simpl. intros [= <- <-]. eauto 6.
Qed.

Lemma updateTransaction_fields t st :
  let t' := updateTransaction t st in
  tx_items t' = tx_items t /\
  tx_returnedItems t' = tx_returnedItems t ++ newReturnedItems st /\
  tx_subtotal t' = Qmax 0 (tx_subtotal t - totalReturnAmount st) /\
  tx_totalAmount t' = Qmax 0 (tx_totalAmount t - totalReturnAmount st) /\
  tx_overallDiscount t' = tx_overallDiscount t.
Proof.
  unfold updateTransaction. destruct (num_ge _ _); simpl; auto.
Qed.

End ReturnLines.

(** ** C6, C8 and C9: refunds, status and totals of an accepted return *)

(** C6. Every line of an accepted request appends a returned item whose
    refund is the line total of the original item divided by its quantity,
    times the returned quantity, and the amount of the response is the sum of
    these refunds. For four widgets with a line total of 360, returning one
    refunds 90 and returning the other three refunds 270, 360 in all. *)
Theorem C6_refund_proportional :
  (forall (db : list Distribution) (t : ITransaction)
          (reqs : list ReturnRoute.ReturnRequest) (now : Z)
          (t' : ITransaction) (amount : Q),
     ReturnRoute.response (processReturn db (Some t) reqs now) =
       ReturnRoute.Success t' amount ->
     exists news,
       tx_returnedItems t' = tx_returnedItems t ++ news /\
       Forall2
         (fun req r =>
            exists originalItem,
              (tx_items t !! Z.to_nat (ReturnRoute.itemIndex req) =
                 Some originalItem) /\
              ri_quantity r = ReturnRoute.quantity req /\
              ri_returnAmount r =
                (ti_total originalItem / ti_quantity originalItem) *
                ReturnRoute.quantity req)
         reqs news /\
       amount == sumReturnAmounts news) /\
  (exists t1 a1 t2 a2,
     ReturnRoute.response
       (processReturn [] (Some Sample.sale) [Sample.line 0 1] 0) =
       ReturnRoute.Success t1 a1 /\
     ReturnRoute.response
       (processReturn [] (Some t1) [Sample.line 0 3] 0) =
       ReturnRoute.Success t2 a2 /\
     a1 == 90 /\ a2 == 270 /\ a1 + a2 == 360).
Proof.
  split.
  - intros db t reqs now t' amount H.
    apply POST_success in H as (t0 & st & [= <-] & Hlines & -> & ->).
    apply processLines_inr in Hlines as (news & Hall & Hnew & Hsum).
    simpl in Hnew, Hsum.
    exists news. split; [|split].
    + rewrite (proj1 (proj2 (updateTransaction_fields t st))), Hnew.
      reflexivity.
    + eapply Forall2_impl; [exact Hall|].
      intros req r (originalItem & _ & Hit & _ & ->).
      exists originalItem. repeat split. exact Hit.
    + rewrite Hsum. lra.
  - do 4 eexists. split; [vm_compute; reflexivity|].
    split; [vm_compute; reflexivity|].
    repeat split; reflexivity.
Qed.

Lemma fold_left_sum {A : Type} (f : A -> Q) (l : list A) : forall acc,
  fold_left (fun sum x => sum + f x) l acc ==
  acc + fold_right (fun x acc => f x + acc) 0 l.
Proof.
  induction l as [|x l IH]; intros acc; simpl; [lra|]. rewrite IH. lra.
Qed.


(** C9, as stated, fails: one widget sold at 100 with an overall discount of
    10 has a total of 90; returning it refunds 100, the subtotal and the
    total are both clamped to 0, and 0 is not 0 - 10. *)
Lemma C9_clamp_breaks_equation :
  ~ (forall (db : list Distribution) (t : ITransaction)
            (reqs : list ReturnRoute.ReturnRequest) (now : Z)
            (t' : ITransaction) (amount : Q),
       totalsConsistent t ->
       ReturnRoute.response (processReturn db (Some t) reqs now) =
         ReturnRoute.Success t' amount ->
       totalsConsistent t').
Proof.
  intros H.
  pose (t' := ReturnRoute.updateTransaction Sample.discounted
                (ReturnRoute.mkLoopState (0 + 100 / 1 * 1)
                   [ReturnRoute.newReturnedItem Sample.single
                      (Sample.line 0 1) 0] [])).
  assert (Hbad : totalsConsistent t').
  { apply (H [] Sample.discounted [Sample.line 0 1] 0%Z t' (0 + 100 / 1 * 1)).
    - reflexivity.
    - vm_compute. reflexivity. }
  vm_compute in Hbad. discriminate Hbad.
Qed.

(** C9, amended. After a successful return on a transaction whose total is
    its subtotal less a non-negative overall discount, the subtotal is
    [max 0 (subtotal - amount)] and the total is [max 0 (total - amount)],
    each computed on its own from the field it replaces, and the overall
    discount is as it was. The total is not computed again from the subtotal
    and the overall discount, and no equation between the three is stated:
    what holds of them afterwards is that neither the total nor the subtotal
    is negative, that the total does not exceed the subtotal, that the total
    stays positive when the amount is less than the old total, and that a
    field is 0 when the amount reaches its old value. *)
Theorem C9_totals_after_return
  (db : list Distribution) (t : ITransaction)
  (reqs : list ReturnRoute.ReturnRequest) (now : Z)
  (t' : ITransaction) (amount : Q) :
  totalsConsistent t ->
  0 <= tx_overallDiscount t ->
  ReturnRoute.response (processReturn db (Some t) reqs now) =
    ReturnRoute.Success t' amount ->
  tx_subtotal t' = Qmax 0 (tx_subtotal t - amount) /\
  tx_totalAmount t' = Qmax 0 (tx_totalAmount t - amount) /\
  tx_overallDiscount t' = tx_overallDiscount t /\
  0 <= tx_totalAmount t' /\
  tx_totalAmount t' <= tx_subtotal t' /\
  (amount < tx_totalAmount t -> 0 < tx_totalAmount t') /\
  (tx_totalAmount t <= amount -> tx_totalAmount t' == 0) /\
  (tx_subtotal t <= amount -> tx_subtotal t' == 0).
Proof.
  unfold totalsConsistent. intros Hinv Hd H.
  apply POST_success in H as (t0 & st & [= <-] & _ & -> & ->).
  destruct (updateTransaction_fields t st) as (_ & _ & Hs & Ht & Ho).
  simpl in Hs, Ht, Ho. rewrite Hs, Ht, Ho.
  split; [reflexivity|]. split; [reflexivity|]. split; [reflexivity|].
  split; [minmax|]. split; [minmax|].
  split; [intros Hlt; minmax|].
  split; intros Hle; minmax.
Qed.

(** The handler subtracts in binary64 and rounds each of the two fields on
    its own, which is why the amended claim states an order and no equation,
    also where nothing is clamped: three units with a line total of 100, an
    overall discount of 10 and a total of 90. Returning one unit refunds
    33.333333333333336; the total becomes 56.666666666666664 and the subtotal
    66.66666666666666, and the subtotal less the discount is
    56.66666666666666. *)
Example fields_rounded_separately :
  let refund := binary64 (binary64 (100 / 3) * 1) in
  let subtotal := Qmax 0 (binary64 (100 - refund)) in
  let total := Qmax 0 (binary64 (90 - refund)) in
  binary64 (subtotal - 10) < total /\ total <= subtotal.
Proof. split; vm_compute; [reflexivity|intros H; discriminate H]. Qed.

(** ** C7: what the return handler rejects *)

Lemma ReturnedItemSchema_quantity r :
  ReturnedItemSchema r = true -> 1 <= ri_quantity r.
Proof.
  unfold ReturnedItemSchema, min_ok. intros H.
  repeat (apply andb_prop in H as [H ?]).
  apply num_le_iff. assumption.
Qed.

Lemma TransactionSchema_returned t r :
  TransactionSchema t = true -> In r (tx_returnedItems t) ->
  1 <= ri_quantity r.
Proof.
  unfold TransactionSchema. intros H Hin.
  repeat (apply andb_prop in H as [H ?]).
  apply ReturnedItemSchema_quantity.
  match goal with
  | Hall : forallb ReturnedItemSchema _ = true |- _ =>
      rewrite forallb_forall in Hall; apply Hall, Hin
  end.
Qed.

Lemma Forall2_In_left {A B : Type} (R : A -> B -> Prop) xs ys x :
  Forall2 R xs ys -> In x xs -> exists y, In y ys /\ R x y.
Proof.
  induction 1 as [|x0 y0 xs ys Hxy Hall IH]; intros Hin; [destruct Hin|].
  destruct Hin as [->|Hin].
  - exists y0. split; [left; reflexivity|exact Hxy].
  - destruct (IH Hin) as (y & Hy & HR). exists y. split; [right|]; assumption.
Qed.

(** C7, as stated, fails: a request for one and a half widgets, which is not
    an integer, is accepted, recorded and put back into the cashier's lot. *)
Lemma C7_fractional_quantity_accepted :
  (forall n : Z, ~ (3 # 2) == inject_Z n) /\
  exists t' amount,
    ReturnRoute.response
      (processReturn Sample.oneLot (Some Sample.sale)
         [Sample.line 0 (3 # 2)] 0) =
      ReturnRoute.Success t' amount /\
    map ri_quantity (tx_returnedItems t') = [3 # 2] /\
    map (lotStock "p1")
      (ReturnRoute.dists
         (processReturn Sample.oneLot (Some Sample.sale)
            [Sample.line 0 (3 # 2)] 0)) = [15 # 2].
Proof.
  split.
  - intros n H. unfold Qeq in H. simpl in H. lia.
  - do 2 eexists. split; [vm_compute; reflexivity|].
    split; vm_compute; reflexivity.
Qed.

(** C7, amended. A request with a line whose item index is out of range, or
    whose quantity is below 1 (zero, negative, or a fraction below 1), is
    rejected, and the stored transaction is the one the request found. (A
    fractional quantity of 1 or more is not rejected.) *)
Theorem C7_rejects_bad_index_and_quantity_below_one
  (db : list Distribution) (t : ITransaction)
  (reqs : list ReturnRoute.ReturnRequest) (now : Z)
  (req : ReturnRoute.ReturnRequest) :
  In req reqs ->
  (ReturnRoute.itemIndex req < 0)%Z \/
  (Z.of_nat (length (tx_items t)) <= ReturnRoute.itemIndex req)%Z \/
  ReturnRoute.quantity req < 1 ->
  exists e,
    ReturnRoute.response (processReturn db (Some t) reqs now) =
      ReturnRoute.Failure e /\
    ReturnRoute.stored (processReturn db (Some t) reqs now) = Some t.
Proof.
  intros Hin Hbad. unfold processReturn, ReturnRoute.POST.
  destruct reqs as [|req0 reqs0] eqn:Hreqs; [destruct Hin|].
  rewrite <- Hreqs in *. clear Hreqs req0 reqs0.
  destruct (ReturnRoute.processLines _ _ _ _) as [[e db1]|st] eqn:E.
  { exists e. split; reflexivity. }
  destruct (TransactionSchema _) eqn:V;
    [exfalso|exists ReturnRoute.FailedToProcessReturn; split; reflexivity].
  apply processLines_inr in E as (news & Hall & Hnew & _). simpl in Hnew.
  destruct (Forall2_In_left _ _ _ _ Hall Hin)
    as (r & Hr & originalItem & Hlo & Hit & _ & ->).
  destruct Hbad as [Hneg|[Hhigh|Hq]].
  - lia.
  - apply lookup_lt_Some in Hit. lia.
  - assert (Hone : 1 <= ri_quantity
                          (ReturnRoute.newReturnedItem originalItem req now)).
    { apply (TransactionSchema_returned _ _ V).
      rewrite (proj1 (proj2 (updateTransaction_fields t st))), Hnew.
      apply in_or_app. right. exact Hr. }
    simpl in Hone. lra.
Qed.

(** ** What holds of rejected and of one-line requests *)

(** A rejected request leaves the stored transaction as it was. *)
Lemma POST_failure_keeps_transaction db found reqs now e :
  ReturnRoute.response (processReturn db found reqs now) =
    ReturnRoute.Failure e ->
  ReturnRoute.stored (processReturn db found reqs now) = found.
Proof.
  unfold processReturn, ReturnRoute.POST.
  destruct reqs; [reflexivity|]. destruct found as [t|]; [|reflexivity].
  destruct (ReturnRoute.processLines _ _ _ _) as [[e' db1]|st];
    [reflexivity|].
  destruct (TransactionSchema _); [discriminate|reflexivity].
Qed.

(** A request that is rejected at its first line leaves the lots as they
    were. *)
Lemma POST_first_line_rejected db t req reqs now e :
  ReturnRoute.processLine t now (ReturnRoute.mkLoopState 0 [] db) req =
    inl e ->
  processReturn db (Some t) (req :: reqs) now =
    ReturnRoute.mkOutcome (ReturnRoute.Failure e) db (Some t).
Proof.
  intros H. unfold processReturn, ReturnRoute.POST. simpl. rewrite H.
  reflexivity.
Qed.

(** The bound of C2 does hold for a request of one line: after it is
    accepted, the returned quantity of the item does not exceed the quantity
    sold. *)
Lemma one_line_return_bound db t req now t' amount originalItem :
  ReturnRoute.response (processReturn db (Some t) [req] now) =
    ReturnRoute.Success t' amount ->
  tx_items t !! Z.to_nat (ReturnRoute.itemIndex req) = Some originalItem ->
  ReturnRoute.alreadyReturned t' originalItem ==
    ReturnRoute.alreadyReturned t originalItem + ReturnRoute.quantity req /\
  ReturnRoute.alreadyReturned t' originalItem <= ti_quantity originalItem.
Proof.
  intros H Hit.
  apply POST_success in H as (t0 & st & [= <-] & Hlines & -> & _).
  apply processLines_inr in Hlines as (news & Hall & Hnew & _).
  simpl in Hnew. rewrite <- Hnew in Hall. clear Hnew.
  apply Forall2_cons_inv_l in Hall as (r & rest & Hr & Hnil & Hst).
  apply Forall2_nil_inv_l in Hnil as ->. symmetry in Hst.
  destruct Hr as (o & _ & Ho & Hq & Hr).
  assert (o = originalItem) as -> by congruence.
  assert (Heq : ReturnRoute.alreadyReturned (ReturnRoute.updateTransaction t st)
                  originalItem =
                ReturnRoute.alreadyReturned t originalItem +
                ReturnRoute.quantity req).
  { unfold ReturnRoute.alreadyReturned at 1.
    rewrite (proj1 (proj2 (updateTransaction_fields t st))), <- Hst, Hr.
    rewrite fold_left_app. simpl. rewrite !String.eqb_refl. reflexivity. }
  rewrite Heq. split; [reflexivity|lra].
Qed.

(** ** C1 and C2: where the return handler departs from the specification *)

(** C1, at a failing input. The cashier holds 6 widgets in one delivered lot
    and sold 4. A request returns 1 widget (valid) and then 9 widgets (more
    than can be returned), or 1 widget and then a line with item index 5.
    Either request is rejected and the stored transaction is untouched, but
    the lot already holds 7 widgets: the stock of the first line was put
    back before the second line was looked at. *)
Theorem C1_rejected_request_reinstates_stock :
  ReturnRoute.response
    (processReturn Sample.oneLot (Some Sample.sale)
       [Sample.line 0 1; Sample.line 0 9] 0) =
    ReturnRoute.Failure (ReturnRoute.CannotReturn 9 (4 - 0)) /\
  ReturnRoute.stored
    (processReturn Sample.oneLot (Some Sample.sale)
       [Sample.line 0 1; Sample.line 0 9] 0) = Some Sample.sale /\
  ReturnRoute.response
    (processReturn Sample.oneLot (Some Sample.sale)
       [Sample.line 0 1; Sample.line 5 1] 0) =
    ReturnRoute.Failure (ReturnRoute.InvalidItemIndex 5) /\
  ReturnRoute.stored
    (processReturn Sample.oneLot (Some Sample.sale)
       [Sample.line 0 1; Sample.line 5 1] 0) = Some Sample.sale /\
  map (lotStock "p1") Sample.oneLot = [6] /\
  map (lotStock "p1")
    (ReturnRoute.dists
       (processReturn Sample.oneLot (Some Sample.sale)
          [Sample.line 0 1; Sample.line 0 9] 0)) = [7] /\
  map (lotStock "p1")
    (ReturnRoute.dists
       (processReturn Sample.oneLot (Some Sample.sale)
          [Sample.line 0 1; Sample.line 5 1] 0)) = [7] /\
  ReturnRoute.dists
    (processReturn Sample.oneLot (Some Sample.sale)
       [Sample.line 0 1; Sample.line 0 9] 0) <> Sample.oneLot /\
  ReturnRoute.dists
    (processReturn Sample.oneLot (Some Sample.sale)
       [Sample.line 0 1; Sample.line 5 1] 0) <> Sample.oneLot.
Proof.
  repeat split; try (vm_compute; reflexivity);
    intros H; apply (f_equal (map (lotStock "p1"))) in H;
    vm_compute in H; discriminate H.
Qed.

(** C2, at a failing input. Four widgets were sold and none returned. One
    request with two lines for the same item, 3 widgets each, is accepted:
    both lines are checked against the returned items of the transaction as
    it was loaded. The returned items for the item then sum to 6. *)
Theorem C2_two_lines_for_one_item_over_return :
  exists t' amount,
    ReturnRoute.response
      (processReturn [] (Some Sample.sale)
         [Sample.line 0 3; Sample.line 0 3] 0) =
      ReturnRoute.Success t' amount /\
    tx_items t' = [Sample.widget] /\
    ti_quantity Sample.widget = 4 /\
    map ri_quantity (tx_returnedItems t') = [3; 3] /\
    ReturnRoute.alreadyReturned t' Sample.widget == 6 /\
    ti_quantity Sample.widget < ReturnRoute.alreadyReturned t' Sample.widget.
Proof.
  do 2 eexists. split; [vm_compute; reflexivity|].
  repeat split; vm_compute; reflexivity.
Qed.

(** ** Sorting handles *)

Section Sorting.

Variable before : nat -> nat -> bool.

Lemma insertBy_In x y l : In y (insertBy before x l) <-> y = x \/ In y l.
Proof.
  induction l as [|z l IH]; simpl.
  - intuition.
  - destruct (before x z); simpl; [intuition|]. rewrite IH. intuition.
Qed.

Lemma sortBy_In y l : In y (sortBy before l) <-> In y l.
Proof.
  induction l as [|x l IH]; simpl; [reflexivity|].
  rewrite insertBy_In, IH. intuition.
Qed.

Lemma insertBy_Permutation x l : Permutation (x :: l) (insertBy before x l).
Proof.
  induction l as [|z l IH]; simpl; [reflexivity|].
  destruct (before x z); [reflexivity|].
  rewrite <- IH. apply perm_swap.
Qed.

Lemma sortBy_Permutation l : Permutation l (sortBy before l).
Proof.
  induction l as [|x l IH]; simpl; [reflexivity|].
  rewrite <- insertBy_Permutation. apply perm_skip, IH.
Qed.

Hypothesis before_total : forall a b, before a b = false -> before b a = true.
Hypothesis before_trans :
  forall a b c, before a b = true -> before b c = true -> before a c = true.

Lemma before_refl a : before a a = true.
Proof.
  pose proof (before_total a a) as H.
  destruct (before a a); [reflexivity|exact (H eq_refl)].
Qed.

(** The head of a sorted list comes before every element. *)
Lemma sortBy_head l h t :
  sortBy before l = h :: t -> forall x, In x l -> before h x = true.
Proof.
  revert h t. induction l as [|a l IH]; intros h t Hs x Hx; [destruct Hx|].
  simpl in Hs. destruct (sortBy before l) as [|y r] eqn:Hl.
  - apply (sortBy_In x) in Hx. simpl in Hx. rewrite Hl in Hx.
    apply insertBy_In in Hx as [->|[]]. injection Hs as <- _.
    apply before_refl.
  - assert (Hy : forall z, In z l -> before y z = true) by (eapply IH; eauto).
    simpl in Hs. destruct Hx as [<-|Hx];
      destruct (before a y) eqn:E; injection Hs as <- _;
      eauto using before_refl.
Qed.

(** The output is sorted. *)
Lemma insertBy_sorted x l :
  StronglySorted (fun a b => before a b = true) l ->
  StronglySorted (fun a b => before a b = true) (insertBy before x l).
Proof.
  induction 1 as [|y r Hr IH Hy]; simpl.
  - constructor; constructor.
  - destruct (before x y) eqn:E.
    + constructor; [constructor; assumption|].
      constructor; [exact E|].
      rewrite List.Forall_forall in *. eauto.
    + constructor; [exact IH|].
      rewrite List.Forall_forall in *. intros z Hz.
      apply insertBy_In in Hz as [->|Hz]; auto.
Qed.

Lemma sortBy_sorted l :
  StronglySorted (fun a b => before a b = true) (sortBy before l).
Proof.
  induction l as [|x l IH]; simpl; [constructor|].
  apply insertBy_sorted, IH.
Qed.

End Sorting.

(** ** C5: where returned stock goes *)

Section Reinstate.

Import ReturnRoute.

Lemma addBackItems_none pid q its r :
  existsb (sameProduct pid) its = false ->
  addBackItems pid q its r = (its, r, false).
Proof.
  induction its as [|it its IH]; simpl; [reflexivity|].
  intros H. apply orb_false_iff in H as [Hit Hrest].
  rewrite Hit, (IH Hrest). reflexivity.
Qed.

Lemma itemsStock_addBack pid q it rest :
  sameProduct pid it = true ->
  itemsStock pid (addBack q it :: rest) == itemsStock pid (it :: rest) + q.
Proof.
  unfold sameProduct. intros H. simpl. rewrite H. lra.
Qed.

Lemma itemsStock_addBack_other pid pid' q it rest :
  sameProduct pid it = true -> pid' <> pid ->
  itemsStock pid' (addBack q it :: rest) = itemsStock pid' (it :: rest).
Proof.
  unfold sameProduct. intros H Hne. simpl.
  apply String.eqb_eq in H. rewrite H.
  destruct (String.eqb_spec pid pid'); [congruence|reflexivity].
Qed.

(** The first matching line takes the whole quantity, and the loop ends. *)
Lemma addBackItems_first pid q its :
  0 < q ->
  existsb (sameProduct pid) its = true ->
  exists its' r,
    addBackItems pid q its q = (its', r, true) /\
    r <= 0 /\
    itemsStock pid its' == itemsStock pid its + q /\
    (forall pid', pid' <> pid -> itemsStock pid' its' = itemsStock pid' its).
Proof.
  intros Hq. induction its as [|it its IH]; simpl; [discriminate|].
  intros H. destruct (sameProduct pid it) eqn:Hit.
  - assert (Hmin : Qmin q q == q) by (apply Q.min_l; lra).
    assert (Hle : num_le (q - Qmin q q) 0 = true)
      by (apply num_le_iff; lra).
    rewrite Hle. do 2 eexists. split; [reflexivity|]. split; [lra|]. split.
    + rewrite (itemsStock_addBack pid _ it its Hit). simpl. rewrite Hmin.
      reflexivity.
    + intros pid' Hne. apply (itemsStock_addBack_other pid); assumption.
  - simpl in H. destruct (IH H) as (its' & r & -> & Hr & Hs & Ho).
    exists (it :: its'), r. split; [reflexivity|]. split; [exact Hr|].
    unfold sameProduct in Hit. simpl. split.
    + rewrite Hit. exact Hs.
    + intros pid' Hne. rewrite (Ho pid' Hne). reflexivity.
Qed.

Lemma addBackLoop_done pid q hs r db :
  r <= 0 -> addBackLoop pid q hs r db = (r, db).
Proof.
  intros Hr. apply num_le_iff in Hr. destruct hs; simpl; [|rewrite Hr];
    reflexivity.
Qed.

Lemma addBackLoop_cons pid q h rest r db :
  addBackLoop pid q (h :: rest) r db =
  if num_le r 0 then (r, db)
  else
    match db !! h with
    | Some distribution =>
        if nonEmpty (dist_items distribution) then
          let '(its', r', touched) :=
            addBackItems pid q (dist_items distribution) r in
          if touched
          then addBackLoop pid q rest r'
                 (<[h := withItems distribution its']> db)
          else addBackLoop pid q rest r db
        else addBackLoop pid q rest r db
    | None => addBackLoop pid q rest r db
    end.
Proof. reflexivity. Qed.

(** Lots without a line for the product are passed over. *)
Lemma addBackLoop_skip pid q pre rest r db :
  0 < r ->
  (forall h, In h pre -> holdsLine db pid h = false) ->
  addBackLoop pid q (pre ++ rest) r db = addBackLoop pid q rest r db.
Proof.
  intros Hr. apply num_le_false_iff in Hr.
  induction pre as [|h pre IH]; intros Hpre; [reflexivity|].
  assert (Hh := Hpre h (or_introl eq_refl)).
  assert (IH' := IH (fun h' Hin => Hpre h' (or_intror Hin))).
  rewrite <- app_comm_cons, addBackLoop_cons, Hr. unfold holdsLine in Hh.
  destruct (db !! h) as [d|]; [|exact IH'].
  rewrite (addBackItems_none _ q _ r Hh).
  destruct (nonEmpty (dist_items d)); exact IH'.
Qed.

Lemma addToExisting_none pid q its :
  existsb (sameProduct pid) its = false -> addToExisting pid q its = None.
Proof.
  induction its as [|it its IH]; simpl; [reflexivity|].
  intros H. apply orb_false_iff in H as [Hit Hrest].
  rewrite Hit, (IH Hrest). reflexivity.
Qed.

Lemma itemsStock_app pid its1 its2 :
  itemsStock pid (its1 ++ its2) == itemsStock pid its1 + itemsStock pid its2.
Proof.
  induction its1 as [|it its1 IH]; simpl; [lra|].
  destruct (String.eqb _ _); rewrite IH; lra.
Qed.

Lemma itemsStock_app_other pid its it :
  String.eqb (di_productId it) pid = false ->
  itemsStock pid (its ++ [it]) = itemsStock pid its.
Proof.
  intros Hne. induction its as [|i its IH]; simpl; [rewrite Hne; reflexivity|].
  rewrite IH. reflexivity.
Qed.

(** The first lot, newest first, that has a line for the product takes the
    stock, whatever its status. *)
Lemma reinstate_merges cashierId originalItem q db pre h post :
  0 < q ->
  distributionsOf cashierId db = pre ++ h :: post ->
  (forall h', In h' pre ->
     holdsLine db (ti_productId originalItem) h' = false) ->
  holdsLine db (ti_productId originalItem) h = true ->
  putInto db (reinstate cashierId originalItem q db) h
    (ti_productId originalItem) q.
Proof.
  intros Hq Hhs Hpre Hh. unfold reinstate. rewrite Hhs.
  rewrite (addBackLoop_skip _ _ _ _ _ _ Hq Hpre).
  assert (Hq' := proj2 (num_le_false_iff _ _) Hq).
  rewrite addBackLoop_cons, Hq'. unfold holdsLine in Hh.
  destruct (db !! h) as [d|] eqn:Hd; [|discriminate].
  destruct (addBackItems_first _ _ _ Hq Hh) as (its' & r & Hits & Hr & Hs & Ho).
  assert (Hgt : num_gt r 0 = false) by (apply num_lt_false_iff; exact Hr).
  assert (Hend :
    (let '(remainingQuantity, db1) :=
       addBackLoop (ti_productId originalItem) q post r
         (<[h := withItems d its']> db) in
     addRemaining originalItem (pre ++ h :: post) remainingQuantity db1) =
    <[h := withItems d its']> db).
  { rewrite (addBackLoop_done _ _ _ _ _ Hr). unfold addRemaining.
    rewrite Hgt. reflexivity. }
  exists d, (withItems d its'). unfold lotStock.
  split; [exact Hd|]. split.
  - rewrite Hits.
    destruct (dist_items d); [discriminate|exact Hend].
  - repeat split; assumption.
Qed.

(** Without such a line anywhere, the target of lines 141-148 takes it. *)
Lemma reinstate_falls_back cashierId originalItem q db h d :
  0 < q ->
  (forall h', In h' (distributionsOf cashierId db) ->
     holdsLine db (ti_productId originalItem) h' = false) ->
  targetDistribution db (distributionsOf cashierId db) = Some h ->
  In h (distributionsOf cashierId db) ->
  db !! h = Some d ->
  putInto db (reinstate cashierId originalItem q db) h
    (ti_productId originalItem) q.
Proof.
  intros Hq Hnone Htarget Hin Hd. unfold reinstate.
  rewrite <- (app_nil_r (distributionsOf cashierId db)) at 1.
  rewrite (addBackLoop_skip _ _ _ _ _ _ Hq Hnone). simpl.
  unfold addRemaining.
  assert (Hgt : num_gt q 0 = true) by (apply num_lt_iff; exact Hq).
  rewrite Hgt, Htarget, Hd.
  assert (Hh := Hnone h Hin). unfold holdsLine in Hh. rewrite Hd in Hh.
  rewrite (addToExisting_none _ _ _ Hh).
  eexists d, _. split; [exact Hd|]. split; [reflexivity|].
  unfold lotStock. simpl. repeat split.
  - rewrite itemsStock_app. simpl. rewrite String.eqb_refl. lra.
  - intros pid' Hne. apply itemsStock_app_other. simpl.
    apply String.eqb_neq. congruence.
Qed.

End Reinstate.

Section Target.

Import ReturnRoute.

Lemma lookup_of_map (db : list Distribution) hs ds h :
  map (fun h => db !! h) hs = map Some ds -> In h hs ->
  exists d, db !! h = Some d /\ In d ds.
Proof.
  revert ds. induction hs as [|h0 hs IH]; intros [|d ds] Heq Hin;
    simpl in *; try discriminate; [destruct Hin|].
  injection Heq as Hh Hrest. destruct Hin as [->|Hin]; [eauto|].
  destruct (IH _ Hrest Hin) as (d' & ? & ?). eauto.
Qed.

(** A query yields handles of documents that match. *)
Lemma find_valid P (db : list Distribution) h :
  In h (find P db) -> exists d, db !! h = Some d /\ P d = true.
Proof.
  intros Hin.
  destruct (lookup_of_map db _ _ h (find_lookup P db) Hin) as (d & Hd & Hf).
  apply filter_In in Hf as [_ HP]. eauto.
Qed.

Lemma distributionsOf_valid cashierId db h :
  In h (distributionsOf cashierId db) ->
  exists d, db !! h = Some d /\ dist_cashierId d = cashierId.
Proof.
  unfold distributionsOf, sortNewestFirst. rewrite sortBy_In.
  intros Hin. apply find_valid in Hin as (d & Hd & HP).
  apply andb_prop in HP as [Hc _]. apply String.eqb_eq in Hc. eauto.
Qed.

Lemma sortNewestFirst_sorted db hs :
  StronglySorted
    (fun a b => (createdAtOf db b <=? createdAtOf db a)%Z = true)
    (sortNewestFirst db hs).
Proof.
  unfold sortNewestFirst.
  apply (sortBy_sorted (fun a b => (createdAtOf db b <=? createdAtOf db a)%Z)).
  - intros a b H. apply Z.leb_gt in H. apply Z.leb_le. lia.
  - intros a b c H1 H2. apply Z.leb_le in H1, H2. apply Z.leb_le. lia.
Qed.

Lemma StronglySorted_after {A : Type} (R : A -> A -> Prop) pre h post :
  StronglySorted R (pre ++ h :: post) -> List.Forall (R h) post.
Proof.
  induction pre as [|x pre IH]; simpl; intros H;
    apply StronglySorted_inv in H as [Hs Hall]; [exact Hall|exact (IH Hs)].
Qed.

(** With an active lot, the target is the newest active lot. *)
Lemma targetDistribution_active db hs h0 :
  In h0 hs -> activeHandle db h0 = true ->
  exists h,
    targetDistribution db hs = Some h /\
    In h hs /\ activeHandle db h = true /\
    forall h', In h' hs -> activeHandle db h' = true ->
               (createdAtOf db h' <= createdAtOf db h)%Z.
Proof.
  intros Hin Hact. unfold targetDistribution, sortNewestFirst.
  destruct (sortBy _ (List.filter (activeHandle db) hs)) as [|h t] eqn:Hs.
  - assert (Hmem : In h0 []); [|destruct Hmem].
    rewrite <- Hs. apply sortBy_In, filter_In. auto.
  - exists h. split; [reflexivity|].
    assert (Hh : In h (List.filter (activeHandle db) hs)).
    { eapply sortBy_In. rewrite Hs. left. reflexivity. }
    apply filter_In in Hh as [Hh1 Hh2]. repeat split; [assumption..|].
    intros h' Hin' Hact'. apply Z.leb_le.
    apply (sortBy_head
             (fun a b => (createdAtOf db b <=? createdAtOf db a)%Z))
      with (l := List.filter (activeHandle db) hs) (t := t).
    + intros a b H. apply Z.leb_gt in H. apply Z.leb_le. lia.
    + intros a b c H1 H2. apply Z.leb_le in H1, H2. apply Z.leb_le. lia.
    + exact Hs.
    + apply filter_In. auto.
Qed.

(** Without one, it is the first of the distributions. *)
Lemma targetDistribution_inactive db hs :
  (forall h, In h hs -> activeHandle db h = false) ->
  targetDistribution db hs = head hs.
Proof.
  intros Hnone. unfold targetDistribution.
  replace (List.filter (activeHandle db) hs) with (@nil nat); [reflexivity|].
  symmetry. induction hs as [|h hs IH]; [reflexivity|]. simpl.
  rewrite (Hnone h (or_introl eq_refl)).
  apply IH. intros h' Hin. apply Hnone. right. exact Hin.
Qed.

End Target.

(** ** C4: first-in-first-out depletion *)

Section Deplete.

Import TransferRoute.

Variable pid : string.



(** [find] after the assignment yields the line with its new quantity. *)
Lemma setFirst_find q its di :
  List.find (sameProduct pid) its = Some di ->
  List.find (sameProduct pid) (setFirst pid q its) = Some (withQuantity di q).
Proof.
  induction its as [|it its IH]; simpl; [discriminate|].
  destruct (sameProduct pid it) eqn:E; simpl.
  - intros [= <-]. unfold sameProduct in *. simpl. rewrite E. reflexivity.
  - rewrite E. exact IH.
Qed.









End Deplete.

Section Fifo.

Import TransferRoute.

Variable pid : string.








Lemma depleteLoop_cons h rest r db :
  depleteLoop pid (h :: rest) r db =
  if num_le r 0 then db
  else
    match db !! h with
    | Some dist =>
        match depleteDist pid r dist with
        | Some (dist', r') => depleteLoop pid rest r' (<[h := dist']> db)
        | None => depleteLoop pid rest r db
        end
    | None => depleteLoop pid rest r db
    end.
Proof. reflexivity. Qed.

Lemma depleteLoop_done hs r db : r <= 0 -> depleteLoop pid hs r db = db.
Proof.
  intros Hr. apply num_le_iff in Hr.
  destruct hs; [reflexivity|]. rewrite depleteLoop_cons, Hr. reflexivity.
Qed.


End Fifo.




(** C4, at a failing input. A transfer that names a product twice to a
    cashier without a pending or delivered lot creates a lot that lists the
    product on two lines: cashier ["c1"] gets 2 and 3 widgets from cashier
    ["c0"] in one lot. With two newer lots of 5 widgets each, ["c1"] holds
    5, 5 and 5 widgets, oldest lot first. A transfer of 4 widgets from
    ["c1"] to ["c2"] is accepted. First in, first out would take the 4 from
    the oldest lot, which holds 5. The handler takes 2 from the first line of
    that lot, removes with it the second line and its 3 widgets, cancels the
    lot, and takes the other 2 from the second lot: the lots are left with 0,
    3 and 5. The sender has lost 7 widgets and the receiver has got 4. *)
Theorem C4_second_line_removed_with_first :
  transferStock [Sample.lot "c0" delivered 0 [Sample.widgets 5]] "c0" "c1"
    [Sample.request "p1" 2; Sample.request "p1" 3] "" 1 =
    (TransferRoute.Success,
     [Sample.lot "c0" cancelled 0 []; Sample.received]) /\
  map dist_cashierId Sample.twiceListed = ["c1"; "c1"; "c1"] /\
  map dist_createdAt Sample.twiceListed = [1; 2; 3]%Z /\
  map (lotStock "p1") Sample.twiceListed = [5; 5; 5] /\
  (transferStock Sample.twiceListed "c1" "c2" [Sample.request "p1" 4] "" 9).1 =
    TransferRoute.Success /\
  map (lotStock "p1")
    (firstn 3 (transferStock Sample.twiceListed "c1" "c2"
                 [Sample.request "p1" 4] "" 9).2) = [0; 3; 5] /\
  map dist_status
    (firstn 3 (transferStock Sample.twiceListed "c1" "c2"
                 [Sample.request "p1" 4] "" 9).2) =
    [cancelled; delivered; delivered] /\
  cashierStock Sample.twiceListed "c1" "p1" == 15 /\
  cashierStock (transferStock Sample.twiceListed "c1" "c2"
                  [Sample.request "p1" 4] "" 9).2 "c1" "p1" == 15 - 7 /\
  cashierStock (transferStock Sample.twiceListed "c1" "c2"
                  [Sample.request "p1" 4] "" 9).2 "c2" "p1" == 4.
Proof. repeat split; vm_compute; reflexivity. Qed.

(** * Instances at the sample data *)

Lemma C6_refund_proportional_witness :
  exists t' amount,
    ReturnRoute.response
      (processReturn Sample.oneLot (Some Sample.sale) [Sample.line 0 1] 0) =
      ReturnRoute.Success t' amount /\
    exists news,
      tx_returnedItems t' = tx_returnedItems Sample.sale ++ news /\
      Forall2
        (fun req r =>
           exists originalItem,
             (tx_items Sample.sale !! Z.to_nat (ReturnRoute.itemIndex req) =
                Some originalItem) /\
             ri_quantity r = ReturnRoute.quantity req /\
             ri_returnAmount r =
               (ti_total originalItem / ti_quantity originalItem) *
               ReturnRoute.quantity req)
        [Sample.line 0 1] news /\
      amount == sumReturnAmounts news.
Proof.
  do 2 eexists. split; [vm_compute; reflexivity|].
  apply (proj1 C6_refund_proportional Sample.oneLot Sample.sale
           [Sample.line 0 1] 0%Z).
  vm_compute. reflexivity.
Defined.

Lemma C7_rejects_bad_index_and_quantity_below_one_witness :
  exists e,
    ReturnRoute.response
      (processReturn Sample.oneLot (Some Sample.sale)
         [Sample.line 0 1; Sample.line 0 0] 0) = ReturnRoute.Failure e /\
    ReturnRoute.stored
      (processReturn Sample.oneLot (Some Sample.sale)
         [Sample.line 0 1; Sample.line 0 0] 0) = Some Sample.sale.
Proof.
  apply (C7_rejects_bad_index_and_quantity_below_one Sample.oneLot
           Sample.sale [Sample.line 0 1; Sample.line 0 0] 0%Z
           (Sample.line 0 0)).
  - right. left. reflexivity.
  - right. right. reflexivity.
Defined.


Lemma C9_totals_after_return_witness :
  exists t' amount,
    ReturnRoute.response
      (processReturn Sample.oneLot (Some Sample.sale) [Sample.line 0 1] 0) =
      ReturnRoute.Success t' amount /\
    0 <= tx_totalAmount t' /\
    tx_totalAmount t' <= tx_subtotal t'.
Proof.
  do 2 eexists. split; [vm_compute; reflexivity|].
  edestruct (C9_totals_after_return Sample.oneLot Sample.sale
               [Sample.line 0 1] 0%Z) as (_ & _ & _ & H0 & Hle & _).
  - vm_compute. reflexivity.
  - vm_compute. intros H. discriminate H.
  - vm_compute. reflexivity.
  - split; [exact H0|exact Hle].
Defined.

(** * Further properties of the return handler *)

Section ReturnRequests.

Import ReturnRoute.

(** A failing line fails whatever the loop has done before it: the checks
    read the loaded transaction only. *)
Lemma processLine_fails t now st req :
  lineFails t req -> exists e, processLine t now st req = inl e.
Proof.
  unfold processLine. intros [Hneg|[Hhigh|(o & Ho & Hq)]].
  - replace (itemIndex req <? 0)%Z with true by (symmetry; apply Z.ltb_lt, Hneg).
    simpl. eauto.
  - replace (itemIndex req >=? Z.of_nat (length (tx_items t)))%Z with true
      by (symmetry; apply Z.geb_le, Hhigh).
    rewrite orb_true_r. eauto.
  - destruct (_ || _); [eauto|]. rewrite Ho.
    replace (num_gt (quantity req) _) with true
      by (symmetry; apply num_lt_iff, Hq).
    eauto.
Qed.

Lemma processLines_fails t now reqs req :
  In req reqs -> lineFails t req ->
  forall st, exists e db1, processLines t now st reqs = inl (e, db1).
Proof.
  intros Hin Hfail. induction reqs as [|r reqs IH]; [destruct Hin|].
  intros st. simpl.
  destruct (processLine t now st r) as [e|st'] eqn:E; [eauto|].
  destruct Hin as [->|Hin]; [|exact (IH Hin st')].
  destruct (processLine_fails t now st req Hfail) as (e & He). congruence.
Qed.

(** The loop only ends early with one of the errors of lines 47-72. *)
Lemma processLine_error_400 t now st req e :
  processLine t now st req = inl e -> httpStatus e = 400%Z.
Proof.
  unfold processLine. destruct (_ || _) eqn:Hidx; [intros [= <-]; reflexivity|].
  apply orb_false_iff in Hidx as [Hlo Hhi].
  apply Z.ltb_ge in Hlo. rewrite Z.geb_leb in Hhi. apply Z.leb_gt in Hhi.
  destruct (lookup_lt_is_Some_2 (tx_items t) (Z.to_nat (itemIndex req)))
    as (o & ->); [lia|].
  destruct (num_gt _ _); [intros [= <-]; reflexivity|discriminate].
Qed.

Lemma processLines_error_400 t now reqs : forall st e db1,
  processLines t now st reqs = inl (e, db1) -> httpStatus e = 400%Z.
Proof.
  induction reqs as [|r reqs IH]; intros st e db1; simpl; [discriminate|].
  destruct (processLine t now st r) as [e'|st'] eqn:E'.
  - intros [= <- _]. exact (processLine_error_400 _ _ _ _ _ E').
  - apply IH.
Qed.

End ReturnRequests.

(** X1. A request that the handler rejects, for whatever reason, leaves the
    stored transaction as it was found. *)
Theorem X1_rejected_return_keeps_transaction
  (db : list Distribution) (found : option ITransaction)
  (reqs : list ReturnRoute.ReturnRequest) (now : Z)
  (e : ReturnRoute.ReturnError) :
  ReturnRoute.response (processReturn db found reqs now) =
    ReturnRoute.Failure e ->
  ReturnRoute.stored (processReturn db found reqs now) = found.
Proof. apply POST_failure_keeps_transaction. Qed.

(** X2. A request with a line, at any place, whose index is out of range or
    which asks for more than is left to return of its item, counting the
    returned items of the stored transaction, is rejected with status 400,
    and the stored transaction is as it was. *)
Theorem X2_failing_line_rejects_request
  (db : list Distribution) (t : ITransaction)
  (reqs : list ReturnRoute.ReturnRequest) (now : Z)
  (req : ReturnRoute.ReturnRequest) :
  In req reqs -> lineFails t req ->
  exists e,
    ReturnRoute.response (processReturn db (Some t) reqs now) =
      ReturnRoute.Failure e /\
    ReturnRoute.httpStatus e = 400%Z /\
    ReturnRoute.stored (processReturn db (Some t) reqs now) = Some t.
Proof.
  intros Hin Hfail. unfold processReturn, ReturnRoute.POST.
  destruct reqs as [|r0 reqs0] eqn:Hreqs; [destruct Hin|].
  rewrite <- Hreqs in *. clear Hreqs r0 reqs0.
  destruct (processLines_fails t now reqs req Hin Hfail
              (ReturnRoute.mkLoopState 0 [] db)) as (e & db1 & E).
  rewrite E. exists e. repeat split.
  exact (processLines_error_400 _ _ _ _ _ _ E).
Qed.

(** X3. When the first line of a request fails the checks, nothing at all
    has changed when the handler answers: the lots and the stored transaction
    are those the request found. (A request of one line is the common
    case.) *)
Theorem X3_first_line_failure_changes_nothing
  (db : list Distribution) (t : ITransaction)
  (req : ReturnRoute.ReturnRequest) (rest : list ReturnRoute.ReturnRequest)
  (now : Z) :
  lineFails t req ->
  exists e,
    processReturn db (Some t) (req :: rest) now =
    ReturnRoute.mkOutcome (ReturnRoute.Failure e) db (Some t).
Proof.
  intros Hfail.
  destruct (processLine_fails t now (ReturnRoute.mkLoopState 0 [] db) req Hfail)
    as (e & He).
  exists e. apply POST_first_line_rejected, He.
Qed.

Section ReturnAccepted.

Import ReturnRoute.







Lemma POST_success_valid db0 found reqs now t' amount :
  response (POST db0 found reqs now) = Success t' amount ->
  TransactionSchema t' = true.
Proof.
  unfold POST. destruct reqs as [|req reqs]; [discriminate|].
  destruct found as [t|]; [|discriminate].
  destruct (processLines _ _ _ _) as [[e db1]|st]; [discriminate|].
  destruct (TransactionSchema _) eqn:V; [|discriminate].
  simpl. intros [= <- _]. exact V.
Qed.

Lemma sumReturnAmounts_nonneg rs :
  forallb ReturnedItemSchema rs = true -> 0 <= sumReturnAmounts rs.
Proof.
  induction rs as [|r rs IH]; simpl; [lra|].
  intros H. apply andb_prop in H as [Hr Hrs]. specialize (IH Hrs).
  unfold ReturnedItemSchema, min_ok in Hr.
  repeat (apply andb_prop in Hr as [Hr ?]).
  assert (0 <= ri_returnAmount r) by (apply num_le_iff; assumption).
  lra.
Qed.

End ReturnAccepted.


(** X5. After an accepted request of one line, the returned quantity of the
    item is what it was plus the quantity of the line, and it does not
    exceed the quantity sold. *)
Theorem X5_one_line_return_within_quantity_sold
  (db : list Distribution) (t : ITransaction)
  (req : ReturnRoute.ReturnRequest) (now : Z)
  (t' : ITransaction) (amount : Q) (originalItem : ITransactionItem) :
  ReturnRoute.response (processReturn db (Some t) [req] now) =
    ReturnRoute.Success t' amount ->
  tx_items t !! Z.to_nat (ReturnRoute.itemIndex req) = Some originalItem ->
  ReturnRoute.alreadyReturned t' originalItem ==
    ReturnRoute.alreadyReturned t originalItem + ReturnRoute.quantity req /\
  ReturnRoute.alreadyReturned t' originalItem <= ti_quantity originalItem.
Proof. apply one_line_return_bound. Qed.

(** X6. An accepted return refunds a non-negative amount and never raises
    the subtotal or the total of a transaction whose subtotal and total were
    not negative; both stay non-negative. *)
Theorem X6_return_never_raises_totals
  (db : list Distribution) (t : ITransaction)
  (reqs : list ReturnRoute.ReturnRequest) (now : Z)
  (t' : ITransaction) (amount : Q) :
  0 <= tx_subtotal t -> 0 <= tx_totalAmount t ->
  ReturnRoute.response (processReturn db (Some t) reqs now) =
    ReturnRoute.Success t' amount ->
  0 <= amount /\
  0 <= tx_subtotal t' /\ tx_subtotal t' <= tx_subtotal t /\
  0 <= tx_totalAmount t' /\ tx_totalAmount t' <= tx_totalAmount t.
Proof.
  intros Hs Ha H.
  pose proof (POST_success_valid _ _ _ _ _ _ H) as V.
  apply POST_success in H as (t0 & st & [= <-] & Hlines & -> & ->).
  apply processLines_inr in Hlines as (news & _ & Hnew & Hsum).
  simpl in Hnew, Hsum.
  assert (Hamount : 0 <= ReturnRoute.totalReturnAmount st).
  { rewrite Hsum, Qplus_0_l. apply sumReturnAmounts_nonneg.
    unfold TransactionSchema in V.
    repeat (apply andb_prop in V as [V ?]).
    match goal with
    | Hall : forallb ReturnedItemSchema _ = true |- _ =>
        rewrite (proj1 (proj2 (updateTransaction_fields t st))),
          forallb_app, Hnew in Hall;
        apply andb_prop in Hall as [_ Hall]; exact Hall
    end. }
  destruct (updateTransaction_fields t st) as (_ & _ & -> & -> & _).
  split; [exact Hamount|]. minmax.
Qed.

(** ** Which lots a return can touch *)

Section ReturnFrame.

Import ReturnRoute.

Lemma addBackLoop_other pid q hs : forall r db h,
  ~ In h hs -> (addBackLoop pid q hs r db).2 !! h = db !! h.
Proof.
  induction hs as [|h0 hs IH]; intros r db h Hnot; [reflexivity|].
  assert (Hne : h0 <> h) by (intros ->; apply Hnot; left; reflexivity).
  assert (Hrest : ~ In h hs) by (intros Hin; apply Hnot; right; exact Hin).
  rewrite addBackLoop_cons. destruct (num_le r 0); [reflexivity|].
  destruct (db !! h0) as [d0|]; [|apply IH, Hrest].
  destruct (nonEmpty (dist_items d0)); [|apply IH, Hrest].
  destruct (addBackItems pid q (dist_items d0) r) as [[its' r'] touched].
  destruct touched; [|apply IH, Hrest].
  rewrite IH by exact Hrest. apply list_lookup_insert_ne, Hne.
Qed.

Lemma addBackLoop_length pid q hs : forall r db,
  length (addBackLoop pid q hs r db).2 = length db.
Proof.
  induction hs as [|h0 hs IH]; intros r db; [reflexivity|].
  rewrite addBackLoop_cons. destruct (num_le r 0); [reflexivity|].
  destruct (db !! h0) as [d0|]; [|apply IH].
  destruct (nonEmpty (dist_items d0)); [|apply IH].
  destruct (addBackItems pid q (dist_items d0) r) as [[its' r'] touched].
  destruct touched; [|apply IH].
  rewrite IH. apply length_insert.
Qed.

Lemma targetDistribution_In db hs h :
  targetDistribution db hs = Some h -> In h hs.
Proof.
  unfold targetDistribution, sortNewestFirst.
  destruct (sortBy _ (List.filter (activeHandle db) hs)) as [|h' t] eqn:Hs.
  - destruct hs; simpl; [discriminate|]. intros [= ->]. left. reflexivity.
  - intros [= <-].
    assert (Hin : In h' (List.filter (activeHandle db) hs)).
    { eapply sortBy_In. rewrite Hs. left. reflexivity. }
    apply filter_In in Hin as [Hin _]. exact Hin.
Qed.

Lemma targetDistribution_some db hs :
  hs <> [] -> exists h, targetDistribution db hs = Some h.
Proof.
  unfold targetDistribution. intros Hne.
  destruct (sortNewestFirst db _); [|eauto].
  destruct hs; [congruence|simpl; eauto].
Qed.

Lemma addRemaining_other originalItem hs r db h :
  ~ In h hs -> addRemaining originalItem hs r db !! h = db !! h.
Proof.
  intros Hnot. unfold addRemaining. destruct (num_gt r 0); [|reflexivity].
  destruct (targetDistribution db hs) as [h'|] eqn:Ht; [|reflexivity].
  apply targetDistribution_In in Ht.
  destruct (db !! h'); [|reflexivity].
  apply list_lookup_insert_ne. intros ->. contradiction.
Qed.

Lemma addRemaining_length originalItem hs r db :
  length (addRemaining originalItem hs r db) = length db.
Proof.
  unfold addRemaining. destruct (num_gt r 0); [|reflexivity].
  destruct (targetDistribution db hs); [|reflexivity].
  destruct (db !! _); [apply length_insert|reflexivity].
Qed.

Lemma reinstate_unfold cashierId originalItem q db :
  reinstate cashierId originalItem q db =
  addRemaining originalItem (distributionsOf cashierId db)
    (addBackLoop (ti_productId originalItem) q
       (distributionsOf cashierId db) q db).1
    (addBackLoop (ti_productId originalItem) q
       (distributionsOf cashierId db) q db).2.
Proof.
  unfold reinstate. destruct (addBackLoop _ _ _ _ _). reflexivity.
Qed.

(** The lots of other cashiers are out of reach. *)
Lemma reinstate_other cashierId originalItem q db h d :
  db !! h = Some d -> dist_cashierId d <> cashierId ->
  reinstate cashierId originalItem q db !! h = Some d.
Proof.
  intros Hd Hne.
  assert (Hnot : ~ In h (distributionsOf cashierId db)).
  { intros Hin. apply distributionsOf_valid in Hin as (d' & Hd' & Hc).
    congruence. }
  rewrite reinstate_unfold.
  set (hs := distributionsOf cashierId db) in *. clearbody hs.
  destruct (le_lt_dec (length db) h) as [Hout|Hin].
  - apply lookup_ge_None_2 in Hout. congruence.
  - rewrite addRemaining_other by exact Hnot.
    rewrite addBackLoop_other by exact Hnot. exact Hd.
Qed.

Lemma reinstate_length cashierId originalItem q db :
  length (reinstate cashierId originalItem q db) = length db.
Proof.
  rewrite reinstate_unfold, addRemaining_length. apply addBackLoop_length.
Qed.

(** What every reinstatement keeps, the whole request keeps, accepted or
    not. *)
Lemma POST_preserves (P : list Distribution -> Prop) db0 t reqs now :
  (forall originalItem q db,
     P db -> P (reinstate (tx_cashierId t) originalItem q db)) ->
  P db0 -> P (dists (POST db0 (Some t) reqs now)).
Proof.
  intros Hstep H0.
  assert (Hloop : forall reqs st,
            P (db st) ->
            match processLines t now st reqs with
            | inl (_, db1) => P db1
            | inr st' => P (db st')
            end).
  { clear reqs. induction reqs as [|req reqs IH]; intros st Hst; simpl;
      [exact Hst|].
    destruct (processLine t now st req) as [e|st1] eqn:E; [exact Hst|].
    apply IH. unfold processLine in E.
    destruct (_ || _); [discriminate|].
    destruct (tx_items t !! _); [|discriminate].
    destruct (num_gt _ _); [discriminate|].
    injection E as <-. simpl. apply Hstep, Hst. }
  unfold POST. destruct reqs as [|r0 reqs0] eqn:Hreqs; [exact H0|].
  rewrite <- Hreqs. clear Hreqs.
  specialize (Hloop reqs (mkLoopState 0 [] db0) H0).
  destruct (processLines _ _ _ _) as [[e db1]|st]; [exact Hloop|].
  destruct (TransactionSchema _); exact Hloop.
Qed.

Lemma status_in_any d : status_in [pending; delivered; cancelled] d = true.
Proof. unfold status_in. destruct (dist_status d); reflexivity. Qed.

Lemma find_nil P (db : list Distribution) :
  (forall d, In d db -> P d = false) -> find P db = [].
Proof.
  unfold find. generalize 0%nat.
  induction db as [|d db IH]; intros n Hall; simpl; [reflexivity|].
  rewrite (Hall d (or_introl eq_refl)).
  apply IH. intros d' Hin. apply Hall. right. exact Hin.
Qed.

Lemma find_nonempty P (db : list Distribution) h d :
  db !! h = Some d -> P d = true -> find P db <> [].
Proof.
  intros Hd HP Hnil.
  pose proof (find_lookup P db) as Hmap. rewrite Hnil in Hmap. simpl in Hmap.
  assert (Hin : In d (List.filter P db)).
  { apply filter_In. split; [|exact HP].
    apply list_elem_of_In, list_elem_of_lookup. eauto. }
  destruct (List.filter P db); [destruct Hin|discriminate].
Qed.

Lemma distributionsOf_nonempty cashierId db h d :
  db !! h = Some d -> dist_cashierId d = cashierId ->
  distributionsOf cashierId db <> [].
Proof.
  intros Hd Hc Hnil. unfold distributionsOf, sortNewestFirst in Hnil.
  apply (find_nonempty
           (fun d => String.eqb (dist_cashierId d) cashierId &&
                     status_in [pending; delivered; cancelled] d) db h d Hd).
  - apply andb_true_intro. split; [apply String.eqb_eq, Hc|apply status_in_any].
  - apply Permutation_nil. rewrite <- Hnil. symmetry.
    apply sortBy_Permutation.
Qed.

(** The first element that passes a test, if any. *)
Lemma split_first (f : nat -> bool) (l : list nat) :
  (forall x, In x l -> f x = false) \/
  exists pre h post,
    l = pre ++ h :: post /\ f h = true /\ forall x, In x pre -> f x = false.
Proof.
  induction l as [|a l IH]; [left; intros x []|].
  destruct (f a) eqn:Ha.
  - right. exists [], a, l. repeat split; [exact Ha|intros x []].
  - destruct IH as [Hnone|(pre & h & post & -> & Hh & Hpre)].
    + left. intros x [<-|Hin]; auto.
    + right. exists (a :: pre), h, post. repeat split; [exact Hh|].
      intros x [<-|Hin]; auto.
Qed.

End ReturnFrame.

(** X7. A return, accepted or rejected, leaves the lots of every other
    cashier as they were, and neither creates nor deletes a lot. *)
Theorem X7_return_leaves_other_cashiers_lots
  (db : list Distribution) (t : ITransaction)
  (reqs : list ReturnRoute.ReturnRequest) (now : Z)
  (h : nat) (d : Distribution) :
  db !! h = Some d ->
  dist_cashierId d <> tx_cashierId t ->
  ReturnRoute.dists (processReturn db (Some t) reqs now) !! h = Some d /\
  length (ReturnRoute.dists (processReturn db (Some t) reqs now)) = length db.
Proof.
  intros Hd Hne. unfold processReturn.
  apply (POST_preserves
           (fun db' => db' !! h = Some d /\ length db' = length db)).
  - intros originalItem q db' [Hd' Hlen]. split.
    + apply reinstate_other; assumption.
    + rewrite reinstate_length. exact Hlen.
  - split; [exact Hd|reflexivity].
Qed.

(** X8. When no lot in the collection belongs to the cashier of the
    transaction, a return puts the stock nowhere: the collection is left as
    it was, and no lot is created for the cashier. *)
Theorem X8_return_without_lots_drops_stock
  (db : list Distribution) (t : ITransaction)
  (reqs : list ReturnRoute.ReturnRequest) (now : Z) :
  (forall d, In d db -> dist_cashierId d <> tx_cashierId t) ->
  ReturnRoute.dists (processReturn db (Some t) reqs now) = db.
Proof.
  intros Hnone.
  assert (Hnil : ReturnRoute.distributionsOf (tx_cashierId t) db = []).
  { unfold ReturnRoute.distributionsOf. rewrite find_nil; [reflexivity|].
    intros d Hin. apply andb_false_iff. left.
    apply String.eqb_neq, Hnone, Hin. }
  unfold processReturn. apply (POST_preserves (fun db' => db' = db));
    [|reflexivity].
  intros originalItem q db' ->.
  unfold ReturnRoute.reinstate. rewrite Hnil. simpl.
  unfold ReturnRoute.addRemaining. destruct (num_gt q 0); reflexivity.
Qed.

Lemma reinstate_one_lot
  (db : list Distribution) (cashierId : string)
  (originalItem : ITransactionItem) (q : Q) (h0 : nat) (d0 : Distribution) :
  0 < q ->
  db !! h0 = Some d0 -> dist_cashierId d0 = cashierId ->
  exists h d,
    db !! h = Some d /\ dist_cashierId d = cashierId /\
    putInto db (ReturnRoute.reinstate cashierId originalItem q db) h
      (ti_productId originalItem) q.
Proof.
  intros Hq Hd0 Hc0.
  pose proof (distributionsOf_nonempty cashierId db h0 d0 Hd0 Hc0) as Hne.
  destruct (split_first (holdsLine db (ti_productId originalItem))
              (ReturnRoute.distributionsOf cashierId db))
    as [Hnone|(pre & h & post & Hhs & Hh & Hpre)].
  - destruct (targetDistribution_some db _ Hne) as (h & Ht).
    pose proof (targetDistribution_In _ _ _ Ht) as Hin.
    destruct (distributionsOf_valid _ _ _ Hin) as (d & Hd & Hc).
    exists h, d. repeat split; try assumption.
    apply (reinstate_falls_back cashierId originalItem q db h d); assumption.
  - assert (Hin : In h (ReturnRoute.distributionsOf cashierId db))
      by (rewrite Hhs; apply in_or_app; right; left; reflexivity).
    destruct (distributionsOf_valid _ _ _ Hin) as (d & Hd & Hc).
    exists h, d. repeat split; try assumption.
    apply (reinstate_merges cashierId originalItem q db pre h post);
      assumption.
Qed.

(** * C5: where returned stock goes, line by line *)

Section ReinstateLines.

Import ReturnRoute.

Lemma itemsValue_linesValue its : itemsValue its == linesValue its.
Proof.
  unfold itemsValue, linesValue.
  rewrite (fold_left_sum (fun di => di_quantity di * di_price di)). lra.
Qed.

Lemma existsb_listsProduct pid d :
  existsb (sameProduct pid) (dist_items d) = true <-> listsProduct pid d.
Proof.
  unfold listsProduct, sameProduct. rewrite existsb_exists.
  split; intros (line & Hin & Hl); exists line; (split; [exact Hin|]);
    apply String.eqb_eq; exact Hl.
Qed.

Lemma holdsLine_listsProduct db pid h d :
  db !! h = Some d -> holdsLine db pid h = true <-> listsProduct pid d.
Proof.
  intros Hd. unfold holdsLine. rewrite Hd. apply existsb_listsProduct.
Qed.

(** The first line for the product takes the whole quantity. *)
Lemma addBackItems_line pid q its :
  0 < q ->
  existsb (sameProduct pid) its = true ->
  exists its' r,
    addBackItems pid q its q = (its', r, true) /\ r <= 0 /\
    mergedInto pid q its its'.
Proof.
  intros Hq. induction its as [|it its IH]; simpl; [discriminate|].
  intros H. destruct (sameProduct pid it) eqn:Hit.
  - assert (Hmin : Qmin q q == q) by (apply Q.min_l; lra).
    assert (Hle : num_le (q - Qmin q q) 0 = true)
      by (apply num_le_iff; lra).
    rewrite Hle. do 2 eexists. split; [reflexivity|]. split; [lra|].
    apply String.eqb_eq in Hit.
    exists [], it, (addBack (Qmin q q) it), its. simpl.
    repeat split; try assumption; try reflexivity.
    + intros di [].
    + rewrite Hmin. reflexivity.
    + rewrite Hmin. reflexivity.
  - simpl in H.
    destruct (IH H) as (its' & r & -> & Hr & pre & line & line' & post & Hm).
    destruct Hm as (-> & Hpre & Hrest).
    exists (it :: its'), r. split; [reflexivity|]. split; [exact Hr|].
    exists (it :: pre), line, line', post.
    split; [reflexivity|]. split.
    + intros di [<-|Hin]; [|apply Hpre, Hin].
      apply String.eqb_neq. exact Hit.
    + destruct Hrest as (? & -> & ?). split; [assumption|].
      split; [reflexivity|assumption].
Qed.

Lemma reinstate_merges_line cashierId originalItem q db pre h post :
  0 < q ->
  distributionsOf cashierId db = pre ++ h :: post ->
  (forall h', In h' pre ->
     holdsLine db (ti_productId originalItem) h' = false) ->
  holdsLine db (ti_productId originalItem) h = true ->
  exists d its',
    db !! h = Some d /\
    reinstate cashierId originalItem q db = <[h := withItems d its']> db /\
    mergedInto (ti_productId originalItem) q (dist_items d) its'.
Proof.
  intros Hq Hhs Hpre Hh. unfold reinstate. rewrite Hhs.
  rewrite (addBackLoop_skip _ _ _ _ _ _ Hq Hpre).
  assert (Hq' := proj2 (num_le_false_iff _ _) Hq).
  rewrite addBackLoop_cons, Hq'. unfold holdsLine in Hh.
  destruct (db !! h) as [d|] eqn:Hd; [|discriminate].
  destruct (addBackItems_line _ _ _ Hq Hh) as (its' & r & Hits & Hr & Hm).
  assert (Hgt : num_gt r 0 = false) by (apply num_lt_false_iff; exact Hr).
  exists d, its'. split; [reflexivity|]. split; [|exact Hm].
  rewrite Hits.
  destruct (dist_items d); [discriminate|]. simpl.
  rewrite (addBackLoop_done _ _ _ _ _ Hr). unfold addRemaining.
  rewrite Hgt. reflexivity.
Qed.

Lemma reinstate_falls_back_line cashierId originalItem q db h d :
  0 < q ->
  (forall h', In h' (distributionsOf cashierId db) ->
     holdsLine db (ti_productId originalItem) h' = false) ->
  targetDistribution db (distributionsOf cashierId db) = Some h ->
  In h (distributionsOf cashierId db) ->
  db !! h = Some d ->
  reinstate cashierId originalItem q db =
  <[h := withItems d (dist_items d ++ [newDistItem originalItem q])]> db.
Proof.
  intros Hq Hnone Htarget Hin Hd. unfold reinstate.
  rewrite <- (app_nil_r (distributionsOf cashierId db)) at 1.
  rewrite (addBackLoop_skip _ _ _ _ _ _ Hq Hnone). simpl.
  unfold addRemaining.
  assert (Hgt : num_gt q 0 = true) by (apply num_lt_iff; exact Hq).
  rewrite Hgt, Htarget, Hd.
  assert (Hh := Hnone h Hin). unfold holdsLine in Hh. rewrite Hd in Hh.
  rewrite (addToExisting_none _ _ _ Hh). reflexivity.
Qed.

Lemma relined_withItems db h d its :
  db !! h = Some d ->
  relined db (<[h := withItems d its]> db) h d (withItems d its).
Proof.
  intros Hd. unfold relined. simpl.
  repeat split; try assumption. apply itemsValue_linesValue.
Qed.

Lemma appendedTo_new originalItem q its :
  appendedTo originalItem q its (its ++ [newDistItem originalItem q]).
Proof.
  exists (newDistItem originalItem q). simpl. repeat split; reflexivity.
Qed.

Lemma findFrom_complete P n (l : list Distribution) h d :
  l !! h = Some d -> P d = true -> In (n + h)%nat (findFrom P n l).
Proof.
  revert n h. induction l as [|x l IH]; intros n [|h] Hd HP;
    try discriminate; simpl in *.
  - injection Hd as ->. rewrite HP, Nat.add_0_r. left. reflexivity.
  - replace (n + S h)%nat with (S n + h)%nat by lia.
    destruct (P x); [right|]; apply IH; assumption.
Qed.

Lemma find_complete P (db : list Distribution) h d :
  db !! h = Some d -> P d = true -> In h (find P db).
Proof. intros Hd HP. exact (findFrom_complete P 0 db h d Hd HP). Qed.

Lemma distributionsOf_complete cashierId db h d :
  lotOf db cashierId h d -> In h (distributionsOf cashierId db).
Proof.
  intros [Hd Hc]. unfold distributionsOf, sortNewestFirst.
  apply sortBy_In. apply (find_complete _ db h d Hd).
  rewrite status_in_any, andb_true_r. apply String.eqb_eq, Hc.
Qed.

(** One accepted line: its item, its quantity, and where the lots come
    from. *)
Lemma one_line_success db t req now t' amount :
  response (POST db (Some t) [req] now) = Success t' amount ->
  exists originalItem,
    tx_items t !! Z.to_nat (itemIndex req) = Some originalItem /\
    1 <= quantity req /\
    dists (POST db (Some t) [req] now) =
      reinstate (tx_cashierId t) originalItem (quantity req) db.
Proof.
  unfold POST. simpl. unfold processLine.
  destruct (_ || _); [discriminate|].
  destruct (tx_items t !! _) as [originalItem|]; [|discriminate].
  destruct (num_gt _ _); [discriminate|].
  destruct (TransactionSchema _) eqn:V; [|discriminate].
  intros _. exists originalItem. split; [reflexivity|]. split; [|reflexivity].
  apply (TransactionSchema_returned _ (newReturnedItem originalItem req now) V).
  rewrite (proj1 (proj2 (updateTransaction_fields t _))). simpl.
  apply in_or_app. right. left. reflexivity.
Qed.

Lemma isActive_status d :
  isActive d = false <-> dist_status d = cancelled.
Proof.
  unfold isActive, status_in. destruct (dist_status d); simpl;
    split; congruence.
Qed.

Lemma listed_not_cancelled db pid h d :
  cancelledEmpty db -> db !! h = Some d -> listsProduct pid d ->
  isActive d = true.
Proof.
  intros Hce Hd (line & Hin & _).
  destruct (isActive d) eqn:Hact; [reflexivity|].
  apply isActive_status in Hact.
  rewrite (Hce d) in Hin; [destruct Hin| |exact Hact].
  apply list_elem_of_In, list_elem_of_lookup. eauto.
Qed.

Lemma promote_active d :
  isActive d = true -> promote (dist_status d) = dist_status d.
Proof.
  unfold isActive, status_in. destruct (dist_status d); simpl;
    [reflexivity..|discriminate].
Qed.

Lemma createdAtOf_lookup db h d :
  db !! h = Some d -> createdAtOf db h = dist_createdAt d.
Proof. intros Hd. unfold createdAtOf. rewrite Hd. reflexivity. Qed.

End ReinstateLines.

Section CancelledLots.

Lemma cancelledEmpty_lookup db :
  cancelledEmpty db <->
  forall h d, db !! h = Some d -> dist_status d = cancelled ->
              dist_items d = [].
Proof.
  unfold cancelledEmpty. split.
  - intros H h d Hd. apply H.
    apply list_elem_of_In, list_elem_of_lookup. eauto.
  - intros H d Hin. apply list_elem_of_In, list_elem_of_lookup in Hin as [h Hd].
    eauto.
Qed.

Lemma cancelledEmpty_insert db h d' :
  cancelledEmpty db ->
  (dist_status d' = cancelled -> dist_items d' = []) ->
  cancelledEmpty (<[h := d']> db).
Proof.
  rewrite !cancelledEmpty_lookup. intros Hdb Hd' i d Hd.
  destruct (decide (h = i)) as [->|Hne].
  - destruct (decide (i < length db)%nat) as [Hlt|Hge].
    + rewrite list_lookup_insert_eq in Hd by exact Hlt.
      injection Hd as <-. exact Hd'.
    + rewrite list_insert_ge in Hd by lia. eauto.
  - rewrite list_lookup_insert_ne in Hd by exact Hne. eauto.
Qed.

Lemma cancelledEmpty_app db d' :
  cancelledEmpty db ->
  (dist_status d' = cancelled -> dist_items d' = []) ->
  cancelledEmpty (db ++ [d']).
Proof.
  unfold cancelledEmpty. intros Hdb Hd' d Hin.
  apply in_app_or in Hin as [Hin|[<-|[]]]; auto.
Qed.

Lemma promote_not_cancelled s : ReturnRoute.promote s <> cancelled.
Proof. destruct s; discriminate. Qed.

Lemma addBackLoop_cancelledEmpty pid q hs : forall r db,
  cancelledEmpty db ->
  cancelledEmpty (ReturnRoute.addBackLoop pid q hs r db).2.
Proof.
  induction hs as [|h hs IH]; intros r db Hdb; [exact Hdb|].
  rewrite addBackLoop_cons.
  destruct (num_le r 0); [exact Hdb|].
  destruct (db !! h) as [d|]; [|apply IH, Hdb].
  destruct (ReturnRoute.nonEmpty (dist_items d)); [|apply IH, Hdb].
  destruct (ReturnRoute.addBackItems pid q (dist_items d) r)
    as [[its' r'] touched].
  destruct touched; [|apply IH, Hdb].
  apply IH, cancelledEmpty_insert; [exact Hdb|].
  simpl. intros Hc. destruct (promote_not_cancelled _ Hc).
Qed.

Lemma reinstate_cancelledEmpty cashierId originalItem q db :
  cancelledEmpty db ->
  cancelledEmpty (ReturnRoute.reinstate cashierId originalItem q db).
Proof.
  intros Hdb. unfold ReturnRoute.reinstate.
  pose proof (addBackLoop_cancelledEmpty (ti_productId originalItem) q
                (ReturnRoute.distributionsOf cashierId db) q db Hdb) as H.
  destruct (ReturnRoute.addBackLoop _ _ _ _ _) as [r db1]. simpl in H.
  unfold ReturnRoute.addRemaining.
  destruct (num_gt r 0); [|exact H].
  destruct (ReturnRoute.targetDistribution _ _) as [h|]; [|exact H].
  destruct (db1 !! h) as [d|]; [|exact H].
  apply cancelledEmpty_insert; [exact H|].
  simpl. intros Hc. destruct (promote_not_cancelled _ Hc).
Qed.

Lemma depleteDist_cancelledEmpty pid r d d' r' :
  (dist_status d = cancelled -> dist_items d = []) ->
  TransferRoute.depleteDist pid r d = Some (d', r') ->
  dist_status d' = cancelled -> dist_items d' = [].
Proof.
  intros Hd. unfold TransferRoute.depleteDist.
  destruct (List.find _ (dist_items d)) as [di|] eqn:Hfind; [|discriminate].
  destruct (num_gt _ _); [|discriminate].
  intros [= <- _]. simpl.
  match goal with
  | |- match ?its with [] => _ | _ :: _ => _ end = _ -> _ =>
      destruct its as [|x its2]; [reflexivity|]
  end.
  intros Hc. rewrite (Hd Hc) in Hfind. discriminate Hfind.
Qed.

Lemma depleteLoop_cancelledEmpty pid hs : forall r db,
  cancelledEmpty db ->
  cancelledEmpty (TransferRoute.depleteLoop pid hs r db).
Proof.
  induction hs as [|h hs IH]; intros r db Hdb; [exact Hdb|].
  rewrite depleteLoop_cons.
  destruct (num_le r 0); [exact Hdb|].
  destruct (db !! h) as [d|] eqn:Hd; [|apply IH, Hdb].
  destruct (TransferRoute.depleteDist pid r d) as [[d' r']|] eqn:E;
    [|apply IH, Hdb].
  apply IH, cancelledEmpty_insert; [exact Hdb|].
  apply (depleteDist_cancelledEmpty pid r d d' r'); [|exact E].
  apply (proj1 (cancelledEmpty_lookup db) Hdb h d Hd).
Qed.

Lemma receive_cancelledEmpty sender receiver items notes now db :
  cancelledEmpty db ->
  cancelledEmpty (TransferRoute.receive sender receiver items notes now db).
Proof.
  intros Hdb. unfold TransferRoute.receive.
  destruct (find _ db) as [|h rest] eqn:Hfind.
  - apply cancelledEmpty_app; [exact Hdb|]. discriminate.
  - assert (Hin : In h (find (fun d => String.eqb (dist_cashierId d) receiver
                                        && isActive d) db))
      by (rewrite Hfind; left; reflexivity).
    apply find_valid in Hin as (d & Hd & HP). rewrite Hd.
    apply andb_prop in HP as [_ Hact].
    apply cancelledEmpty_insert; [exact Hdb|]. simpl. intros Hc.
    apply isActive_status in Hc. congruence.
Qed.

End CancelledLots.

Section ReturnedLine.

Import ReturnRoute.

(** The loop up to a line and past it. *)
Lemma processLines_line t now : forall reqs st st' k req,
  processLines t now st reqs = inr st' -> reqs !! k = Some req ->
  exists st1 st2 originalItem,
    processLines t now st (take k reqs) = inr st1 /\
    processLines t now st (take (S k) reqs) = inr st2 /\
    tx_items t !! Z.to_nat (itemIndex req) = Some originalItem /\
    db st2 = reinstate (tx_cashierId t) originalItem (quantity req) (db st1).
Proof.
  induction reqs as [|r reqs IH]; intros st st' k req H Hk; [discriminate|].
  simpl in H.
  destruct (processLine t now st r) as [e|stn] eqn:E; [discriminate|].
  destruct k as [|k]; simpl in Hk.
  - injection Hk as ->. exists st, stn. simpl. rewrite E.
    unfold processLine in E.
    destruct (_ || _); [discriminate|].
    destruct (tx_items t !! _) as [originalItem|]; [|discriminate].
    destruct (num_gt _ _); [discriminate|].
    injection E as <-. exists originalItem. repeat split.
  - destruct (IH stn st' k req H Hk) as (st1 & st2 & o & H1 & H2 & Ho & Hdb).
    exists st1, st2, o.
    change (take (S k) (r :: reqs)) with (r :: take k reqs).
    change (take (S (S k)) (r :: reqs)) with (r :: take (S k) reqs).
    simpl. rewrite E. repeat split; assumption.
Qed.

(** The lots after a request whose lines all passed. *)
Lemma dists_of_lines db0 t reqs now st :
  processLines t now (mkLoopState 0 [] db0) reqs = inr st ->
  dists (POST db0 (Some t) reqs now) = db st.
Proof.
  unfold POST. destruct reqs as [|req reqs].
  - simpl. intros [= <-]. reflexivity.
  - intros ->. destruct (TransactionSchema _); reflexivity.
Qed.

(** A line of an accepted request: its item, its quantity, and the lots
    before it and after it. *)
Lemma line_of_accepted db0 t reqs now t' amount k req :
  response (POST db0 (Some t) reqs now) = Success t' amount ->
  reqs !! k = Some req ->
  exists originalItem,
    tx_items t !! Z.to_nat (itemIndex req) = Some originalItem /\
    1 <= quantity req /\
    dists (POST db0 (Some t) (take (S k) reqs) now) =
      reinstate (tx_cashierId t) originalItem (quantity req)
        (dists (POST db0 (Some t) (take k reqs) now)).
Proof.
  intros H Hk.
  pose proof (POST_success_valid _ _ _ _ _ _ H) as V.
  apply POST_success in H as (t0 & st & [= <-] & Hlines & -> & _).
  destruct (processLines_line _ _ _ _ _ _ _ Hlines Hk)
    as (st1 & st2 & originalItem & H1 & H2 & Hit & Hdb).
  exists originalItem. split; [exact Hit|]. split.
  - destruct (processLines_inr _ _ _ _ _ Hlines) as (news & Hall & Hnew & _).
    simpl in Hnew.
    assert (Hin : In req reqs)
      by (apply list_elem_of_In, list_elem_of_lookup; eauto).
    destruct (Forall2_In_left _ _ _ _ Hall Hin)
      as (r & Hr & o & _ & _ & _ & ->).
    apply (TransactionSchema_returned _ (newReturnedItem o req now) V).
    rewrite (proj1 (proj2 (updateTransaction_fields t st))), Hnew.
    apply in_or_app. right. exact Hr.
  - rewrite (dists_of_lines _ _ _ _ _ H1), (dists_of_lines _ _ _ _ _ H2).
    exact Hdb.
Qed.

End ReturnedLine.

(** Where [reinstate] puts a positive quantity, on lots whose cancelled ones
    have no lines. *)
Lemma reinstate_choice (db : list Distribution) (cashierId : string)
  (originalItem : ITransactionItem) (q : Q) :
  cancelledEmpty db -> 0 < q ->
  let pid := ti_productId originalItem in
  let db' := ReturnRoute.reinstate cashierId originalItem q db in
  ((exists h d, lotOf db cashierId h d /\ isActive d = true /\
                listsProduct pid d) ->
   exists h d d',
     lotOf db cashierId h d /\ isActive d = true /\ listsProduct pid d /\
     (forall h2 d2,
        lotOf db cashierId h2 d2 -> isActive d2 = true ->
        listsProduct pid d2 ->
        (dist_createdAt d2 <= dist_createdAt d)%Z) /\
     relined db db' h d d' /\
     dist_status d' = dist_status d /\
     mergedInto pid q (dist_items d) (dist_items d')) /\
  ((forall h d, lotOf db cashierId h d -> isActive d = true ->
                ~ listsProduct pid d) ->
   (exists h d, lotOf db cashierId h d /\ isActive d = true) ->
   exists h d d',
     lotOf db cashierId h d /\ isActive d = true /\
     (forall h2 d2,
        lotOf db cashierId h2 d2 -> isActive d2 = true ->
        (dist_createdAt d2 <= dist_createdAt d)%Z) /\
     relined db db' h d d' /\
     dist_status d' = dist_status d /\
     appendedTo originalItem q (dist_items d) (dist_items d')) /\
  ((forall h d, lotOf db cashierId h d -> isActive d = false) ->
   (exists h d, lotOf db cashierId h d) ->
   exists h d d',
     lotOf db cashierId h d /\ dist_status d = cancelled /\
     (forall h2 d2,
        lotOf db cashierId h2 d2 ->
        (dist_createdAt d2 <= dist_createdAt d)%Z) /\
     relined db db' h d d' /\
     dist_status d' = pending /\
     appendedTo originalItem q (dist_items d) (dist_items d')).
Proof.
  intros Hce Hq pid db'. unfold db'. clear db'.
  assert (Hsorted := sortNewestFirst_sorted db
            (find (fun d => String.eqb (dist_cashierId d) cashierId &&
                            status_in [pending; delivered; cancelled] d) db)).
  fold (ReturnRoute.distributionsOf cashierId db) in Hsorted.
  (* a lot of the cashier that lists the product is pending or delivered *)
  assert (Hlisted : forall h,
             In h (ReturnRoute.distributionsOf cashierId db) ->
             holdsLine db pid h = true ->
            exists d, lotOf db cashierId h d /\ isActive d = true /\
                      listsProduct pid d).
  { intros h Hin Hh.
    destruct (distributionsOf_valid _ _ _ Hin) as (d & Hd & Hc).
    apply (holdsLine_listsProduct db pid h d Hd) in Hh.
    exists d. repeat split; try assumption.
    eapply listed_not_cancelled; eassumption. }
  split; [|split].
  - intros (h0 & d0 & Hmine0 & Hact0 & Hl0).
    destruct (split_first (holdsLine db pid)
                (ReturnRoute.distributionsOf cashierId db))
      as [Hnone|(pre & h & post & Hhs & Hh & Hpre)].
    { pose proof (distributionsOf_complete _ _ _ _ Hmine0) as Hin0.
      apply (holdsLine_listsProduct db pid h0 d0 (proj1 Hmine0)) in Hl0.
      rewrite (Hnone h0 Hin0) in Hl0. discriminate Hl0. }
    assert (Hin : In h (ReturnRoute.distributionsOf cashierId db))
      by (rewrite Hhs; apply in_or_app; right; left; reflexivity).
    destruct (Hlisted h Hin Hh) as (d & Hmine & Hact & Hl).
    destruct (reinstate_merges_line cashierId originalItem q db pre h post
                Hq Hhs Hpre Hh) as (d1 & its' & Hd1 & Hre & Hm).
    assert (d1 = d) as -> by (destruct Hmine; congruence).
    exists h, d, (ReturnRoute.withItems d its').
    split; [exact Hmine|]. split; [exact Hact|]. split; [exact Hl|].
    split; [|split; [|split]].
    + intros h2 d2 Hmine2 Hact2 Hl2.
      pose proof (distributionsOf_complete _ _ _ _ Hmine2) as Hin2.
      apply (holdsLine_listsProduct db pid h2 d2 (proj1 Hmine2)) in Hl2.
      rewrite Hhs in Hin2.
      apply in_app_or in Hin2 as [Hin2|[<-|Hin2]].
      * rewrite (Hpre h2 Hin2) in Hl2. discriminate Hl2.
      * assert (d2 = d) as -> by (destruct Hmine, Hmine2; congruence). lia.
      * rewrite Hhs in Hsorted. apply StronglySorted_after in Hsorted.
        rewrite List.Forall_forall in Hsorted.
        specialize (Hsorted h2 Hin2). apply Z.leb_le in Hsorted.
        rewrite (createdAtOf_lookup _ _ _ (proj1 Hmine)),
                (createdAtOf_lookup _ _ _ (proj1 Hmine2)) in Hsorted.
        exact Hsorted.
    + rewrite Hre. apply relined_withItems, Hmine.
    + simpl. apply promote_active, Hact.
    + exact Hm.
  - intros Hnot (h0 & d0 & Hmine0 & Hact0).
    assert (Hnone : forall h,
               In h (ReturnRoute.distributionsOf cashierId db) ->
               holdsLine db pid h = false).
    { intros h Hin. destruct (holdsLine db pid h) eqn:Hh; [|reflexivity].
      destruct (Hlisted h Hin Hh) as (d & Hmine & Hact & Hl).
      destruct (Hnot h d Hmine Hact Hl). }
    pose proof (distributionsOf_complete _ _ _ _ Hmine0) as Hin0.
    assert (Hah0 : ReturnRoute.activeHandle db h0 = true)
      by (unfold ReturnRoute.activeHandle; rewrite (proj1 Hmine0); exact Hact0).
    destruct (targetDistribution_active db
                (ReturnRoute.distributionsOf cashierId db) h0 Hin0 Hah0)
      as (h & Ht & Hin & Hah & Hmax).
    destruct (distributionsOf_valid _ _ _ Hin) as (d & Hd & Hc).
    assert (Hact : isActive d = true)
      by (unfold ReturnRoute.activeHandle in Hah; rewrite Hd in Hah; exact Hah).
    exists h, d, (ReturnRoute.withItems d
                    (dist_items d ++ [ReturnRoute.newDistItem originalItem q])).
    split; [split; assumption|]. split; [exact Hact|].
    split; [|split; [|split]].
    + intros h2 d2 Hmine2 Hact2.
      pose proof (distributionsOf_complete _ _ _ _ Hmine2) as Hin2.
      assert (Hah2 : ReturnRoute.activeHandle db h2 = true)
        by (unfold ReturnRoute.activeHandle; rewrite (proj1 Hmine2);
            exact Hact2).
      specialize (Hmax h2 Hin2 Hah2).
      rewrite (createdAtOf_lookup _ _ _ Hd),
              (createdAtOf_lookup _ _ _ (proj1 Hmine2)) in Hmax.
      exact Hmax.
    + rewrite (reinstate_falls_back_line cashierId originalItem q db h d
                 Hq Hnone Ht Hin Hd).
      apply relined_withItems, Hd.
    + simpl. apply promote_active, Hact.
    + apply appendedTo_new.
  - intros Hinactive (h0 & d0 & Hmine0).
    pose proof (distributionsOf_complete _ _ _ _ Hmine0) as Hin0.
    destruct (ReturnRoute.distributionsOf cashierId db) as [|h rest] eqn:Hhs;
      [destruct Hin0|].
    assert (Hin : In h (ReturnRoute.distributionsOf cashierId db))
      by (rewrite Hhs; left; reflexivity).
    destruct (distributionsOf_valid _ _ _ Hin) as (d & Hd & Hc).
    assert (Hmine : lotOf db cashierId h d) by (split; assumption).
    pose proof (proj1 (isActive_status d) (Hinactive h d Hmine)) as Hst.
    assert (Hall : forall h',
               In h' (ReturnRoute.distributionsOf cashierId db) ->
              ReturnRoute.activeHandle db h' = false /\
              holdsLine db pid h' = false).
    { intros h' Hin'.
      destruct (distributionsOf_valid _ _ _ Hin') as (d' & Hd' & Hc').
      pose proof (Hinactive h' d' (conj Hd' Hc')) as Hi.
      unfold ReturnRoute.activeHandle, holdsLine. rewrite Hd'.
      split; [exact Hi|].
      rewrite (Hce d'); [reflexivity| |apply isActive_status, Hi].
      apply list_elem_of_In, list_elem_of_lookup. eauto. }
    exists h, d, (ReturnRoute.withItems d
                    (dist_items d ++ [ReturnRoute.newDistItem originalItem q])).
    split; [exact Hmine|]. split; [exact Hst|].
    split; [|split; [|split]].
    + intros h2 d2 Hmine2.
      pose proof (distributionsOf_complete _ _ _ _ Hmine2) as Hin2.
      apply StronglySorted_inv in Hsorted as [_ Hsorted].
      rewrite List.Forall_forall in Hsorted.
      rewrite Hhs in Hin2.
      destruct Hin2 as [<-|Hin2].
      * assert (d2 = d) as -> by (destruct Hmine2; congruence). lia.
      * specialize (Hsorted h2 Hin2). apply Z.leb_le in Hsorted.
        rewrite (createdAtOf_lookup _ _ _ Hd),
                (createdAtOf_lookup _ _ _ (proj1 Hmine2)) in Hsorted.
        exact Hsorted.
    + rewrite (reinstate_falls_back_line cashierId originalItem q db h d Hq).
      * apply relined_withItems, Hd.
      * intros h' Hin'. apply Hall, Hin'.
      * rewrite (targetDistribution_inactive db _
                   (fun h' Hin' => proj1 (Hall h' Hin'))).
        rewrite Hhs. reflexivity.
      * exact Hin.
      * exact Hd.
    + simpl. rewrite Hst. reflexivity.
    + apply appendedTo_new.
Qed.

(** C5. The stock of every line of an accepted return goes to a pending or
    delivered lot of the cashier before any cancelled one. The lots are
    those of the data model, whose cancelled lots have no lines, and a line
    finds them as the lines before it in the request have left them. If a
    pending or delivered lot of the cashier has a line for the product, the
    most recently created such lot has the quantity merged into that line,
    and its status is as it was. If none has one but the cashier has a
    pending or delivered lot, the most recently created of these gets a new
    line for the product. Only if the cashier has no pending or delivered lot
    does the most recently created cancelled lot get the line, and it
    becomes pending. In each case no other lot changes. *)
Theorem C5_return_goes_to_active_lot_first
  (db : list Distribution) (t : ITransaction)
  (reqs : list ReturnRoute.ReturnRequest) (now : Z)
  (k : nat) (req : ReturnRoute.ReturnRequest)
  (t' : ITransaction) (amount : Q) :
  cancelledEmpty db ->
  ReturnRoute.response (processReturn db (Some t) reqs now) =
    ReturnRoute.Success t' amount ->
  reqs !! k = Some req ->
  let cashierId := tx_cashierId t in
  let q := ReturnRoute.quantity req in
  let before :=
    ReturnRoute.dists (processReturn db (Some t) (take k reqs) now) in
  let after :=
    ReturnRoute.dists (processReturn db (Some t) (take (S k) reqs) now) in
  cancelledEmpty before /\
  exists originalItem,
    tx_items t !! Z.to_nat (ReturnRoute.itemIndex req) = Some originalItem /\
    let pid := ti_productId originalItem in
    ((exists h d, lotOf before cashierId h d /\ isActive d = true /\
                  listsProduct pid d) ->
     exists h d d',
       lotOf before cashierId h d /\ isActive d = true /\
       listsProduct pid d /\
       (forall h2 d2,
          lotOf before cashierId h2 d2 -> isActive d2 = true ->
          listsProduct pid d2 ->
          (dist_createdAt d2 <= dist_createdAt d)%Z) /\
       relined before after h d d' /\
       dist_status d' = dist_status d /\
       mergedInto pid q (dist_items d) (dist_items d')) /\
    ((forall h d, lotOf before cashierId h d -> isActive d = true ->
                  ~ listsProduct pid d) ->
     (exists h d, lotOf before cashierId h d /\ isActive d = true) ->
     exists h d d',
       lotOf before cashierId h d /\ isActive d = true /\
       (forall h2 d2,
          lotOf before cashierId h2 d2 -> isActive d2 = true ->
          (dist_createdAt d2 <= dist_createdAt d)%Z) /\
       relined before after h d d' /\
       dist_status d' = dist_status d /\
       appendedTo originalItem q (dist_items d) (dist_items d')) /\
    ((forall h d, lotOf before cashierId h d -> isActive d = false) ->
     (exists h d, lotOf before cashierId h d) ->
     exists h d d',
       lotOf before cashierId h d /\ dist_status d = cancelled /\
       (forall h2 d2,
          lotOf before cashierId h2 d2 ->
          (dist_createdAt d2 <= dist_createdAt d)%Z) /\
       relined before after h d d' /\
       dist_status d' = pending /\
       appendedTo originalItem q (dist_items d) (dist_items d')).
Proof.
  intros Hce H Hk cashierId q before after.
  assert (Hbefore : cancelledEmpty before).
  { unfold before, processReturn. apply POST_preserves; [|exact Hce].
    intros o q0 db0. apply reinstate_cancelledEmpty. }
  split; [exact Hbefore|].
  destruct (line_of_accepted _ _ _ _ _ _ _ _ H Hk)
    as (originalItem & Hit & Hone & Hdb).
  exists originalItem. split; [exact Hit|]. intros pid.
  assert (Hq : 0 < q) by (unfold q; lra).
  unfold after, processReturn. rewrite Hdb.
  exact (reinstate_choice before cashierId originalItem q Hbefore Hq).
Qed.

(** * Further properties of the transfer handler *)

Section TransferFrame.

Import TransferRoute.

Variable sender : string.

Lemma sameOrOwnedBy_insert db db' h d d' :
  Forall2 (sameOrOwnedBy sender) db db' ->
  db' !! h = Some d -> dist_cashierId d = sender ->
  dist_cashierId d' = sender ->
  Forall2 (sameOrOwnedBy sender) db (<[h := d']> db').
Proof.
  intros Hall Hd Hc Hc'.
  apply Forall2_same_length_lookup in Hall as [Hlen Hall].
  apply Forall2_same_length_lookup_2; [rewrite length_insert; exact Hlen|].
  intros i x y Hx Hy. destruct (decide (h = i)) as [->|Hne].
  - rewrite list_lookup_insert_eq in Hy by (eapply lookup_lt_Some, Hd).
    injection Hy as <-. right. split; [|exact Hc'].
    destruct (Hall i x d Hx Hd) as [->|[Hx' _]]; assumption.
  - rewrite list_lookup_insert_ne in Hy by exact Hne. eauto.
Qed.

Lemma depleteDist_owner pid r d d' r' :
  depleteDist pid r d = Some (d', r') ->
  dist_cashierId d' = dist_cashierId d.
Proof.
  unfold depleteDist. destruct (List.find _ _); [|discriminate].
  destruct (num_gt _ _); [|discriminate]. intros [= <- _]. reflexivity.
Qed.

(** The loop of lines 99-125 changes lots of the sender only, and they stay
    the sender's. *)
Lemma depleteLoop_owned pid db hs : forall r db',
  Forall2 (sameOrOwnedBy sender) db db' ->
  (forall h d, In h hs -> db' !! h = Some d -> dist_cashierId d = sender) ->
  Forall2 (sameOrOwnedBy sender) db (depleteLoop pid hs r db').
Proof.
  induction hs as [|h hs IH]; intros r db' Hall Hown; [exact Hall|].
  assert (Hrest : forall h' d, In h' hs -> db' !! h' = Some d ->
                    dist_cashierId d = sender)
    by (intros h' d Hin; apply Hown; right; exact Hin).
  simpl. destruct (num_le r 0); [exact Hall|].
  destruct (db' !! h) as [d|] eqn:Hd; [|apply IH; assumption].
  destruct (depleteDist pid r d) as [[d' r']|] eqn:E; [|apply IH; assumption].
  pose proof (Hown h d (or_introl eq_refl) Hd) as Hc.
  pose proof (depleteDist_owner _ _ _ _ _ E) as Hc'. rewrite Hc in Hc'.
  apply IH.
  - eapply sameOrOwnedBy_insert; eassumption.
  - intros h' x Hin Hx. destruct (decide (h = h')) as [->|Hne].
    + rewrite list_lookup_insert_eq in Hx by (eapply lookup_lt_Some, Hd).
      congruence.
    + rewrite list_lookup_insert_ne in Hx by exact Hne. eauto.
Qed.

Lemma sameOrOwnedBy_refl (db : list Distribution) :
  Forall2 (sameOrOwnedBy sender) db db.
Proof. induction db; constructor; [left; reflexivity|assumption]. Qed.

(** So does the whole of lines 91-126, for all requested items. *)
Lemma deplete_all_owned db items :
  Forall2 (sameOrOwnedBy sender) db
    (fold_left
       (deplete (find (fun d => String.eqb (dist_cashierId d) sender &&
                                isActive d) db))
       items db).
Proof.
  set (hs := find _ db).
  assert (Hvalid : forall h, In h hs ->
            exists d, db !! h = Some d /\ dist_cashierId d = sender).
  { intros h Hin. apply find_valid in Hin as (d & Hd & HP).
    apply andb_prop in HP as [Hc _]. apply String.eqb_eq in Hc. eauto. }
  assert (Hgen : forall its db',
            Forall2 (sameOrOwnedBy sender) db db' ->
            Forall2 (sameOrOwnedBy sender) db
              (fold_left (deplete hs) its db')).
  { induction its as [|item its IH]; intros db' Hall; [exact Hall|].
    simpl. apply IH. unfold deplete. apply depleteLoop_owned; [exact Hall|].
    intros h d' Hin Hd'. unfold sortOldestFirst in Hin.
    apply sortBy_In, Hvalid in Hin as (d & Hd & Hc).
    destruct (Forall2_lookup_lr _ _ _ _ _ _ Hall Hd Hd') as [->|[_ ?]];
      assumption. }
  apply Hgen, sameOrOwnedBy_refl.
Qed.

(** The receiver's side changes one lot of the receiver, or appends one. *)
Lemma receive_other receiver items notes now db h d :
  db !! h = Some d -> dist_cashierId d <> receiver ->
  receive sender receiver items notes now db !! h = Some d.
Proof.
  intros Hd Hne. unfold receive.
  destruct (find _ db) as [|h' rest] eqn:Hfind.
  - rewrite lookup_app_l by (eapply lookup_lt_Some, Hd). exact Hd.
  - assert (Hin : In h' (find (fun d => String.eqb (dist_cashierId d) receiver
                                         && isActive d) db))
      by (rewrite Hfind; left; reflexivity).
    apply find_valid in Hin as (d' & Hd' & HP).
    apply andb_prop in HP as [Hc _]. apply String.eqb_eq in Hc.
    rewrite Hd'. rewrite list_lookup_insert_ne; [exact Hd|].
    intros ->. congruence.
Qed.

Lemma receive_length receiver items notes now db :
  (length db <= length (receive sender receiver items notes now db))%nat.
Proof.
  unfold receive. destruct (find _ db) as [|h' rest].
  - rewrite length_app. lia.
  - destruct (db !! h'); [rewrite length_insert|]; lia.
Qed.

End TransferFrame.

(** A successful response comes after all the checks, and leaves the
    depleted collection with the receiver's side applied. *)
Lemma transfer_success db sender receiver items notes now db' :
  transferStock db sender receiver items notes now =
    (TransferRoute.Success, db') ->
  sender <> "" /\ receiver <> "" /\ items <> [] /\ sender <> receiver /\
  existsb TransferRoute.invalidItem items = false /\
  TransferRoute.checkStock
    (TransferRoute.senderStockOf db
       (find (fun d => String.eqb (dist_cashierId d) sender && isActive d) db))
    items = None /\
  db' = TransferRoute.receive sender receiver items notes now
          (fold_left
             (TransferRoute.deplete
                (find (fun d => String.eqb (dist_cashierId d) sender &&
                                isActive d) db))
             items db).
Proof.
  unfold transferStock, TransferRoute.POST, str_falsy.
  destruct (String.eqb_spec sender ""); [discriminate|].
  destruct (String.eqb_spec receiver ""); [discriminate|].
  destruct items as [|i0 items0] eqn:Hitems; [discriminate|].
  rewrite <- Hitems. simpl.
  destruct (String.eqb_spec sender receiver); [discriminate|].
  destruct (existsb _ _); [discriminate|].
  destruct (TransferRoute.checkStock _ _); [discriminate|].
  intros [= <-]. repeat split; try assumption. congruence.
Qed.

(** X10. A transfer, accepted or rejected, leaves the lots of every cashier
    other than the sender and the receiver as they were, and deletes no
    lot. *)
Theorem X10_transfer_leaves_third_party_lots
  (db : list Distribution) (sender receiver : string)
  (items : list TransferRoute.TransferItem) (notes : string) (now : Z)
  (h : nat) (d : Distribution) :
  db !! h = Some d ->
  dist_cashierId d <> sender -> dist_cashierId d <> receiver ->
  (transferStock db sender receiver items notes now).2 !! h = Some d /\
  (length db <=
   length (transferStock db sender receiver items notes now).2)%nat.
Proof.
  intros Hd Hs Hr.
  destruct (transferStock db sender receiver items notes now)
    as [[|e] db'] eqn:E.
  - apply transfer_success in E as (_ & _ & _ & _ & _ & _ & ->). simpl.
    pose proof (deplete_all_owned sender db items) as Hall.
    split.
    + apply receive_other; [|exact Hr].
      destruct (Forall2_lookup_l _ _ _ _ _ Hall Hd) as (d1 & Hd1 & [->|[? _]]);
        [exact Hd1|contradiction].
    + etransitivity; [|apply receive_length].
      rewrite (Forall2_length _ _ _ Hall). reflexivity.
  - assert (db' = db) as ->; [|simpl; split; [exact Hd|reflexivity]].
    revert E. unfold transferStock, TransferRoute.POST.
    destruct (_ || _ || _); [congruence|].
    destruct (String.eqb _ _); [congruence|].
    destruct (existsb _ _); [congruence|].
    destruct (TransferRoute.checkStock _ _); [congruence|discriminate].
Qed.

(** X11. A transfer with an item that lacks a product id, name, sku or
    category, or whose quantity or price is zero, is rejected with the
    collection as it was, whatever else it asks for. *)
Theorem X11_transfer_rejects_incomplete_item
  (db : list Distribution) (sender receiver : string)
  (items : list TransferRoute.TransferItem) (notes : string) (now : Z)
  (item : TransferRoute.TransferItem) :
  In item items ->
  TransferRoute.productId item = "" \/ TransferRoute.productName item = "" \/
  TransferRoute.productSku item = "" \/ TransferRoute.category item = "" \/
  TransferRoute.quantity item == 0 \/ TransferRoute.price item == 0 ->
  exists e,
    transferStock db sender receiver items notes now =
    (TransferRoute.Failure e, db) /\
    (forall name available requested,
       e <> TransferRoute.InsufficientStock name available requested).
Proof.
  intros Hin Hbad.
  assert (Hinv : existsb TransferRoute.invalidItem items = true).
  { apply existsb_exists. exists item. split; [exact Hin|].
    unfold TransferRoute.invalidItem, str_falsy, num_falsy.
    destruct Hbad as [->|[->|[->|[->|[H|H]]]]];
      try apply num_eq_iff in H; try rewrite H;
      rewrite ?orb_true_r; reflexivity. }
  unfold transferStock, TransferRoute.POST.
  destruct (_ || _ || _); [eexists; split; [reflexivity|discriminate]|].
  destruct (String.eqb _ _); [eexists; split; [reflexivity|discriminate]|].
  rewrite Hinv. eexists; split; [reflexivity|discriminate].
Qed.

Section TransferAccepted.

Import TransferRoute.

Lemma invalidItem_false item :
  invalidItem item = false <->
  productId item <> "" /\ productName item <> "" /\ productSku item <> "" /\
  category item <> "" /\ ~ quantity item == 0 /\ ~ price item == 0.
Proof.
  unfold invalidItem, str_falsy, num_falsy.
  rewrite !orb_false_iff, !String.eqb_neq.
  assert (Hq : forall x, num_eq x 0 = false <-> ~ x == 0).
  { intros x. rewrite <- num_eq_iff. destruct (num_eq x 0); split; congruence. }
  rewrite !Hq. tauto.
Qed.

End TransferAccepted.

(** X12. A transfer is accepted exactly when both cashier ids are given and
    differ, the request is not empty, and every item is complete and either
    asks for no more than the sender holds of its product in pending and
    delivered lots, or has a product id that is the name of a member of
    [Object.prototype] (["constructor"], ["toString"], ...): for such an id
    the stock is not checked. Each item is compared with the whole stock,
    also when several items ask for the same product. *)
Theorem X12_transfer_accepted_iff
  (db : list Distribution) (sender receiver : string)
  (items : list TransferRoute.TransferItem) (notes : string) (now : Z) :
  (transferStock db sender receiver items notes now).1 =
    TransferRoute.Success <->
  sender <> "" /\ receiver <> "" /\ items <> [] /\ sender <> receiver /\
  List.Forall (itemAccepted db sender) items.
Proof.
  split.
  - destruct (transferStock db sender receiver items notes now)
      as [resp db'] eqn:E. simpl. intros ->.
    apply transfer_success in E as (Hs & Hr & Hne & Hsr & Hinv & Hcheck & _).
    repeat split; try assumption.
    apply checkStock_None in Hcheck.
    rewrite List.Forall_forall in *. intros item Hin.
    assert (Hok : TransferRoute.invalidItem item = false).
    { destruct (TransferRoute.invalidItem item) eqn:Hi; [|reflexivity].
      assert (existsb TransferRoute.invalidItem items = true)
        by (apply existsb_exists; eauto).
      congruence. }
    apply invalidItem_false in Hok. unfold itemAccepted.
    specialize (Hcheck item Hin). apply stock_check in Hcheck. tauto.
  - intros (Hs & Hr & Hne & Hsr & Hall).
    unfold transferStock, TransferRoute.POST, str_falsy.
    apply String.eqb_neq in Hs, Hr, Hsr. rewrite Hs, Hr, Hsr.
    destruct items as [|i0 items0] eqn:Hitems; [congruence|].
    rewrite <- Hitems in *. clear Hitems Hne i0 items0. simpl.
    replace (existsb TransferRoute.invalidItem items) with false.
    + replace (TransferRoute.checkStock _ items)
        with (@None TransferRoute.TransferError); [reflexivity|].
      symmetry. apply checkStock_None.
      eapply List.Forall_impl; [|exact Hall].
      intros item Hitem. apply stock_check.
      unfold itemAccepted in Hitem. tauto.
    + symmetry. apply not_true_is_false. intros Hex.
      apply existsb_exists in Hex as (item & Hin & Hi).
      rewrite List.Forall_forall in Hall. specialize (Hall item Hin).
      assert (TransferRoute.invalidItem item = false)
        by (apply invalidItem_false; unfold itemAccepted in Hall; tauto).
      congruence.
Qed.

Section ReceiverStock.

Import TransferRoute.

Lemma cashierStock_owned sender cashierId pid db db1 :
  Forall2 (sameOrOwnedBy sender) db db1 -> sender <> cashierId ->
  cashierStock db1 cashierId pid = cashierStock db cashierId pid.
Proof.
  intros Hall Hne. unfold cashierStock.
  induction Hall as [|d d1 db db1 [->|[Hd Hd1]] _ IH]; simpl;
    [reflexivity|rewrite IH; reflexivity|].
  rewrite Hd, Hd1.
  destruct (String.eqb_spec sender cashierId); [contradiction|]. exact IH.
Qed.

Lemma cashierStock_insert cashierId pid db : forall h d d',
  db !! h = Some d ->
  String.eqb (dist_cashierId d) cashierId && isActive d = true ->
  String.eqb (dist_cashierId d') cashierId && isActive d' = true ->
  cashierStock (<[h := d']> db) cashierId pid ==
  cashierStock db cashierId pid - lotStock pid d + lotStock pid d'.
Proof.
  unfold cashierStock.
  induction db as [|x db IH]; intros [|h] d d' Hd HP HP'; try discriminate;
    simpl in *.
  - injection Hd as ->. rewrite HP, HP'. lra.
  - destruct (String.eqb (dist_cashierId x) cashierId && isActive x);
      rewrite (IH h d d' Hd HP HP'); lra.
Qed.

Lemma cashierStock_app cashierId pid db d :
  String.eqb (dist_cashierId d) cashierId && isActive d = true ->
  cashierStock (db ++ [d]) cashierId pid ==
  cashierStock db cashierId pid + lotStock pid d.
Proof.
  intros HP. unfold cashierStock.
  induction db as [|x db IH]; simpl; [rewrite HP; lra|].
  destruct (String.eqb (dist_cashierId x) cashierId && isActive x);
    rewrite IH; lra.
Qed.

(** Lines 148-163: the quantity goes to the line of the product, or to a new
    line. *)
Lemma itemsStock_mergeItem pid toAdd its :
  itemsStock pid (mergeItem toAdd its) ==
  itemsStock pid its +
  (if String.eqb (di_productId toAdd) pid then di_quantity toAdd else 0).
Proof.
  induction its as [|di its IH]; simpl.
  - destruct (String.eqb (di_productId toAdd) pid); lra.
  - unfold sameProduct.
    destruct (String.eqb_spec (di_productId di) (di_productId toAdd))
      as [Heq|Hne]; simpl.
    + rewrite <- Heq. destruct (String.eqb (di_productId di) pid); lra.
    + fold (itemsStock pid (mergeItem toAdd its)).
      fold (itemsStock pid its).
      destruct (String.eqb (di_productId di) pid); rewrite IH; lra.
Qed.

Lemma itemsStock_merge_all pid items : forall its,
  itemsStock pid
    (fold_left (fun its a => mergeItem a its) (map itemToAdd items) its) ==
  itemsStock pid its + requestedOf pid items.
Proof.
  induction items as [|item items IH]; intros its; simpl; [lra|].
  rewrite IH, itemsStock_mergeItem. simpl.
  destruct (String.eqb (productId item) pid); lra.
Qed.

Lemma itemsStock_itemsToAdd pid items :
  itemsStock pid (map itemToAdd items) = requestedOf pid items.
Proof.
  induction items as [|item items IH]; simpl; [reflexivity|].
  rewrite IH. reflexivity.
Qed.

(** The receiver's side of a transfer adds what was asked for to the stock
    of the receiver. *)
Lemma receive_stock sender receiver items notes now db pid :
  cashierStock (receive sender receiver items notes now db) receiver pid ==
  cashierStock db receiver pid + requestedOf pid items.
Proof.
  unfold receive.
  destruct (find _ db) as [|h rest] eqn:Hfind.
  - rewrite cashierStock_app.
    + unfold lotStock. simpl. rewrite itemsStock_itemsToAdd. reflexivity.
    + simpl. rewrite String.eqb_refl. reflexivity.
  - assert (Hin : In h (find (fun d => String.eqb (dist_cashierId d) receiver
                                        && isActive d) db))
      by (rewrite Hfind; left; reflexivity).
    apply find_valid in Hin as (d & Hd & HP). rewrite Hd.
    rewrite (cashierStock_insert receiver pid db h d _ Hd HP).
    + unfold lotStock. simpl. rewrite itemsStock_merge_all. lra.
    + exact HP.
Qed.

End ReceiverStock.

(** X14. After an accepted transfer, the stock of the receiver, over the
    receiver's pending and delivered lots, has grown for every product by
    the quantity that the request asks for, summed over its items. *)
Theorem X14_transfer_adds_requested_to_receiver
  (db : list Distribution) (sender receiver : string)
  (items : list TransferRoute.TransferItem) (notes : string) (now : Z)
  (db' : list Distribution) (pid : string) :
  transferStock db sender receiver items notes now =
    (TransferRoute.Success, db') ->
  cashierStock db' receiver pid ==
  cashierStock db receiver pid + requestedOf pid items.
Proof.
  intros H. apply transfer_success in H as (_ & _ & _ & Hne & _ & _ & ->).
  rewrite receive_stock.
  rewrite (cashierStock_owned sender receiver pid db _
             (deplete_all_owned sender db items) Hne).
  reflexivity.
Qed.

Section DepleteTotal.

Import TransferRoute.

Variable pid : string.





End DepleteTotal.

Section StockOfQuery.

Variable P : Distribution -> bool.
Variable pid : string.



End StockOfQuery.

Section SenderLots.

Import TransferRoute.

Variable sender : string.
Variable pid : string.




End SenderLots.





Section ReceiverLot.

Import TransferRoute.

Lemma findFrom_agree P (db db1 : list Distribution) :
  Forall2 (fun d d1 => P d = P d1) db db1 ->
  forall n, findFrom P n db1 = findFrom P n db.
Proof.
  induction 1 as [|d d1 db db1 Hd _ IH]; intros n; simpl; [reflexivity|].
  rewrite <- Hd, IH. reflexivity.
Qed.

(** Depleting the sender's lots does not change what a query for another
    cashier yields. *)
Lemma find_after_deplete sender receiver db db1 :
  Forall2 (sameOrOwnedBy sender) db db1 -> sender <> receiver ->
  find (fun d => String.eqb (dist_cashierId d) receiver && isActive d) db1 =
  find (fun d => String.eqb (dist_cashierId d) receiver && isActive d) db.
Proof.
  intros Hall Hne. unfold find. apply findFrom_agree.
  eapply Forall2_impl; [exact Hall|].
  intros d d1 [->|[Hd Hd1]]; [reflexivity|]. simpl. rewrite Hd, Hd1.
  destruct (String.eqb_spec sender receiver); [contradiction|reflexivity].
Qed.





Lemma totalValues_itemsToAdd items : forall acc,
  fold_left (fun sum di => sum + di_totalValue di) (map itemToAdd items) acc =
  fold_left (fun sum item => sum + price item * quantity item) items acc.
Proof.
  induction items as [|item items IH]; intros acc; [reflexivity|].
  simpl. apply IH.
Qed.

End ReceiverLot.


(** X16. When the receiver has no pending or delivered lot, an accepted
    transfer appends one lot: delivered, owned by the receiver, issued by
    the sender, listing the requested items in their order, with a total
    value that is the sum of the values of its lines. Cancelled lots of the
    receiver are not reused. *)
Theorem X16_transfer_creates_delivered_lot
  (db : list Distribution) (sender receiver : string)
  (items : list TransferRoute.TransferItem) (notes : string) (now : Z)
  (db' : list Distribution) :
  transferStock db sender receiver items notes now =
    (TransferRoute.Success, db') ->
  (forall d, In d db -> dist_cashierId d = receiver -> isActive d = false) ->
  length db' = S (length db) /\
  (forall h d, db !! h = Some d -> dist_cashierId d = receiver ->
               db' !! h = Some d) /\
  exists lot,
    db' !! length db = Some lot /\
    dist_status lot = delivered /\
    dist_cashierId lot = receiver /\
    dist_adminId lot = sender /\
    dist_createdAt lot = now /\
    dist_items lot = map TransferRoute.itemToAdd items /\
    dist_totalValue lot = TransferRoute.totalValues (dist_items lot).
Proof.
  intros H Hnone.
  apply transfer_success in H as (_ & _ & _ & Hne & _ & _ & ->).
  pose proof (deplete_all_owned sender db items) as Hall.
  set (db1 := fold_left _ items db) in *.
  pose proof (Forall2_length _ _ _ Hall) as Hlen.
  unfold TransferRoute.receive.
  rewrite (find_after_deplete sender receiver db db1 Hall Hne).
  rewrite find_nil.
  - split; [rewrite length_app; simpl; lia|]. split.
    + intros h d Hd Hc.
      destruct (Forall2_lookup_l _ _ _ _ _ Hall Hd) as (d1 & Hd1 & [->|[? _]]);
        [|congruence].
      rewrite lookup_app_l by (eapply lookup_lt_Some, Hd1). exact Hd1.
    + eexists. split.
      * rewrite Hlen. rewrite lookup_app_r by lia.
        rewrite Nat.sub_diag. reflexivity.
      * simpl. repeat split. unfold TransferRoute.totalValues.
        symmetry. apply totalValues_itemsToAdd.
  - intros d Hin. destruct (String.eqb_spec (dist_cashierId d) receiver);
      [|reflexivity].
    simpl. apply Hnone; assumption.
Qed.

(** * Properties of the dashboard *)

Section DashboardStock.

Import Dashboard.

Lemma getStockStatus_good stock minStock :
  String.eqb (status (getStockStatus stock minStock)) "Good Stock" =
  negb (num_eq stock 0) && negb (num_le stock minStock).
Proof.
  unfold getStockStatus.
  destruct (num_eq stock 0); [reflexivity|].
  destruct (num_le stock minStock); reflexivity.
Qed.

(** A number is negative, zero or positive, and the tests of the page tell
    which. *)
Lemma sign_cases x :
  (num_eq x 0 = false /\ num_gt x 0 = false /\ num_le 0 x = false) \/
  (num_eq x 0 = true /\ num_gt x 0 = false /\ num_le 0 x = true) \/
  (num_eq x 0 = false /\ num_gt x 0 = true /\ num_le 0 x = true).
Proof.
  assert (Heq : forall b, num_eq x 0 = b -> if b then x == 0 else ~ x == 0).
  { intros [|] H; [apply num_eq_iff, H|].
    intros Hx. apply num_eq_iff in Hx. congruence. }
  specialize (Heq _ eq_refl).
  destruct (Q_dec x 0) as [[Hlt|Hgt]|Hz].
  - left. repeat split.
    + destruct (num_eq x 0); [lra|reflexivity].
    + apply num_lt_false_iff. lra.
    + apply num_le_false_iff, Hlt.
  - right. right. repeat split.
    + destruct (num_eq x 0); [lra|reflexivity].
    + apply num_lt_iff, Hgt.
    + apply num_le_iff. lra.
  - right. left. repeat split.
    + apply num_eq_iff, Hz.
    + apply num_lt_false_iff. lra.
    + apply num_le_iff. lra.
Qed.

End DashboardStock.

(** X17. The low stock figure of the dashboard counts exactly the products
    with a stock that is not negative for which [getStockStatus] does not say
    "Good Stock"; a product with a negative stock is not counted, whatever
    its label. The alert shows five of the counted products at most, and for
    none of them does [getStockStatus] say "Good Stock". *)
Theorem X17_low_stock_figure_matches_stock_status
  (products : list Dashboard.Product) :
  Dashboard.lowStockCount products =
    length
      (List.filter
         (fun p =>
            num_le 0 (Dashboard.p_stock p) &&
            negb (String.eqb
                    (Dashboard.status
                       (Dashboard.getStockStatus (Dashboard.p_stock p)
                          (Dashboard.p_minStock p)))
                    "Good Stock"))
         products) /\
  (length (Dashboard.lowStockProducts products) <= 5)%nat /\
  forall p,
    In p (Dashboard.lowStockProducts products) ->
    In p products /\
    Dashboard.status
      (Dashboard.getStockStatus (Dashboard.p_stock p)
         (Dashboard.p_minStock p)) <> "Good Stock".
Proof.
  split; [|split].
  - unfold Dashboard.lowStockCount, Dashboard.lowStockItems,
      Dashboard.outOfStockItems.
    induction products as [|p products IH]; [reflexivity|].
    simpl. rewrite getStockStatus_good.
    destruct (sign_cases (Dashboard.p_stock p)) as [(-> & -> & ->)|
      [(-> & -> & ->)|(-> & -> & ->)]];
      destruct (num_le (Dashboard.p_stock p) (Dashboard.p_minStock p));
      simpl; lia.
  - unfold Dashboard.lowStockProducts. rewrite length_firstn. lia.
  - intros p Hin. unfold Dashboard.lowStockProducts in Hin.
    assert (Hall : In p (Dashboard.lowStockItems products ++
                         Dashboard.outOfStockItems products)).
    { rewrite <- (firstn_skipn 5 (_ ++ _)). apply in_or_app. left. exact Hin. }
    clear Hin. rename Hall into Hin. apply in_app_or in Hin.
    unfold Dashboard.lowStockItems, Dashboard.outOfStockItems in Hin.
    rewrite !filter_In in Hin.
    assert (Hgood : String.eqb
                      (Dashboard.status
                         (Dashboard.getStockStatus (Dashboard.p_stock p)
                            (Dashboard.p_minStock p))) "Good Stock" = false).
    { rewrite getStockStatus_good.
      destruct Hin as [[_ H]|[_ H]].
      - apply andb_prop in H as [-> _]. apply andb_false_r.
      - rewrite H. reflexivity. }
    apply String.eqb_neq in Hgood. tauto.
Qed.

Section DashboardRecent.

Import Dashboard.

Variable transactions : list Transaction.

Lemma newestFirst_sorted :
  StronglySorted
    (fun a b => (timeOf transactions b <=? timeOf transactions a)%Z = true)
    (newestFirst transactions).
Proof.
  apply (sortBy_sorted
           (fun a b => (timeOf transactions b <=? timeOf transactions a)%Z)).
  - intros a b H. apply Z.leb_gt in H. apply Z.leb_le. lia.
  - intros a b c H1 H2. apply Z.leb_le in H1, H2. apply Z.leb_le. lia.
Qed.

Lemma newestFirst_In i :
  In i (newestFirst transactions) <-> (i < length transactions)%nat.
Proof.
  unfold newestFirst. rewrite sortBy_In, in_seq. lia.
Qed.

Lemma newestFirst_NoDup : List.NoDup (newestFirst transactions).
Proof.
  eapply Permutation_NoDup; [apply sortBy_Permutation|apply seq_NoDup].
Qed.

Lemma newestFirst_length :
  length (newestFirst transactions) = length transactions.
Proof.
  unfold newestFirst.
  rewrite <- (Permutation_length (sortBy_Permutation _ _)). apply length_seq.
Qed.

Lemma recent_of_places now (l : list nat) :
  (forall i, In i l -> (i < length transactions)%nat) ->
  length (omap (fun i => recent now <$> transactions !! i) l) = length l /\
  forall k i, l !! k = Some i ->
    exists t, transactions !! i = Some t /\
      omap (fun i => recent now <$> transactions !! i) l !! k =
        Some (recent now t).
Proof.
  induction l as [|i0 l IH]; intros Hall.
  - split; [reflexivity|]. intros k i H. discriminate H.
  - destruct (lookup_lt_is_Some_2 transactions i0) as (t0 & Ht0);
      [apply Hall; left; reflexivity|].
    destruct IH as [IHlen IHk]; [intros i Hin; apply Hall; right; exact Hin|].
    simpl. rewrite Ht0. simpl. split; [exact (f_equal S IHlen)|].
    intros [|k] i H; simpl in H.
    + injection H as <-. exists t0. split; [exact Ht0|reflexivity].
    + apply IHk, H.
Qed.

End DashboardRecent.

(** X18. The dashboard lists the four newest transactions, or all of them
    when there are fewer: each entry is made from a transaction of the list,
    none is listed twice, the entries come newest first, and no transaction
    left out is newer than one that is listed. *)
Theorem X18_recent_transactions_are_the_newest
  (now : Z) (transactions : list Dashboard.Transaction) :
  length (Dashboard.recentTransactions now transactions) =
    Nat.min 4 (length transactions) /\
  List.NoDup (Dashboard.sortedTransactions transactions) /\
  (forall k i,
     Dashboard.sortedTransactions transactions !! k = Some i ->
     exists t,
       transactions !! i = Some t /\
       Dashboard.recentTransactions now transactions !! k =
         Some (Dashboard.recent now t)) /\
  (forall k1 k2 i1 i2,
     (k1 < k2)%nat ->
     Dashboard.sortedTransactions transactions !! k1 = Some i1 ->
     Dashboard.sortedTransactions transactions !! k2 = Some i2 ->
     (Dashboard.timeOf transactions i2 <=
      Dashboard.timeOf transactions i1)%Z) /\
  (forall i j tj,
     In i (Dashboard.sortedTransactions transactions) ->
     transactions !! j = Some tj ->
     ~ In j (Dashboard.sortedTransactions transactions) ->
     (Dashboard.createdAt tj <= Dashboard.timeOf transactions i)%Z).
Proof.
  unfold Dashboard.recentTransactions, Dashboard.sortedTransactions.
  pose proof (newestFirst_sorted transactions) as Hsorted.
  pose proof (newestFirst_In transactions) as Hin.
  pose proof (newestFirst_NoDup transactions) as Hnd.
  pose proof (newestFirst_length transactions) as Hlen.
  set (s := Dashboard.newestFirst transactions) in *. clearbody s.
  assert (Hshown : forall i, In i (firstn 4 s) -> In i s).
  { intros i Hi. rewrite <- (firstn_skipn 4 s). apply in_or_app. left.
    exact Hi. }
  destruct (recent_of_places transactions now (firstn 4 s)) as [Hl Hk].
  { intros i Hi. apply Hin, Hshown, Hi. }
  split; [rewrite Hl, length_firstn, Hlen; reflexivity|].
  split.
  { rewrite <- (firstn_skipn 4 s) in Hnd.
    apply NoDup_app_remove_r in Hnd. exact Hnd. }
  split; [exact Hk|]. split.
  - intros k1 k2 i1 i2 Hlt H1 H2.
    rewrite <- (firstn_skipn 4 s) in Hsorted.
    apply lookup_lt_Some in H1 as Hk1.
    rewrite <- (take_drop_middle _ _ _ H1), <- app_assoc in Hsorted.
    simpl in Hsorted. apply StronglySorted_after in Hsorted.
    rewrite List.Forall_forall in Hsorted. apply Z.leb_le, Hsorted.
    apply in_or_app. left.
    apply list_elem_of_In, list_elem_of_lookup.
    exists (k2 - S k1)%nat. rewrite lookup_drop.
    replace (S k1 + (k2 - S k1))%nat with k2 by lia. exact H2.
  - intros i j tj Hi Hj Hout.
    assert (Hjs : In j s) by (apply Hin; eapply lookup_lt_Some, Hj).
    rewrite <- (firstn_skipn 4 s) in Hjs, Hsorted.
    apply in_app_or in Hjs as [Hjs|Hjs]; [contradiction|].
    apply in_split in Hi as (a & b & Hab).
    rewrite Hab, <- app_assoc in Hsorted. simpl in Hsorted.
    apply StronglySorted_after in Hsorted.
    rewrite List.Forall_forall in Hsorted.
    assert (Hle : (Dashboard.timeOf transactions j <=?
                   Dashboard.timeOf transactions i)%Z = true)
      by (apply Hsorted, in_or_app; right; exact Hjs).
    apply Z.leb_le in Hle. unfold Dashboard.timeOf at 1 in Hle.
    rewrite Hj in Hle. exact Hle.
Qed.

(** * Binary64 rounding

    What the statements about the dashboard use of the rounding: it is
    monotone, it leaves a rounded number as it is, and it leaves the integers
    up to [2^53] as they are. *)

Section Pow2.

Lemma pow2_pos e : 0 < pow2 e.
Proof. apply Qpower_0_lt. reflexivity. Qed.

Lemma pow2_add a b : pow2 (a + b) == pow2 a * pow2 b.
Proof. apply Qpower_plus. discriminate. Qed.

Lemma pow2_le a b : (a <= b)%Z -> pow2 a <= pow2 b.
Proof. intros H. apply Qpower_le_compat_l; [exact H|discriminate]. Qed.

Lemma pow2_lt a b : (a < b)%Z -> pow2 a < pow2 b.
Proof. intros H. apply Qpower_lt_compat_l; [exact H|reflexivity]. Qed.

Lemma pow2_lt_inv a b : pow2 a < pow2 b -> (a < b)%Z.
Proof. intros H. apply (Qpower_lt_compat_l_inv 2); [exact H|reflexivity]. Qed.

Lemma pow2_Z n : (0 <= n)%Z -> pow2 n == inject_Z (2 ^ n).
Proof.
  intros H. unfold pow2. rewrite Zpower_Qpower by exact H. reflexivity.
Qed.

Lemma pow2_succ a : pow2 (a + 1) == 2 * pow2 a.
Proof. rewrite pow2_add. change (pow2 1) with 2. ring. Qed.

Lemma pow2_pred a : pow2 (a - 1) == pow2 a / 2.
Proof.
  assert (H : pow2 a == 2 * pow2 (a - 1)).
  { rewrite <- pow2_succ. replace (a - 1 + 1)%Z with a by lia. reflexivity. }
  rewrite H. field.
Qed.

Lemma pow2_sub a b : pow2 (a - b) == pow2 a / pow2 b.
Proof.
  assert (H : pow2 a == pow2 (a - b) * pow2 b).
  { rewrite <- pow2_add. replace (a - b + b)%Z with a by lia. reflexivity. }
  rewrite H. field. pose proof (pow2_pos b). lra.
Qed.

End Pow2.

Lemma exponentOf_spec x :
  0 < x -> pow2 (exponentOf x) <= x /\ x < pow2 (exponentOf x + 1).
Proof.
  intros Hx. unfold exponentOf.
  destruct x as [n d]. simpl (Qnum _). simpl (Qden _).
  assert (Hn : (0 < n)%Z) by (unfold Qlt in Hx; simpl in Hx; lia).
  set (a := Z.log2 n). set (b := Z.log2 (Z.pos d)).
  destruct (Z.log2_spec n Hn) as [Ha1 Ha2]. fold a in Ha1, Ha2.
  destruct (Z.log2_spec (Z.pos d) eq_refl) as [Hb1 Hb2]. fold b in Hb1, Hb2.
  assert (Ha0 : (0 <= a)%Z) by apply Z.log2_nonneg.
  assert (Hb0 : (0 <= b)%Z) by apply Z.log2_nonneg.
  assert (HA1 : pow2 a <= inject_Z n)
    by (rewrite pow2_Z by exact Ha0; rewrite <- Zle_Qle; exact Ha1).
  assert (HA2 : inject_Z n < 2 * pow2 a).
  { rewrite <- pow2_succ, pow2_Z by lia. rewrite <- Zlt_Qlt. exact Ha2. }
  assert (HB1 : pow2 b <= inject_Z (Z.pos d))
    by (rewrite pow2_Z by exact Hb0; rewrite <- Zle_Qle; exact Hb1).
  assert (HB2 : inject_Z (Z.pos d) < 2 * pow2 b).
  { rewrite <- pow2_succ, pow2_Z by lia. rewrite <- Zlt_Qlt. exact Hb2. }
  assert (Hxd : n # d == inject_Z n / inject_Z (Z.pos d)) by apply Qmake_Qdiv.
  pose proof (pow2_pos a) as Hpa. pose proof (pow2_pos b) as Hpb.
  set (A := inject_Z n) in *. set (D := inject_Z (Z.pos d)) in *.
  set (PA := pow2 a) in *. set (PB := pow2 b) in *.
  assert (Hab : pow2 (a - b) == PA / PB) by apply pow2_sub.
  assert (HD : 0 < D) by lra.
  assert (Hupper : A / D < 2 * (PA / PB)).
  { apply Qlt_shift_div_r; [exact HD|].
    assert (Heq : 2 * (PA / PB) * D == 2 * PA * (D / PB)) by (field; lra).
    rewrite Heq.
    assert (1 <= D / PB) by (apply Qle_shift_div_l; lra).
    nra. }
  assert (Hlower : PA / PB / 2 < A / D).
  { apply Qlt_shift_div_l; [exact HD|].
    assert (Heq : PA / PB / 2 * D == PA * (D / PB / 2)) by (field; lra).
    rewrite Heq.
    assert (D / PB / 2 < 1).
    { apply Qlt_shift_div_r; [lra|]. apply Qlt_shift_div_r; lra. }
    nra. }
  destruct (Qle_bool (pow2 (a - b)) (n # d)) eqn:E.
  - apply Qle_bool_iff in E. split; [exact E|].
    rewrite pow2_succ, Hab, Hxd. exact Hupper.
  - assert (Hlt : n # d < pow2 (a - b)).
    { apply Qnot_le_lt. intros Hle. apply Qle_bool_iff in Hle. congruence. }
    replace (a - b - 1 + 1)%Z with (a - b)%Z by lia.
    split; [|exact Hlt].
    rewrite pow2_pred, Hab, Hxd. lra.
Qed.

(** The exponent is determined by the binade, and grows with the number. *)
Lemma exponentOf_le x y : 0 < x -> x <= y -> (exponentOf x <= exponentOf y)%Z.
Proof.
  intros Hx Hxy.
  destruct (exponentOf_spec x Hx) as [Hx1 _].
  destruct (exponentOf_spec y) as [_ Hy2]; [lra|].
  assert (H : pow2 (exponentOf x) < pow2 (exponentOf y + 1)) by lra.
  apply pow2_lt_inv in H. lia.
Qed.

Lemma exponentOf_unique x e :
  pow2 e <= x -> x < pow2 (e + 1) -> exponentOf x = e.
Proof.
  intros H1 H2.
  assert (Hx : 0 < x) by (pose proof (pow2_pos e); lra).
  destruct (exponentOf_spec x Hx) as [Hx1 Hx2].
  assert (Ha : pow2 e < pow2 (exponentOf x + 1)) by lra.
  assert (Hb : pow2 (exponentOf x) < pow2 (e + 1)) by lra.
  apply pow2_lt_inv in Ha, Hb. lia.
Qed.

Section NearestEven.

Lemma nearestEven_cases x :
  let f := Qfloor x in
  inject_Z f <= x /\ x < inject_Z f + 1 /\
  ((nearestEven x = f /\ x - inject_Z f <= 1 # 2 /\
    (x - inject_Z f == 1 # 2 -> Z.even f = true)) \/
   (nearestEven x = (f + 1)%Z /\ 1 # 2 <= x - inject_Z f /\
    (x - inject_Z f == 1 # 2 -> Z.even f = false))).
Proof.
  intros f. pose proof (Qfloor_le x) as H1. pose proof (Qlt_floor x) as H2.
  fold f in H1, H2. rewrite inject_Z_plus in H2.
  split; [exact H1|]. split; [exact H2|].
  unfold nearestEven. fold f.
  destruct (Qle_bool (x - inject_Z f) (1 # 2)) eqn:Hle.
  - apply Qle_bool_iff in Hle.
    destruct (Qeq_bool (x - inject_Z f) (1 # 2)) eqn:Heq.
    + apply Qeq_bool_iff in Heq.
      destruct (Z.even f) eqn:Hev; [left|right]; repeat split; auto; lra.
    + left. repeat split; [exact Hle|]. intros H.
      apply Qeq_bool_iff in H. congruence.
  - right. assert (1 # 2 < x - inject_Z f).
    { apply Qnot_le_lt. intros H. apply Qle_bool_iff in H. congruence. }
    repeat split; [lra|]. intros H'. lra.
Qed.

Lemma nearestEven_le x y : x <= y -> (nearestEven x <= nearestEven y)%Z.
Proof.
  intros Hxy.
  pose proof (Qfloor_resp_le x y Hxy) as Hf.
  destruct (nearestEven_cases x) as (Hx1 & Hx2 & Hx).
  destruct (nearestEven_cases y) as (Hy1 & Hy2 & Hy).
  destruct (Z.eq_dec (Qfloor x) (Qfloor y)) as [Heq|Hne].
  - rewrite <- Heq in *.
    destruct Hx as [(-> & Hx3 & Hx4)|(-> & Hx3 & Hx4)];
      destruct Hy as [(-> & Hy3 & Hy4)|(-> & Hy3 & Hy4)]; try lia.
    assert (Hr : x - inject_Z (Qfloor x) == 1 # 2) by lra.
    assert (Hr' : y - inject_Z (Qfloor x) == 1 # 2) by lra.
    specialize (Hx4 Hr). specialize (Hy4 Hr'). congruence.
  - destruct Hx as [(-> & _)|(-> & _)];
      destruct Hy as [(-> & _)|(-> & _)]; lia.
Qed.

Lemma nearestEven_Z z : nearestEven (inject_Z z) = z.
Proof.
  destruct (nearestEven_cases (inject_Z z)) as (_ & _ & H).
  rewrite Qfloor_Z in H.
  destruct H as [(-> & _)|(_ & H & _)]; [reflexivity|]. lra.
Qed.

Lemma nearestEven_comp x y : x == y -> nearestEven x = nearestEven y.
Proof.
  intros H. apply Z.le_antisymm; apply nearestEven_le; lra.
Qed.

End NearestEven.

Section Magnitude.

Lemma pow2_52_ulp E : pow2 E == inject_Z (2 ^ 52) * pow2 (E - 52).
Proof.
  rewrite <- pow2_Z by lia. rewrite <- pow2_add.
  replace (52 + (E - 52))%Z with E by lia. reflexivity.
Qed.

Lemma pow2_53_ulp E : pow2 (E + 1) == inject_Z (2 ^ 53) * pow2 (E - 52).
Proof.
  rewrite <- pow2_Z by lia. rewrite <- pow2_add.
  replace (53 + (E - 52))%Z with (E + 1)%Z by lia. reflexivity.
Qed.

Lemma scaled_le x y u : 0 < u -> x <= y * u -> x / u <= y.
Proof. intros Hu H. apply Qle_shift_div_r; assumption. Qed.

Lemma scaled_ge x y u : 0 < u -> y * u <= x -> y <= x / u.
Proof. intros Hu H. apply Qle_shift_div_l; assumption. Qed.

Lemma magnitude64_upper a :
  0 < a ->
  magnitude64 a <= pow2 (Z.max (exponentOf a) (-1022) + 1) /\
  (nearestEven (a / pow2 (Z.max (exponentOf a) (-1022) - 52)) <= 2 ^ 53)%Z.
Proof.
  intros Ha. unfold magnitude64.
  set (E := Z.max (exponentOf a) (-1022)).
  pose proof (pow2_pos (E - 52)) as Hu.
  destruct (exponentOf_spec a Ha) as [_ H2].
  assert (H3 : a <= pow2 (E + 1)).
  { apply Qlt_le_weak. eapply Qlt_le_trans; [exact H2|].
    apply pow2_le. unfold E. lia. }
  rewrite pow2_53_ulp in H3 |- *.
  assert (Hn : (nearestEven (a / pow2 (E - 52)) <= 2 ^ 53)%Z).
  { rewrite <- (nearestEven_Z (2 ^ 53)). apply nearestEven_le.
    apply scaled_le; assumption. }
  split; [|exact Hn].
  apply Qmult_le_compat_r; [|lra]. rewrite <- Zle_Qle. exact Hn.
Qed.

Lemma magnitude64_lower a :
  0 < a -> (-1022 <= exponentOf a)%Z -> pow2 (exponentOf a) <= magnitude64 a.
Proof.
  intros Ha He. unfold magnitude64.
  rewrite Z.max_l by exact He.
  pose proof (pow2_pos (exponentOf a - 52)) as Hu.
  destruct (exponentOf_spec a Ha) as [H1 _].
  rewrite pow2_52_ulp in H1 |- *.
  apply Qmult_le_compat_r; [|lra]. rewrite <- Zle_Qle.
  rewrite <- (nearestEven_Z (2 ^ 52)) at 1. apply nearestEven_le.
  apply scaled_ge; assumption.
Qed.

Lemma magnitude64_nonneg a : 0 < a -> 0 <= magnitude64 a.
Proof.
  intros Ha. unfold magnitude64.
  set (E := Z.max (exponentOf a) (-1022)).
  pose proof (pow2_pos (E - 52)) as Hu.
  apply Qmult_le_0_compat; [|lra].
  change 0 with (inject_Z 0). rewrite <- Zle_Qle.
  rewrite <- (nearestEven_Z 0). apply nearestEven_le.
  apply scaled_ge; [exact Hu|]. change (inject_Z 0) with 0. lra.
Qed.

Lemma magnitude64_le x y : 0 < x -> x <= y -> magnitude64 x <= magnitude64 y.
Proof.
  intros Hx Hxy. assert (Hy : 0 < y) by lra.
  pose proof (exponentOf_le x y Hx Hxy) as He.
  destruct (Z.eq_dec (Z.max (exponentOf x) (-1022))
                     (Z.max (exponentOf y) (-1022))) as [Heq|Hne].
  - unfold magnitude64. rewrite Heq.
    set (u := pow2 (Z.max (exponentOf y) (-1022) - 52)).
    assert (Hu : 0 < u) by apply pow2_pos.
    apply Qmult_le_compat_r; [|lra]. rewrite <- Zle_Qle.
    apply nearestEven_le. apply Qmult_le_compat_r; [exact Hxy|].
    apply Qlt_le_weak, Qinv_lt_0_compat, Hu.
  - assert (Hey : (-1022 <= exponentOf y)%Z) by lia.
    eapply Qle_trans; [apply (magnitude64_upper x Hx)|].
    eapply Qle_trans; [|apply (magnitude64_lower y Hy Hey)].
    apply pow2_le. lia.
Qed.

Lemma magnitude64_comp x y : 0 < x -> x == y -> magnitude64 x == magnitude64 y.
Proof.
  intros Hx Hxy. apply Qle_antisym; apply magnitude64_le; lra.
Qed.

(** A number [m * 2^k] with [m] of 53 bits at most and [k] no lower than
    the lowest exponent is representable. *)
Lemma magnitude64_fix_lt m k :
  (0 < m < 2 ^ 53)%Z -> (-1074 <= k)%Z ->
  magnitude64 (inject_Z m * pow2 k) == inject_Z m * pow2 k.
Proof.
  intros Hm Hk. set (v := inject_Z m * pow2 k).
  pose proof (pow2_pos k) as Hpk.
  assert (Hm0 : 0 < inject_Z m)
    by (change 0 with (inject_Z 0); rewrite <- Zlt_Qlt; lia).
  assert (Hv : 0 < v) by (unfold v; nra).
  assert (Hlt : v < pow2 (k + 53)).
  { unfold v. rewrite pow2_add, (pow2_Z 53) by lia.
    assert (inject_Z m < inject_Z (2 ^ 53)) by (rewrite <- Zlt_Qlt; lia).
    rewrite (Qmult_comm (pow2 k)). apply Qmult_lt_compat_r; assumption. }
  destruct (exponentOf_spec v Hv) as [H1 _].
  assert (He : (exponentOf v < k + 53)%Z) by (apply pow2_lt_inv; lra).
  unfold magnitude64. set (E := Z.max (exponentOf v) (-1022)).
  assert (HE : (E <= k + 52)%Z) by (unfold E; lia).
  set (j := (k + 52 - E)%Z).
  assert (Hj : (0 <= j)%Z) by (unfold j; lia).
  pose proof (pow2_pos (E - 52)) as Hu.
  assert (Hk' : pow2 k == inject_Z (2 ^ j) * pow2 (E - 52)).
  { rewrite <- pow2_Z by exact Hj. rewrite <- pow2_add.
    replace (j + (E - 52))%Z with k by (unfold j; lia). reflexivity. }
  assert (Hdiv : v / pow2 (E - 52) == inject_Z (m * 2 ^ j)).
  { unfold v. rewrite Hk', inject_Z_mult. field. lra. }
  rewrite (nearestEven_comp _ _ Hdiv), nearestEven_Z.
  unfold v. rewrite Hk', inject_Z_mult. ring.
Qed.

Lemma magnitude64_fix m k :
  (0 < m <= 2 ^ 53)%Z -> (-1074 <= k)%Z ->
  magnitude64 (inject_Z m * pow2 k) == inject_Z m * pow2 k.
Proof.
  intros Hm Hk. destruct (Z.eq_dec m (2 ^ 53)%Z) as [->|Hne].
  - assert (Heq : inject_Z (2 ^ 53) * pow2 k ==
                  inject_Z (2 ^ 52) * pow2 (k + 1)).
    { rewrite pow2_succ. change (2 ^ 53)%Z with (2 * 2 ^ 52)%Z.
      rewrite inject_Z_mult. change (inject_Z 2) with 2. ring. }
    assert (Hpos : 0 < inject_Z (2 ^ 53) * pow2 k).
    { pose proof (pow2_pos k). assert (0 < inject_Z (2 ^ 53)) by reflexivity.
      nra. }
    rewrite (magnitude64_comp _ _ Hpos Heq), Heq.
    apply magnitude64_fix_lt; [|lia]. split; [reflexivity|reflexivity].
  - apply magnitude64_fix_lt; [lia|exact Hk].
Qed.

Lemma magnitude64_form a :
  0 < a ->
  exists m k,
    (0 <= m <= 2 ^ 53)%Z /\ (-1074 <= k)%Z /\
    magnitude64 a = inject_Z m * pow2 k.
Proof.
  intros Ha.
  exists (nearestEven (a / pow2 (Z.max (exponentOf a) (-1022) - 52))),
         (Z.max (exponentOf a) (-1022) - 52)%Z.
  split; [|split; [lia|reflexivity]].
  split; [|apply (magnitude64_upper a Ha)].
  rewrite <- (nearestEven_Z 0). apply nearestEven_le.
  apply scaled_ge; [apply pow2_pos|]. change (inject_Z 0) with 0. lra.
Qed.

End Magnitude.

Section Binary64.

Lemma binary64_zero x : x == 0 -> binary64 x = 0.
Proof.
  intros H. unfold binary64. apply Qeq_bool_iff in H. rewrite H. reflexivity.
Qed.

Lemma binary64_pos x : 0 < x -> binary64 x = magnitude64 x.
Proof.
  intros H. unfold binary64.
  destruct (Qeq_bool x 0) eqn:E; [apply Qeq_bool_iff in E; lra|].
  destruct (Qle_bool 0 x) eqn:L; [reflexivity|].
  assert (0 <= x) by lra. apply Qle_bool_iff in H0. congruence.
Qed.

Lemma binary64_neg x : x < 0 -> binary64 x = - magnitude64 (- x).
Proof.
  intros H. unfold binary64.
  destruct (Qeq_bool x 0) eqn:E; [apply Qeq_bool_iff in E; lra|].
  destruct (Qle_bool 0 x) eqn:L; [|reflexivity].
  apply Qle_bool_iff in L. lra.
Qed.

Lemma sign_of (x : Q) : x < 0 \/ x == 0 \/ 0 < x.
Proof.
  destruct (Q_dec x 0) as [[H|H]|H]; auto.
Qed.

Lemma binary64_opp x : binary64 (- x) == - binary64 x.
Proof.
  destruct (sign_of x) as [H|[H|H]].
  - rewrite (binary64_neg x H), binary64_pos by lra. ring.
  - rewrite (binary64_zero x H), binary64_zero by lra. reflexivity.
  - rewrite (binary64_pos x H), binary64_neg by lra.
    rewrite (magnitude64_comp (- - x) x); [reflexivity|lra|ring].
Qed.

Lemma binary64_nonneg x : 0 <= x -> 0 <= binary64 x.
Proof.
  intros H. destruct (sign_of x) as [H'|[H'|H']]; [lra| |].
  - rewrite (binary64_zero x H'). lra.
  - rewrite (binary64_pos x H'). apply magnitude64_nonneg, H'.
Qed.

Lemma binary64_nonpos x : x <= 0 -> binary64 x <= 0.
Proof.
  intros H. assert (H' : 0 <= binary64 (- x)) by (apply binary64_nonneg; lra).
  rewrite binary64_opp in H'. lra.
Qed.

(** Rounding is monotone. *)
Lemma binary64_le x y : x <= y -> binary64 x <= binary64 y.
Proof.
  intros Hxy. destruct (sign_of x) as [Hx|[Hx|Hx]].
  - destruct (sign_of y) as [Hy|[Hy|Hy]].
    + rewrite (binary64_neg x Hx), (binary64_neg y Hy).
      assert (magnitude64 (- y) <= magnitude64 (- x))
        by (apply magnitude64_le; lra).
      lra.
    + pose proof (binary64_nonpos x). pose proof (binary64_nonneg y). lra.
    + pose proof (binary64_nonpos x). pose proof (binary64_nonneg y). lra.
  - rewrite (binary64_zero x Hx). apply binary64_nonneg. lra.
  - rewrite (binary64_pos x Hx), binary64_pos by lra.
    apply magnitude64_le; assumption.
Qed.

Lemma binary64_comp x y : x == y -> binary64 x == binary64 y.
Proof. intros H. apply Qle_antisym; apply binary64_le; lra. Qed.

(** Numbers [m * 2^k] with [|m| <= 2^53] and [k >= -1074] are
    representable: rounding leaves them as they are. *)
Lemma binary64_fix m k :
  (Z.abs m <= 2 ^ 53)%Z -> (-1074 <= k)%Z ->
  binary64 (inject_Z m * pow2 k) == inject_Z m * pow2 k.
Proof.
  intros Hm Hk. pose proof (pow2_pos k) as Hp.
  destruct (Z.lt_trichotomy m 0) as [Hneg|[->|Hpos]].
  - assert (Heq : inject_Z m * pow2 k == - (inject_Z (- m) * pow2 k))
      by (rewrite inject_Z_opp; ring).
    rewrite (binary64_comp _ _ Heq), binary64_opp.
    assert (Hv : 0 < inject_Z (- m) * pow2 k).
    { assert (0 < inject_Z (- m))
        by (change 0 with (inject_Z 0); rewrite <- Zlt_Qlt; lia).
      nra. }
    rewrite (binary64_pos _ Hv), magnitude64_fix by lia.
    rewrite inject_Z_opp. ring.
  - rewrite binary64_zero; ring.
  - assert (Hv : 0 < inject_Z m * pow2 k).
    { assert (0 < inject_Z m)
        by (change 0 with (inject_Z 0); rewrite <- Zlt_Qlt; lia).
      nra. }
    rewrite (binary64_pos _ Hv). apply magnitude64_fix; lia.
Qed.

Lemma binary64_Z z :
  (Z.abs z <= 2 ^ 53)%Z -> binary64 (inject_Z z) == inject_Z z.
Proof.
  intros Hz. pose proof (binary64_fix z 0 Hz ltac:(lia)) as H.
  change (pow2 0) with 1 in H.
  rewrite (binary64_comp (inject_Z z) (inject_Z z * 1)) by ring.
  rewrite H. ring.
Qed.

(** Rounding a rounded number changes nothing. *)
Lemma binary64_idem x : binary64 (binary64 x) == binary64 x.
Proof.
  assert (Hpos : forall a, 0 < a ->
            binary64 (magnitude64 a) == magnitude64 a).
  { intros a Ha. destruct (magnitude64_form a Ha) as (m & k & Hm & Hk & ->).
    apply binary64_fix; lia. }
  destruct (sign_of x) as [H|[H|H]].
  - rewrite (binary64_neg x H), binary64_opp, Hpos by lra. reflexivity.
  - rewrite (binary64_zero x H). reflexivity.
  - rewrite (binary64_pos x H). apply Hpos, H.
Qed.

End Binary64.

#[global] Instance binary64_proper : Proper (Qeq ==> Qeq) binary64.
Proof. intros x y H. apply binary64_comp, H. Qed.

(** * The sales figures of the dashboard *)

Section DashboardSales.

Import Dashboard.

Lemma binary64_0 : binary64 0 == 0.
Proof. rewrite binary64_zero; reflexivity. Qed.

(** A sum of rounded additions is a rounded number. *)
Lemma sum_rounded l : forall acc,
  binary64 acc == acc ->
  binary64 (fold_left (fun sum t => binary64 (sum + totalAmount t)) l acc) ==
  fold_left (fun sum t => binary64 (sum + totalAmount t)) l acc.
Proof.
  induction l as [|t l IH]; intros acc Hacc; simpl; [exact Hacc|].
  apply IH, binary64_idem.
Qed.

Lemma sum_nonneg l : forall acc,
  (forall t, In t l -> 0 <= totalAmount t) -> 0 <= acc ->
  0 <= fold_left (fun sum t => binary64 (sum + totalAmount t)) l acc.
Proof.
  induction l as [|t l IH]; intros acc Hpos Hacc; simpl; [exact Hacc|].
  apply IH; [intros t' Hin; apply Hpos; right; exact Hin|].
  apply binary64_nonneg.
  pose proof (Hpos t (or_introl eq_refl)). lra.
Qed.

(** Sales that pass a test do not exceed the sales that pass a weaker test,
    also after rounding: every addition is monotone, and adding a total that
    is not negative to a rounded sum does not lower it. *)
Lemma sums_le (f g : Transaction -> bool) l :
  (forall t, In t l -> 0 <= totalAmount t) ->
  (forall t, f t = true -> g t = true) ->
  forall a b,
    a <= b -> binary64 b == b ->
    fold_left (fun sum t => binary64 (sum + totalAmount t))
      (List.filter f l) a <=
    fold_left (fun sum t => binary64 (sum + totalAmount t))
      (List.filter g l) b.
Proof.
  intros Hpos Hfg. induction l as [|t l IH]; intros a b Hab Hb;
    [exact Hab|].
  specialize (IH (fun t' Hin => Hpos t' (or_intror Hin))).
  pose proof (Hpos t (or_introl eq_refl)) as Ht.
  pose proof (Hfg t) as Hfgt.
  simpl. destruct (f t); [rewrite (Hfgt eq_refl)|destruct (g t)]; simpl.
  - apply IH; [apply binary64_le; lra|apply binary64_idem].
  - apply IH; [|apply binary64_idem].
    assert (b <= binary64 (b + totalAmount t)); [|lra].
    apply Qle_trans with (binary64 b); [lra|apply binary64_le; lra].
  - apply IH; assumption.
Qed.

Lemma filter_all (l : list Transaction) : List.filter (fun _ => true) l = l.
Proof. induction l as [|t l IH]; simpl; [|rewrite IH]; reflexivity. Qed.

Lemma sales_le_total (f : Transaction -> bool) l :
  (forall t, In t l -> 0 <= totalAmount t) ->
  0 <= sumTotals (List.filter f l) /\
  sumTotals (List.filter f l) <= sumTotals l.
Proof.
  intros Hpos. unfold sumTotals. split.
  - apply sum_nonneg; [|lra].
    intros t Hin. apply filter_In in Hin as [Hin _]. apply Hpos, Hin.
  - rewrite <- (filter_all l) at 2.
    apply sums_le; [exact Hpos|reflexivity|lra|apply binary64_0].
Qed.

End DashboardSales.

(** X19. With transactions whose totals are not negative, the sales figures
    of the dashboard are in order, rounding included: the sales of today are
    not negative and do not exceed the sales of this month when today is in
    this month, and neither the sales of this month nor those of last month
    exceed the total sales. *)
Theorem X19_sales_figures_are_in_order
  (transactions : list Dashboard.Transaction)
  (today thisMonth lastMonth lastMonthEnd : Z) :
  (forall t, In t transactions -> 0 <= Dashboard.totalAmount t) ->
  (thisMonth <= today)%Z ->
  0 <= Dashboard.salesSince today transactions /\
  Dashboard.salesSince today transactions <=
    Dashboard.salesSince thisMonth transactions /\
  Dashboard.salesSince thisMonth transactions <=
    Dashboard.totalSales transactions /\
  0 <= Dashboard.salesBetween lastMonth lastMonthEnd transactions /\
  Dashboard.salesBetween lastMonth lastMonthEnd transactions <=
    Dashboard.totalSales transactions.
Proof.
  intros Hpos Htoday.
  unfold Dashboard.salesSince, Dashboard.salesBetween, Dashboard.totalSales.
  split; [apply sales_le_total, Hpos|].
  split; [|split; [apply sales_le_total, Hpos|apply sales_le_total, Hpos]].
  unfold Dashboard.sumTotals.
  apply sums_le; [exact Hpos| |lra|apply binary64_0].
  intros t H. rewrite Z.geb_leb in *. apply Z.leb_le in H. apply Z.leb_le.
  lia.
Qed.

(** The sales of this month and of last month can exceed the total sales:
    19.99 and 0.30 this month and 5.49 last month are summed to 20.29 and
    5.49, and all three to 25.779999999999998. *)
Example sales_need_not_add_up :
  let transactions :=
    [Dashboard.mkTransaction "t0" [] (binary64 (1999 # 100)) completed 50;
     Dashboard.mkTransaction "t1" [] (binary64 (549 # 100)) completed 10;
     Dashboard.mkTransaction "t2" [] (binary64 (30 # 100)) completed 60] in
  Dashboard.totalSales transactions <
  Dashboard.salesSince 50 transactions +
  Dashboard.salesBetween 0 49 transactions.
Proof. vm_compute. reflexivity. Qed.

(** * The growth figure of the dashboard *)

#[global] Instance round_proper : Proper (Qeq ==> Qeq) Dashboard.round.
Proof. intros x y H. unfold Dashboard.round. rewrite H. reflexivity. Qed.

Section DashboardGrowth.

Import Dashboard.

Lemma round_le x y : x <= y -> round x <= round y.
Proof.
  intros H. unfold round. rewrite <- Zle_Qle. apply Qfloor_resp_le. lra.
Qed.

Lemma round_Z z : round (inject_Z z) == inject_Z z.
Proof.
  unfold round.
  assert (H : Qfloor (inject_Z z + (1 # 2)) = z); [|rewrite H; reflexivity].
  pose proof (Qfloor_le (inject_Z z + (1 # 2))) as H1.
  pose proof (Qlt_floor (inject_Z z + (1 # 2))) as H2.
  rewrite inject_Z_plus in H2. change (inject_Z 1) with 1 in H2.
  assert (Ha : inject_Z (Qfloor (inject_Z z + (1 # 2))) < inject_Z (z + 1)).
  { rewrite inject_Z_plus. change (inject_Z 1) with 1. lra. }
  assert (Hb : inject_Z (z - 1) < inject_Z (Qfloor (inject_Z z + (1 # 2)))).
  { replace (z - 1)%Z with (z + -1)%Z by lia.
    rewrite inject_Z_plus. change (inject_Z (-1)) with (-1). lra. }
  rewrite <- Zlt_Qlt in Ha, Hb. lia.
Qed.

Lemma rounded (z : Z) :
  (Z.abs z <= 2 ^ 53)%Z -> binary64 (inject_Z z) == inject_Z z.
Proof. apply binary64_Z. Qed.

(** The growth does not fall when this month's sales rise. *)
Lemma monthlyGrowth_le t1 t2 l :
  t1 <= t2 -> monthlyGrowth t1 l <= monthlyGrowth t2 l.
Proof.
  intros H. unfold monthlyGrowth.
  destruct (num_gt l 0) eqn:Hl.
  - apply num_lt_iff in Hl.
    apply binary64_le. apply Qmult_le_compat_r; [|lra].
    apply binary64_le. apply Qmult_le_compat_r;
      [|apply Qlt_le_weak, Qinv_lt_0_compat, Hl].
    apply binary64_le. lra.
  - destruct (num_gt t1 0) eqn:H1; destruct (num_gt t2 0) eqn:H2; try lra.
    apply num_lt_iff in H1. apply num_lt_false_iff in H2. lra.
Qed.

Lemma roundedGrowth_le g1 g2 :
  g1 <= g2 -> roundedGrowth g1 <= roundedGrowth g2.
Proof.
  intros H. unfold roundedGrowth.
  apply binary64_le.
  apply Qmult_le_compat_r; [|apply Qlt_le_weak, Qinv_lt_0_compat; reflexivity].
  apply round_le, binary64_le. lra.
Qed.

(** The growth when this month's sales are those of last month, and when
    there are none. *)
Lemma monthlyGrowth_same l :
  0 < l -> monthlyGrowth l l == 0.
Proof.
  intros Hl. unfold monthlyGrowth.
  assert (Hgt : num_gt l 0 = true) by (apply num_lt_iff; exact Hl).
  rewrite Hgt.
  rewrite (binary64_comp (l - l) 0) by ring. rewrite binary64_0.
  rewrite (binary64_comp (0 / l) 0) by (field; lra). rewrite binary64_0.
  rewrite (binary64_comp (0 * 100) 0) by ring. apply binary64_0.
Qed.

Lemma monthlyGrowth_none l :
  0 < l -> binary64 l == l -> monthlyGrowth 0 l == -100.
Proof.
  intros Hl Hrep. unfold monthlyGrowth.
  assert (Hgt : num_gt l 0 = true) by (apply num_lt_iff; exact Hl).
  rewrite Hgt.
  rewrite (binary64_comp (0 - l) (- l)) by ring.
  rewrite binary64_opp, Hrep.
  rewrite (binary64_comp (- l / l) (inject_Z (-1))) by (field; lra).
  rewrite rounded by (vm_compute; discriminate).
  rewrite (binary64_comp (inject_Z (-1) * 100) (inject_Z (-100)))
    by reflexivity.
  apply rounded. vm_compute. discriminate.
Qed.

Lemma roundedGrowth_Z z :
  (Z.abs z <= 2 ^ 49)%Z -> roundedGrowth (inject_Z z) == inject_Z z.
Proof.
  intros Hz. unfold roundedGrowth.
  rewrite (binary64_comp (inject_Z z * 10) (inject_Z (z * 10)))
    by (rewrite inject_Z_mult; reflexivity).
  rewrite rounded by lia.
  rewrite (binary64_comp (round (inject_Z (z * 10)) / 10) (inject_Z z)).
  - apply rounded. lia.
  - rewrite round_Z, inject_Z_mult. field.
Qed.

End DashboardGrowth.

(** X20. The growth figure of the dashboard, rounding included. With sales
    of this month that are not negative, the growth and the figure shown for
    it are at least -100. They are not positive when the sales have not
    risen and not negative when they have not fallen; they are 0 when the
    sales are the same and -100 when this month has none. When last month
    had no sales they are 100 if this month has some and 0 otherwise.
    Neither falls when this month's sales rise. *)
Theorem X20_monthly_growth_figure
  (thisMonthSales lastMonthSales : Q) :
  0 <= thisMonthSales ->
  binary64 lastMonthSales == lastMonthSales ->
  let growth := Dashboard.monthlyGrowth thisMonthSales lastMonthSales in
  let shown := Dashboard.roundedGrowth growth in
  -100 <= growth /\ -100 <= shown /\
  (0 < lastMonthSales -> thisMonthSales <= lastMonthSales ->
   growth <= 0 /\ shown <= 0) /\
  (0 < lastMonthSales -> lastMonthSales <= thisMonthSales ->
   0 <= growth /\ 0 <= shown) /\
  (0 < lastMonthSales -> thisMonthSales == 0 ->
   growth == -100 /\ shown == -100) /\
  (lastMonthSales <= 0 ->
   growth = (if num_gt thisMonthSales 0 then 100 else 0) /\
   shown == growth) /\
  (forall more,
     thisMonthSales <= more ->
     growth <= Dashboard.monthlyGrowth more lastMonthSales /\
     shown <=
       Dashboard.roundedGrowth (Dashboard.monthlyGrowth more lastMonthSales)).
Proof.
  intros Hthis Hrep growth shown.
  assert (Hz0 : Dashboard.roundedGrowth 0 == 0)
    by (apply (roundedGrowth_Z 0); vm_compute; discriminate).
  assert (Hz100 : Dashboard.roundedGrowth 100 == 100)
    by (apply (roundedGrowth_Z 100); vm_compute; discriminate).
  assert (Hzm : Dashboard.roundedGrowth (-100) == -100)
    by (apply (roundedGrowth_Z (-100)); vm_compute; discriminate).
  assert (Hmono : forall more,
            thisMonthSales <= more ->
            growth <= Dashboard.monthlyGrowth more lastMonthSales /\
            shown <=
              Dashboard.roundedGrowth
                (Dashboard.monthlyGrowth more lastMonthSales)).
  { intros more Hmore.
    pose proof (monthlyGrowth_le _ _ lastMonthSales Hmore) as Hg.
    split; [exact Hg|apply roundedGrowth_le, Hg]. }
  assert (Hlow : -100 <= growth).
  { unfold growth.
    destruct (Qlt_le_dec 0 lastMonthSales) as [Hl|Hl].
    - rewrite <- (monthlyGrowth_none lastMonthSales Hl Hrep).
      apply monthlyGrowth_le, Hthis.
    - unfold Dashboard.monthlyGrowth.
      replace (num_gt lastMonthSales 0) with false
        by (symmetry; apply num_lt_false_iff; exact Hl).
      destruct (num_gt thisMonthSales 0); lra. }
  assert (Hlow' : -100 <= shown).
  { unfold shown. rewrite <- Hzm. apply roundedGrowth_le, Hlow. }
  split; [exact Hlow|]. split; [exact Hlow'|].
  split; [|split; [|split; [|split; [|exact Hmono]]]].
  - intros Hl Hle.
    assert (Hg : growth <= 0).
    { unfold growth. rewrite <- (monthlyGrowth_same lastMonthSales Hl).
      apply monthlyGrowth_le, Hle. }
    split; [exact Hg|]. unfold shown. rewrite <- Hz0.
    apply roundedGrowth_le, Hg.
  - intros Hl Hle.
    assert (Hg : 0 <= growth).
    { unfold growth. rewrite <- (monthlyGrowth_same lastMonthSales Hl).
      apply monthlyGrowth_le, Hle. }
    split; [exact Hg|]. unfold shown. rewrite <- Hz0.
    apply roundedGrowth_le, Hg.
  - intros Hl Hnone.
    assert (Hg : growth == -100).
    { apply Qle_antisym; [|exact Hlow].
      unfold growth. rewrite <- (monthlyGrowth_none lastMonthSales Hl Hrep).
      apply monthlyGrowth_le. lra. }
    split; [exact Hg|].
    apply Qle_antisym; [|exact Hlow'].
    unfold shown. rewrite <- Hzm. apply roundedGrowth_le. lra.
  - intros Hl. unfold shown, growth, Dashboard.monthlyGrowth.
    replace (num_gt lastMonthSales 0) with false
      by (symmetry; apply num_lt_false_iff; exact Hl).
    split; [reflexivity|].
    destruct (num_gt thisMonthSales 0); assumption.
Qed.

(** Sales of 103 after sales of 80 are a growth of 28.75 percent; the page
    computes 28.749999999999996 and shows 28.7. *)
Example growth_of_103_over_80 :
  (103 - 80) / 80 * 100 == 2875 # 100 /\
  Dashboard.monthlyGrowth 103 80 < 2875 # 100 /\
  Dashboard.roundedGrowth (Dashboard.monthlyGrowth 103 80) ==
    binary64 (287 # 10).
Proof. repeat split; vm_compute; reflexivity. Qed.

(** X21. The age that the dashboard prints for a transaction, by the whole
    minutes [m] since it was made: "Just now" below one minute, also for a
    time in the future; the minutes, from 1 to 59; the hours, from 1 to 23,
    "1 hour" up to 119 minutes; then the days, "1 day" up to 2879 minutes. *)
Theorem X21_time_ago_text (now transactionDate : Z) :
  let m := ((now - transactionDate) / 60000)%Z in
  ((m < 1)%Z -> Dashboard.timeAgo now transactionDate = "Just now") /\
  ((1 <= m < 60)%Z ->
   Dashboard.timeAgo now transactionDate = pretty m +:+ " min ago") /\
  ((60 <= m < 120)%Z ->
   Dashboard.timeAgo now transactionDate = "1 hour ago") /\
  ((120 <= m < 1440)%Z ->
   Dashboard.timeAgo now transactionDate = pretty (m / 60)%Z +:+ " hours ago" /\
   (2 <= m / 60 <= 23)%Z) /\
  ((1440 <= m < 2880)%Z ->
   Dashboard.timeAgo now transactionDate = "1 day ago") /\
  ((2880 <= m)%Z ->
   Dashboard.timeAgo now transactionDate = pretty (m / 1440)%Z +:+ " days ago" /\
   (2 <= m / 1440)%Z).
Proof.
  intros m. unfold Dashboard.timeAgo.
  change ((now - transactionDate) / (1000 * 60))%Z with m.
  assert (Hone : forall x, (1 <= x < 2)%Z -> x = 1%Z) by (intros; lia).
  split; [intros H|split; [intros H|split; [intros H|split;
    [intros H; split|split; [intros H|intros H; split]]]]].
  - replace (m <? 1)%Z with true by (symmetry; apply Z.ltb_lt; lia).
    reflexivity.
  - replace (m <? 1)%Z with false by (symmetry; apply Z.ltb_ge; lia).
    replace (m <? 60)%Z with true by (symmetry; apply Z.ltb_lt; lia).
    reflexivity.
  - replace (m <? 1)%Z with false by (symmetry; apply Z.ltb_ge; lia).
    replace (m <? 60)%Z with false by (symmetry; apply Z.ltb_ge; lia).
    replace (m <? 1440)%Z with true by (symmetry; apply Z.ltb_lt; lia).
    rewrite (Hone (m / 60)%Z); [reflexivity|].
    split; [apply Z.div_le_lower_bound|apply Z.div_lt_upper_bound]; lia.
  - replace (m <? 1)%Z with false by (symmetry; apply Z.ltb_ge; lia).
    replace (m <? 60)%Z with false by (symmetry; apply Z.ltb_ge; lia).
    replace (m <? 1440)%Z with true by (symmetry; apply Z.ltb_lt; lia).
    replace (m / 60 >? 1)%Z with true; [reflexivity|].
    symmetry. apply Z.gtb_lt.
    assert (2 <= m / 60)%Z by (apply Z.div_le_lower_bound; lia). lia.
  - assert (m / 60 < 24)%Z by (apply Z.div_lt_upper_bound; lia).
    assert (2 <= m / 60)%Z by (apply Z.div_le_lower_bound; lia). lia.
  - replace (m <? 1)%Z with false by (symmetry; apply Z.ltb_ge; lia).
    replace (m <? 60)%Z with false by (symmetry; apply Z.ltb_ge; lia).
    replace (m <? 1440)%Z with false by (symmetry; apply Z.ltb_ge; lia).
    rewrite (Hone (m / 1440)%Z); [reflexivity|].
    split; [apply Z.div_le_lower_bound|apply Z.div_lt_upper_bound]; lia.
  - replace (m <? 1)%Z with false by (symmetry; apply Z.ltb_ge; lia).
    replace (m <? 60)%Z with false by (symmetry; apply Z.ltb_ge; lia).
    replace (m <? 1440)%Z with false by (symmetry; apply Z.ltb_ge; lia).
    replace (m / 1440 >? 1)%Z with true; [reflexivity|].
    symmetry. apply Z.gtb_lt.
    assert (2 <= m / 1440)%Z by (apply Z.div_le_lower_bound; lia). lia.
  - apply Z.div_le_lower_bound; lia.
Qed.

(** * Returned stock is put back in full *)

(** X9. When the cashier has a lot, of whatever status, a positive returned
    quantity goes to one lot of that cashier in full: the stock of the
    product in that lot grows by the quantity, and every other lot is as it
    was. *)
Theorem X9_reinstate_puts_stock_into_one_lot
  (db : list Distribution) (cashierId : string)
  (originalItem : ITransactionItem) (q : Q) (h0 : nat) (d0 : Distribution) :
  0 < q ->
  db !! h0 = Some d0 -> dist_cashierId d0 = cashierId ->
  exists h d,
    db !! h = Some d /\ dist_cashierId d = cashierId /\
    putInto db (ReturnRoute.reinstate cashierId originalItem q db) h
      (ti_productId originalItem) q.
Proof. apply reinstate_one_lot. Qed.

Section ReturnedStock.

Import ReturnRoute.

Lemma ownedStock_insert cashierId pid db : forall h d d',
  db !! h = Some d ->
  dist_cashierId d = cashierId -> dist_cashierId d' = cashierId ->
  ownedStock (<[h := d']> db) cashierId pid ==
  ownedStock db cashierId pid - lotStock pid d + lotStock pid d'.
Proof.
  unfold ownedStock.
  induction db as [|x db IH]; intros [|h] d d' Hd Hc Hc'; try discriminate;
    simpl in *.
  - injection Hd as ->. rewrite Hc, Hc', String.eqb_refl. lra.
  - destruct (String.eqb (dist_cashierId x) cashierId);
      rewrite (IH h d d' Hd Hc Hc'); lra.
Qed.

(** One reinstatement raises the stock of the returned product in the lots
    of the cashier by the returned quantity, and of no other product. *)
Lemma reinstate_ownedStock db cashierId originalItem q h0 d0 pid :
  0 < q -> db !! h0 = Some d0 -> dist_cashierId d0 = cashierId ->
  ownedStock (reinstate cashierId originalItem q db) cashierId pid ==
    ownedStock db cashierId pid +
    (if String.eqb (ti_productId originalItem) pid then q else 0) /\
  exists h1 d1,
    reinstate cashierId originalItem q db !! h1 = Some d1 /\
    dist_cashierId d1 = cashierId.
Proof.
  intros Hq Hd0 Hc0.
  destruct (reinstate_one_lot db cashierId originalItem q h0 d0 Hq Hd0 Hc0)
    as (h & d & Hd & Hc & d2 & d' & Hd2 & -> & Hs & Ho & _ & Hc' & _).
  assert (d2 = d) as -> by congruence. rewrite Hc in Hc'.
  split.
  - rewrite (ownedStock_insert cashierId pid db h d d' Hd Hc Hc').
    destruct (String.eqb_spec (ti_productId originalItem) pid) as [<-|Hne].
    + rewrite Hs. lra.
    + rewrite (Ho pid) by congruence. lra.
  - exists h, d'. split; [|exact Hc'].
    apply list_lookup_insert_eq. eapply lookup_lt_Some, Hd.
Qed.

Lemma returnedOf_app pid rs1 rs2 :
  returnedOf pid (rs1 ++ rs2) == returnedOf pid rs1 + returnedOf pid rs2.
Proof.
  induction rs1 as [|r rs1 IH]; simpl; [lra|].
  destruct (String.eqb (ri_productId r) pid); rewrite IH; lra.
Qed.

(** The loop, for lines of positive quantity. *)
Lemma processLines_ownedStock t now pid reqs : forall st st',
  processLines t now st reqs = inr st' ->
  List.Forall (fun req => 0 < quantity req) reqs ->
  (exists h d, db st !! h = Some d /\ dist_cashierId d = tx_cashierId t) ->
  exists news,
    newReturnedItems st' = newReturnedItems st ++ news /\
    ownedStock (db st') (tx_cashierId t) pid ==
      ownedStock (db st) (tx_cashierId t) pid + returnedOf pid news.
Proof.
  induction reqs as [|req reqs IH]; intros st st' H Hpos Hlot; simpl in H.
  - injection H as <-. exists []. rewrite app_nil_r. simpl. split; [|lra].
    reflexivity.
  - apply List.Forall_cons_iff in Hpos as [Hq Hpos].
    destruct (processLine t now st req) as [e|st1] eqn:E; [discriminate|].
    unfold processLine in E.
    destruct (_ || _); [discriminate|].
    destruct (tx_items t !! _) as [o|]; [|discriminate].
    destruct (num_gt _ _); [discriminate|].
    injection E as <-.
    destruct Hlot as (h0 & d0 & Hd0 & Hc0).
    destruct (reinstate_ownedStock (db st) (tx_cashierId t) o (quantity req)
                h0 d0 pid Hq Hd0 Hc0) as [Hstock Hlot1].
    destruct (IH _ _ H Hpos Hlot1) as (news & Hnew & Hsum).
    simpl in Hnew, Hsum.
    exists (newReturnedItem o req now :: news). split.
    + rewrite Hnew, <- app_assoc. reflexivity.
    + rewrite Hsum, Hstock. simpl.
      destruct (String.eqb (ti_productId o) pid); lra.
Qed.

End ReturnedStock.

(** X22. An accepted return puts back all it records: when the cashier of
    the transaction has a lot, of whatever status, the stock of every product
    in the lots of that cashier grows by the quantity of the product in the
    returned items that the request appends. *)
Theorem X22_accepted_return_reinstates_all_it_records
  (db : list Distribution) (t : ITransaction)
  (reqs : list ReturnRoute.ReturnRequest) (now : Z)
  (t' : ITransaction) (amount : Q) (h0 : nat) (d0 : Distribution) :
  ReturnRoute.response (processReturn db (Some t) reqs now) =
    ReturnRoute.Success t' amount ->
  db !! h0 = Some d0 -> dist_cashierId d0 = tx_cashierId t ->
  exists news,
    tx_returnedItems t' = tx_returnedItems t ++ news /\
    forall pid,
      ownedStock (ReturnRoute.dists (processReturn db (Some t) reqs now))
        (tx_cashierId t) pid ==
      ownedStock db (tx_cashierId t) pid + returnedOf pid news.
Proof.
  intros H Hd0 Hc0.
  pose proof (POST_success_valid _ _ _ _ _ _ H) as V.
  pose proof H as H'.
  apply POST_success in H' as (t0 & st & [= <-] & Hlines & -> & _).
  assert (Hdists : ReturnRoute.dists (processReturn db (Some t) reqs now) =
                   ReturnRoute.db st).
  { revert H. unfold processReturn, ReturnRoute.POST.
    destruct reqs; [discriminate|]. rewrite Hlines.
    destruct (TransactionSchema _); [reflexivity|discriminate]. }
  rewrite Hdists.
  destruct (processLines_inr _ _ _ _ _ Hlines) as (news & Hall & Hnew & _).
  simpl in Hnew.
  assert (Hpos : List.Forall (fun req => 0 < ReturnRoute.quantity req) reqs).
  { apply List.Forall_forall. intros req Hin.
    destruct (Forall2_In_left _ _ _ _ Hall Hin)
      as (r & Hr & o & _ & _ & _ & ->).
    assert (1 <= ri_quantity (ReturnRoute.newReturnedItem o req now)).
    { apply (TransactionSchema_returned _ _ V).
      rewrite (proj1 (proj2 (updateTransaction_fields t st))), Hnew.
      apply in_or_app. right. exact Hr. }
    simpl in *. lra. }
  exists news. split.
  - rewrite (proj1 (proj2 (updateTransaction_fields t st))), Hnew.
    reflexivity.
  - intros pid.
    destruct (processLines_ownedStock t now pid reqs _ _ Hlines Hpos)
      as (news' & Hnew' & Hsum); [simpl; eauto|].
    simpl in Hnew', Hsum. rewrite Hnew in Hnew'. subst news'. exact Hsum.
Qed.

(** * Rejected transfers, and the emptiness of cancelled lots *)

(** X23. A transfer with an item that the stock of the sender, summed over
    the sender's pending and delivered lots, does not cover is rejected with
    the collection as it was, no lot being depleted, provided the product id
    of the item is not the name of a member of [Object.prototype]. *)
Theorem X23_transfer_short_of_stock_is_rejected
  (db : list Distribution) (sender receiver : string)
  (items : list TransferRoute.TransferItem) (notes : string) (now : Z)
  (item : TransferRoute.TransferItem) :
  In item items ->
  ~ In (TransferRoute.productId item) TransferRoute.objectPrototype ->
  cashierStock db sender (TransferRoute.productId item) <
    TransferRoute.quantity item ->
  exists e,
    transferStock db sender receiver items notes now =
    (TransferRoute.Failure e, db).
Proof. apply short_item_rejected. Qed.

(** X24. A transfer that is rejected, for whatever reason, leaves the
    distribution collection as it was. *)
Theorem X24_rejected_transfer_changes_nothing
  (db : list Distribution) (sender receiver : string)
  (items : list TransferRoute.TransferItem) (notes : string) (now : Z)
  (e : TransferRoute.TransferError) :
  (transferStock db sender receiver items notes now).1 =
    TransferRoute.Failure e ->
  (transferStock db sender receiver items notes now).2 = db.
Proof.
  unfold transferStock, TransferRoute.POST.
  destruct (_ || _ || _); [reflexivity|].
  destruct (String.eqb _ _); [reflexivity|].
  destruct (existsb _ _); [reflexivity|].
  destruct (TransferRoute.checkStock _ _); [reflexivity|discriminate].
Qed.

(** X25. Both handlers keep cancelled lots empty: when no cancelled lot of
    the collection has a line, none has one after a return or a transfer,
    accepted or rejected. *)
Theorem X25_cancelled_lots_stay_empty (db : list Distribution) :
  cancelledEmpty db ->
  (forall found reqs now,
     cancelledEmpty (ReturnRoute.dists (processReturn db found reqs now))) /\
  (forall sender receiver items notes now,
     cancelledEmpty (transferStock db sender receiver items notes now).2).
Proof.
  intros Hdb. split.
  - intros [t|] reqs now.
    + apply POST_preserves; [|exact Hdb].
      intros originalItem q db0. apply reinstate_cancelledEmpty.
    + unfold processReturn, ReturnRoute.POST. destruct reqs; exact Hdb.
  - intros sender receiver items notes now.
    unfold transferStock, TransferRoute.POST.
    destruct (_ || _ || _); [exact Hdb|].
    destruct (String.eqb _ _); [exact Hdb|].
    destruct (existsb _ _); [exact Hdb|].
    destruct (TransferRoute.checkStock _ _); [exact Hdb|]. simpl.
    apply receive_cancelledEmpty.
    generalize (find (fun d => String.eqb (dist_cashierId d) sender &&
                               isActive d) db).
    intros hs. revert db Hdb.
    induction items as [|item items IH]; intros db Hdb; [exact Hdb|].
    simpl. apply IH. unfold TransferRoute.deplete.
    apply depleteLoop_cancelledEmpty, Hdb.
Qed.

(** * Instances of the further properties at the sample data *)

Lemma X1_rejected_return_keeps_transaction_witness :
  ReturnRoute.stored
    (processReturn Sample.oneLot (Some Sample.sale) [Sample.line 0 9] 0) =
  Some Sample.sale.
Proof.
  eapply (X1_rejected_return_keeps_transaction Sample.oneLot
            (Some Sample.sale) [Sample.line 0 9] 0%Z).
  vm_compute. reflexivity.
Defined.

Lemma X2_failing_line_rejects_request_witness :
  exists e,
    ReturnRoute.response
      (processReturn Sample.oneLot (Some Sample.sale)
         [Sample.line 0 1; Sample.line 0 9] 0) = ReturnRoute.Failure e /\
    ReturnRoute.httpStatus e = 400%Z /\
    ReturnRoute.stored
      (processReturn Sample.oneLot (Some Sample.sale)
         [Sample.line 0 1; Sample.line 0 9] 0) = Some Sample.sale.
Proof.
  apply (X2_failing_line_rejects_request Sample.oneLot Sample.sale
           [Sample.line 0 1; Sample.line 0 9] 0%Z (Sample.line 0 9)).
  - right. left. reflexivity.
  - right. right. exists Sample.widget. split; [reflexivity|].
    vm_compute. reflexivity.
Defined.

Lemma X3_first_line_failure_changes_nothing_witness :
  exists e,
    processReturn Sample.oneLot (Some Sample.sale)
      [Sample.line 5 1; Sample.line 0 1] 0 =
    ReturnRoute.mkOutcome (ReturnRoute.Failure e) Sample.oneLot
      (Some Sample.sale).
Proof.
  apply (X3_first_line_failure_changes_nothing Sample.oneLot Sample.sale
           (Sample.line 5 1) [Sample.line 0 1] 0%Z).
  right. left. vm_compute. intros H. discriminate H.
Defined.


Lemma X5_one_line_return_within_quantity_sold_witness :
  exists t' amount,
    ReturnRoute.response
      (processReturn Sample.oneLot (Some Sample.sale) [Sample.line 0 3] 0) =
      ReturnRoute.Success t' amount /\
    ReturnRoute.alreadyReturned t' Sample.widget <= 4.
Proof.
  do 2 eexists. split; [vm_compute; reflexivity|].
  refine (proj2 (X5_one_line_return_within_quantity_sold Sample.oneLot
                   Sample.sale (Sample.line 0 3) 0%Z _ (0 + 360 / 4 * 3)
                   Sample.widget _ _)).
  - vm_compute. reflexivity.
  - reflexivity.
Defined.

Lemma X6_return_never_raises_totals_witness :
  exists t' amount,
    ReturnRoute.response
      (processReturn Sample.oneLot (Some Sample.sale) [Sample.line 0 3] 0) =
      ReturnRoute.Success t' amount /\
    0 <= amount /\ tx_totalAmount t' <= 360.
Proof.
  do 2 eexists. split; [vm_compute; reflexivity|].
  refine ((fun H => conj (proj1 H) (proj2 (proj2 (proj2 (proj2 H)))))
            (X6_return_never_raises_totals Sample.oneLot Sample.sale
               [Sample.line 0 3] 0%Z _ _ _ _ _)).
  - vm_compute. intros H. discriminate H.
  - vm_compute. intros H. discriminate H.
  - vm_compute. reflexivity.
Defined.

Lemma X7_return_leaves_other_cashiers_lots_witness :
  ReturnRoute.dists
    (processReturn Sample.otherLots (Some Sample.sale) [Sample.line 0 1] 0)
    !! 1%nat = Some (Sample.lot "c2" delivered 2 [Sample.widgets 3]) /\
  length
    (ReturnRoute.dists
       (processReturn Sample.otherLots (Some Sample.sale)
          [Sample.line 0 1] 0)) = length Sample.otherLots.
Proof.
  apply (X7_return_leaves_other_cashiers_lots Sample.otherLots Sample.sale
           [Sample.line 0 1] 0%Z 1%nat).
  - reflexivity.
  - intros H. discriminate H.
Defined.

Lemma X8_return_without_lots_drops_stock_witness :
  ReturnRoute.dists
    (processReturn [Sample.lot "c2" delivered 2 [Sample.widgets 3]]
       (Some Sample.sale) [Sample.line 0 1] 0) =
  [Sample.lot "c2" delivered 2 [Sample.widgets 3]].
Proof.
  apply (X8_return_without_lots_drops_stock
           [Sample.lot "c2" delivered 2 [Sample.widgets 3]] Sample.sale
           [Sample.line 0 1] 0%Z).
  intros d [<-|[]] H. discriminate H.
Defined.

Lemma X9_reinstate_puts_stock_into_one_lot_witness :
  exists h d,
    Sample.twoLots !! h = Some d /\ dist_cashierId d = "c1" /\
    putInto Sample.twoLots
      (ReturnRoute.reinstate "c1" Sample.widget 1 Sample.twoLots) h "p1" 1.
Proof.
  apply (X9_reinstate_puts_stock_into_one_lot Sample.twoLots "c1"
           Sample.widget 1 0%nat
           (Sample.lot "c1" delivered 1 [Sample.widgets 6]));
    reflexivity.
Defined.

Lemma X22_accepted_return_reinstates_all_it_records_witness :
  exists t' amount,
    ReturnRoute.response
      (processReturn Sample.twoLots (Some Sample.sale) [Sample.line 0 3] 0) =
      ReturnRoute.Success t' amount /\
    exists news,
      tx_returnedItems t' = tx_returnedItems Sample.sale ++ news /\
      forall pid,
        ownedStock
          (ReturnRoute.dists
             (processReturn Sample.twoLots (Some Sample.sale)
                [Sample.line 0 3] 0)) "c1" pid ==
        ownedStock Sample.twoLots "c1" pid + returnedOf pid news.
Proof.
  do 2 eexists. split; [vm_compute; reflexivity|].
  apply (X22_accepted_return_reinstates_all_it_records Sample.twoLots
           Sample.sale [Sample.line 0 3] 0%Z _ (0 + 360 / 4 * 3) 0%nat
           (Sample.lot "c1" delivered 1 [Sample.widgets 6]));
    [vm_compute; reflexivity|reflexivity|reflexivity].
Defined.

Lemma X10_transfer_leaves_third_party_lots_witness :
  (transferStock Sample.otherLots "c1" "c2" [Sample.request "p1" 2] "" 9).2
    !! 2%nat = Some (Sample.lot "c3" cancelled 3 [Sample.widgets 9]) /\
  (length Sample.otherLots <=
   length
     (transferStock Sample.otherLots "c1" "c2" [Sample.request "p1" 2] "" 9).2)
    %nat.
Proof.
  apply (X10_transfer_leaves_third_party_lots Sample.otherLots "c1" "c2"
           [Sample.request "p1" 2] "" 9%Z 2%nat).
  - reflexivity.
  - intros H. discriminate H.
  - intros H. discriminate H.
Defined.

Lemma X11_transfer_rejects_incomplete_item_witness :
  exists e,
    transferStock Sample.otherLots "c1" "c2"
      [Sample.request "p1" 2; Sample.request "p1" 0] "" 9 =
    (TransferRoute.Failure e, Sample.otherLots) /\
    (forall name available requested,
       e <> TransferRoute.InsufficientStock name available requested).
Proof.
  apply (X11_transfer_rejects_incomplete_item Sample.otherLots "c1" "c2"
           [Sample.request "p1" 2; Sample.request "p1" 0] "" 9%Z
           (Sample.request "p1" 0)).
  - right. left. reflexivity.
  - right. right. right. right. left. reflexivity.
Defined.

Lemma X12_transfer_accepted_iff_witness :
  (transferStock Sample.otherLots "c1" "c2" [Sample.request "p1" 2] "" 9).1 =
  TransferRoute.Success.
Proof.
  apply (proj2 (X12_transfer_accepted_iff Sample.otherLots "c1" "c2"
                  [Sample.request "p1" 2] "" 9%Z)).
  repeat split; try discriminate.
  constructor; [|constructor].
  unfold itemAccepted. simpl.
  repeat (split;
          [first [discriminate | vm_compute; intros H; discriminate H]|]).
  right. vm_compute. intros H. discriminate H.
Defined.

Lemma X14_transfer_adds_requested_to_receiver_witness :
  exists db',
    transferStock Sample.otherLots "c1" "c2" [Sample.request "p1" 2] "" 9 =
      (TransferRoute.Success, db') /\
    cashierStock db' "c2" "p1" ==
    cashierStock Sample.otherLots "c2" "p1" +
    requestedOf "p1" [Sample.request "p1" 2].
Proof.
  eexists. split; [vm_compute; reflexivity|].
  apply (X14_transfer_adds_requested_to_receiver Sample.otherLots "c1" "c2"
           [Sample.request "p1" 2] "" 9%Z).
  vm_compute. reflexivity.
Defined.


Lemma X16_transfer_creates_delivered_lot_witness :
  exists db',
    transferStock Sample.otherLots "c1" "c3" [Sample.request "p1" 2] "" 9 =
      (TransferRoute.Success, db') /\
    length db' = 4%nat /\
    exists lot,
      db' !! 3%nat = Some lot /\ dist_status lot = delivered /\
      dist_cashierId lot = "c3".
Proof.
  eexists. split; [vm_compute; reflexivity|].
  destruct (X16_transfer_creates_delivered_lot Sample.otherLots "c1" "c3"
              [Sample.request "p1" 2] "" 9%Z _ eq_refl)
    as (Hlen & _ & lot & Hlot & Hs & Hc & _).
  - intros d [<-|[<-|[<-|[]]]] H; try discriminate H. reflexivity.
  - split; [exact Hlen|]. exists lot. repeat split; assumption.
Defined.

Lemma X17_low_stock_figure_matches_stock_status_witness :
  Dashboard.lowStockCount Sample.products = 2%nat /\
  forall p,
    In p (Dashboard.lowStockProducts Sample.products) ->
    Dashboard.status
      (Dashboard.getStockStatus (Dashboard.p_stock p)
         (Dashboard.p_minStock p)) <> "Good Stock".
Proof.
  destruct (X17_low_stock_figure_matches_stock_status Sample.products)
    as (Hcount & _ & Hshown).
  split; [rewrite Hcount; reflexivity|].
  intros p Hin. apply (Hshown p Hin).
Defined.

Lemma X18_recent_transactions_are_the_newest_witness :
  length (Dashboard.recentTransactions 300000 Sample.payments) = 4%nat /\
  Dashboard.sortedTransactions Sample.payments = [5; 4; 3; 2]%nat /\
  forall tj,
    Sample.payments !! 0%nat = Some tj ->
    (Dashboard.createdAt tj <= Dashboard.timeOf Sample.payments 2)%Z.
Proof.
  destruct (X18_recent_transactions_are_the_newest 300000 Sample.payments)
    as (Hlen & _ & _ & _ & Hout).
  split; [exact Hlen|]. split; [vm_compute; reflexivity|].
  intros tj Hj. apply (Hout 2%nat 0%nat tj); [|exact Hj|].
  - vm_compute. tauto.
  - vm_compute. intros [H|[H|[H|[H|[]]]]]; discriminate H.
Defined.

Lemma X21_time_ago_text_witness :
  Dashboard.timeAgo 7200000 0 = "2 hours ago".
Proof.
  destruct (proj1 (proj2 (proj2 (proj2 (X21_time_ago_text 7200000 0)))))
    as [Htext _].
  - split; [vm_compute; intros H; discriminate H|vm_compute; reflexivity].
  - rewrite Htext. vm_compute. reflexivity.
Defined.

Lemma C5_return_goes_to_active_lot_first_witness :
  cancelledEmpty Sample.oneLot /\
  exists originalItem,
    tx_items Sample.sale !! Z.to_nat 0 = Some originalItem.
Proof.
  assert (Hce : cancelledEmpty Sample.oneLot).
  { intros d [<-|[]] Hst. discriminate Hst. }
  split; [exact Hce|].
  edestruct (C5_return_goes_to_active_lot_first Sample.oneLot Sample.sale
               [Sample.line 0 1; Sample.line 0 2] 0%Z 1%nat
               (Sample.line 0 2))
    as (_ & o & Ho & _);
    [exact Hce|vm_compute; reflexivity|reflexivity|].
  exists o. exact Ho.
Defined.


Lemma X19_sales_figures_are_in_order_witness :
  0 <= Dashboard.salesSince 240000 Sample.payments /\
  Dashboard.salesSince 240000 Sample.payments <=
    Dashboard.salesSince 120000 Sample.payments /\
  Dashboard.salesSince 120000 Sample.payments <=
    Dashboard.totalSales Sample.payments /\
  0 <= Dashboard.salesBetween 0 60000 Sample.payments /\
  Dashboard.salesBetween 0 60000 Sample.payments <=
    Dashboard.totalSales Sample.payments.
Proof.
  apply (X19_sales_figures_are_in_order Sample.payments 240000 120000 0
           60000).
  - intros t [<-|[<-|[<-|[<-|[<-|[<-|[]]]]]]];
      vm_compute; intros H; discriminate H.
  - lia.
Defined.

Lemma X20_monthly_growth_figure_witness :
  -100 <= Dashboard.monthlyGrowth 150 200 /\
  -100 <= Dashboard.roundedGrowth (Dashboard.monthlyGrowth 150 200).
Proof.
  destruct (X20_monthly_growth_figure 150 200) as (H1 & H2 & _).
  - vm_compute. intros H. discriminate H.
  - vm_compute. reflexivity.
  - split; [exact H1|exact H2].
Defined.

Lemma X23_transfer_short_of_stock_is_rejected_witness :
  exists e,
    transferStock Sample.oneLot "c1" "c2" [Sample.request "p1" 9] "" 9 =
    (TransferRoute.Failure e, Sample.oneLot).
Proof.
  apply (X23_transfer_short_of_stock_is_rejected Sample.oneLot "c1" "c2"
           [Sample.request "p1" 9] "" 9%Z (Sample.request "p1" 9)).
  - left. reflexivity.
  - simpl. intros H.
    repeat (destruct H as [H|H]; [discriminate H|]). exact H.
  - vm_compute. reflexivity.
Defined.

Lemma X24_rejected_transfer_changes_nothing_witness :
  (transferStock Sample.oneLot "c1" "c2" [Sample.request "p1" 9] "" 9).2 =
  Sample.oneLot.
Proof.
  apply (X24_rejected_transfer_changes_nothing Sample.oneLot "c1" "c2"
           [Sample.request "p1" 9] "" 9%Z
           (TransferRoute.InsufficientStock "Widget" (TransferRoute.Num 6) 9)).
  vm_compute. reflexivity.
Defined.

Lemma X25_cancelled_lots_stay_empty_witness :
  cancelledEmpty Sample.oneLot /\
  cancelledEmpty
    (transferStock Sample.oneLot "c1" "c2" [Sample.request "p1" 6] "" 9).2.
Proof.
  assert (Hce : cancelledEmpty Sample.oneLot).
  { intros d [<-|[]] Hst. discriminate Hst. }
  split; [exact Hce|].
  apply (proj2 (X25_cancelled_lots_stay_empty Sample.oneLot Hce)).
Defined.
